(** * financial-extractor: the normalisation and projection core

    A shallow embedding of [models.py] (numeric, date and enum coercion and
    the pydantic record schema), [excel_exporting.py] (column projection,
    column groups and [flatten_record]) and the batch loop of
    [agent_field_matching.py], together with the parts of the Python
    runtime these functions call ([str] methods, [re], [decimal],
    [datetime.strptime], [calendar]).

    Conventions.
    - A Python [str] is a list of Unicode code points ([N]); dictionary keys
      and fixed vocabularies, which are only ever compared for equality, are
      Rocq [string]s.
    - A Python call that may raise returns a [result]; the exception classes
      the code can meet are the constructors of [exn].
    - The character classes [\d] and [\w] and the case mappings are those of
      the ASCII range, extended by the non-ASCII code points that the
      case-insensitive matching of [re] folds onto ASCII letters; digits and
      letters of other scripts are not classified.  Whitespace is the full
      set used by [str.strip] and [\s].
    - Floating-point inputs have no counterpart here. *)

From Stdlib Require Import List String Ascii ZArith NArith Lia Bool.
Import ListNotations.

Set Implicit Arguments.

(* ================================================================== *)
(** ** Exceptions and results *)

(** A step of the location of a pydantic error: a key or a list index. *)
Inductive loc_item : Type :=
| LKey (k : string)
| LIdx (i : nat).

Inductive exn : Type :=
| InvalidOperation          (* decimal.InvalidOperation *)
| DivisionByZero            (* decimal.DivisionByZero *)
| Overflow                  (* decimal.Overflow *)
| ValueError
| TypeError
| KeyError
| AttributeError
| ValidationError (errors : list (list loc_item * string)).
                            (* pydantic: (location, error type) pairs *)

Inductive result (A : Type) : Type :=
| Ok (a : A)
| Raise (e : exn).
Arguments Ok {A} a.
Arguments Raise {A} e.

Definition bind {A B} (r : result A) (f : A -> result B) : result B :=
  match r with
  | Ok a => f a
  | Raise e => Raise e
  end.

Declare Scope py_scope.
Delimit Scope py_scope with py.
Notation "x <- c1 ;; c2" := (bind c1 (fun x => c2))
  (at level 61, c1 at next level, right associativity) : py_scope.

Definition is_ok {A} (r : result A) : bool :=
  match r with Ok _ => true | Raise _ => false end.

(* ================================================================== *)
(** ** Python strings *)

Module PyStr.

Definition str := list N.

(** Code points of an ASCII literal. *)
Fixpoint u (s : string) : str :=
  match s with
  | EmptyString => []
  | String a s' => N_of_ascii a :: u s'
  end.

Definition EURO : N := 8364.      (* U+20AC *)
Definition POUND : N := 163.      (* U+00A3 *)

Fixpoint eqb (a b : str) : bool :=
  match a, b with
  | [], [] => true
  | x :: a', y :: b' => N.eqb x y && eqb a' b'
  | _, _ => false
  end.

Definition between (lo hi c : N) : bool := N.leb lo c && N.leb c hi.

(** [str.isspace] on one code point, which is also [\s] of [re]. *)
Definition isspace (c : N) : bool :=
  between 9 13 c || between 28 32 c || N.eqb c 133 || N.eqb c 160
  || N.eqb c 5760 || between 8192 8202 c || N.eqb c 8232 || N.eqb c 8233
  || N.eqb c 8239 || N.eqb c 8287 || N.eqb c 12288.

(** The decimal digits, general category Nd of Unicode 14.0 (the database
    of Python 3.11): the ASCII digits, and outside ASCII the runs of ten
    that start at the zeros listed here.  [digit_zero] is the zero of the
    run a digit lies in. *)
Definition digit_zeros : list N :=
  [1632; 1776; 1984; 2406; 2534; 2662; 2790; 2918; 3046; 3174; 3302; 3430;
   3558; 3664; 3792; 3872; 4160; 4240; 6112; 6160; 6470; 6608; 6784; 6800;
   6992; 7088; 7232; 7248; 42528; 43216; 43264; 43472; 43504; 43600; 44016;
   65296; 66720; 68912; 69734; 69872; 69942; 70096; 70384; 70736; 70864;
   71248; 71360; 71472; 71904; 72016; 72784; 73040; 73120; 92768; 92864;
   93008; 120782; 120792; 120802; 120812; 120822; 123200; 123632; 125264;
   130032]%N.
Definition digit_zero (c : N) : option N :=
  if between 48 57 c then Some 48%N
  else find (fun z => between z (z + 9) c) digit_zeros.

(** [\d] of [re] on a [str], which is [str.isdecimal] on one code point. *)
Definition isdigit (c : N) : bool :=
  match digit_zero c with Some _ => true | None => false end.
Definition isupper (c : N) : bool := between 65 90 c.
Definition islower (c : N) : bool := between 97 122 c.
Definition isalpha (c : N) : bool := isupper c || islower c.

(** [str.isalnum] on one code point: the ASCII letters and digits, and
    outside ASCII the ranges of the alphanumeric code points of
    Unicode 14.0. *)
Definition alnum_ranges : list (N * N) :=
  [(170, 170); (178, 179); (181, 181); (185, 186); (188, 190); (192, 214);
   (216, 246); (248, 705); (710, 721); (736, 740); (748, 748); (750, 750);
   (880, 884); (886, 887); (890, 893); (895, 895); (902, 902); (904, 906);
   (908, 908); (910, 929); (931, 1013); (1015, 1153); (1162, 1327); (1329,
   1366); (1369, 1369); (1376, 1416); (1488, 1514); (1519, 1522); (1568,
   1610); (1632, 1641); (1646, 1647); (1649, 1747); (1749, 1749); (1765,
   1766); (1774, 1788); (1791, 1791); (1808, 1808); (1810, 1839); (1869,
   1957); (1969, 1969); (1984, 2026); (2036, 2037); (2042, 2042); (2048,
   2069); (2074, 2074); (2084, 2084); (2088, 2088); (2112, 2136); (2144,
   2154); (2160, 2183); (2185, 2190); (2208, 2249); (2308, 2361); (2365,
   2365); (2384, 2384); (2392, 2401); (2406, 2415); (2417, 2432); (2437,
   2444); (2447, 2448); (2451, 2472); (2474, 2480); (2482, 2482); (2486,
   2489); (2493, 2493); (2510, 2510); (2524, 2525); (2527, 2529); (2534,
   2545); (2548, 2553); (2556, 2556); (2565, 2570); (2575, 2576); (2579,
   2600); (2602, 2608); (2610, 2611); (2613, 2614); (2616, 2617); (2649,
   2652); (2654, 2654); (2662, 2671); (2674, 2676); (2693, 2701); (2703,
   2705); (2707, 2728); (2730, 2736); (2738, 2739); (2741, 2745); (2749,
   2749); (2768, 2768); (2784, 2785); (2790, 2799); (2809, 2809); (2821,
   2828); (2831, 2832); (2835, 2856); (2858, 2864); (2866, 2867); (2869,
   2873); (2877, 2877); (2908, 2909); (2911, 2913); (2918, 2927); (2929,
   2935); (2947, 2947); (2949, 2954); (2958, 2960); (2962, 2965); (2969,
   2970); (2972, 2972); (2974, 2975); (2979, 2980); (2984, 2986); (2990,
   3001); (3024, 3024); (3046, 3058); (3077, 3084); (3086, 3088); (3090,
   3112); (3114, 3129); (3133, 3133); (3160, 3162); (3165, 3165); (3168,
   3169); (3174, 3183); (3192, 3198); (3200, 3200); (3205, 3212); (3214,
   3216); (3218, 3240); (3242, 3251); (3253, 3257); (3261, 3261); (3293,
   3294); (3296, 3297); (3302, 3311); (3313, 3314); (3332, 3340); (3342,
   3344); (3346, 3386); (3389, 3389); (3406, 3406); (3412, 3414); (3416,
   3425); (3430, 3448); (3450, 3455); (3461, 3478); (3482, 3505); (3507,
   3515); (3517, 3517); (3520, 3526); (3558, 3567); (3585, 3632); (3634,
   3635); (3648, 3654); (3664, 3673); (3713, 3714); (3716, 3716); (3718,
   3722); (3724, 3747); (3749, 3749); (3751, 3760); (3762, 3763); (3773,
   3773); (3776, 3780); (3782, 3782); (3792, 3801); (3804, 3807); (3840,
   3840); (3872, 3891); (3904, 3911); (3913, 3948); (3976, 3980); (4096,
   4138); (4159, 4169); (4176, 4181); (4186, 4189); (4193, 4193); (4197,
   4198); (4206, 4208); (4213, 4225); (4238, 4238); (4240, 4249); (4256,
   4293); (4295, 4295); (4301, 4301); (4304, 4346); (4348, 4680); (4682,
   4685); (4688, 4694); (4696, 4696); (4698, 4701); (4704, 4744); (4746,
   4749); (4752, 4784); (4786, 4789); (4792, 4798); (4800, 4800); (4802,
   4805); (4808, 4822); (4824, 4880); (4882, 4885); (4888, 4954); (4969,
   4988); (4992, 5007); (5024, 5109); (5112, 5117); (5121, 5740); (5743,
   5759); (5761, 5786); (5792, 5866); (5870, 5880); (5888, 5905); (5919,
   5937); (5952, 5969); (5984, 5996); (5998, 6000); (6016, 6067); (6103,
   6103); (6108, 6108); (6112, 6121); (6128, 6137); (6160, 6169); (6176,
   6264); (6272, 6276); (6279, 6312); (6314, 6314); (6320, 6389); (6400,
   6430); (6470, 6509); (6512, 6516); (6528, 6571); (6576, 6601); (6608,
   6618); (6656, 6678); (6688, 6740); (6784, 6793); (6800, 6809); (6823,
   6823); (6917, 6963); (6981, 6988); (6992, 7001); (7043, 7072); (7086,
   7141); (7168, 7203); (7232, 7241); (7245, 7293); (7296, 7304); (7312,
   7354); (7357, 7359); (7401, 7404); (7406, 7411); (7413, 7414); (7418,
   7418); (7424, 7615); (7680, 7957); (7960, 7965); (7968, 8005); (8008,
   8013); (8016, 8023); (8025, 8025); (8027, 8027); (8029, 8029); (8031,
   8061); (8064, 8116); (8118, 8124); (8126, 8126); (8130, 8132); (8134,
   8140); (8144, 8147); (8150, 8155); (8160, 8172); (8178, 8180); (8182,
   8188); (8304, 8305); (8308, 8313); (8319, 8329); (8336, 8348); (8450,
   8450); (8455, 8455); (8458, 8467); (8469, 8469); (8473, 8477); (8484,
   8484); (8486, 8486); (8488, 8488); (8490, 8493); (8495, 8505); (8508,
   8511); (8517, 8521); (8526, 8526); (8528, 8585); (9312, 9371); (9450,
   9471); (10102, 10131); (11264, 11492); (11499, 11502); (11506, 11507);
   (11517, 11517); (11520, 11557); (11559, 11559); (11565, 11565); (11568,
   11623); (11631, 11631); (11648, 11670); (11680, 11686); (11688, 11694);
   (11696, 11702); (11704, 11710); (11712, 11718); (11720, 11726); (11728,
   11734); (11736, 11742); (11823, 11823); (12293, 12295); (12321, 12329);
   (12337, 12341); (12344, 12348); (12353, 12438); (12445, 12447); (12449,
   12538); (12540, 12543); (12549, 12591); (12593, 12686); (12690, 12693);
   (12704, 12735); (12784, 12799); (12832, 12841); (12872, 12879); (12881,
   12895); (12928, 12937); (12977, 12991); (13312, 19903); (19968, 42124);
   (42192, 42237); (42240, 42508); (42512, 42539); (42560, 42606); (42623,
   42653); (42656, 42735); (42775, 42783); (42786, 42888); (42891, 42954);
   (42960, 42961); (42963, 42963); (42965, 42969); (42994, 43009); (43011,
   43013); (43015, 43018); (43020, 43042); (43056, 43061); (43072, 43123);
   (43138, 43187); (43216, 43225); (43250, 43255); (43259, 43259); (43261,
   43262); (43264, 43301); (43312, 43334); (43360, 43388); (43396, 43442);
   (43471, 43481); (43488, 43492); (43494, 43518); (43520, 43560); (43584,
   43586); (43588, 43595); (43600, 43609); (43616, 43638); (43642, 43642);
   (43646, 43695); (43697, 43697); (43701, 43702); (43705, 43709); (43712,
   43712); (43714, 43714); (43739, 43741); (43744, 43754); (43762, 43764);
   (43777, 43782); (43785, 43790); (43793, 43798); (43808, 43814); (43816,
   43822); (43824, 43866); (43868, 43881); (43888, 44002); (44016, 44025);
   (44032, 55203); (55216, 55238); (55243, 55291); (63744, 64109); (64112,
   64217); (64256, 64262); (64275, 64279); (64285, 64285); (64287, 64296);
   (64298, 64310); (64312, 64316); (64318, 64318); (64320, 64321); (64323,
   64324); (64326, 64433); (64467, 64829); (64848, 64911); (64914, 64967);
   (65008, 65019); (65136, 65140); (65142, 65276); (65296, 65305); (65313,
   65338); (65345, 65370); (65382, 65470); (65474, 65479); (65482, 65487);
   (65490, 65495); (65498, 65500); (65536, 65547); (65549, 65574); (65576,
   65594); (65596, 65597); (65599, 65613); (65616, 65629); (65664, 65786);
   (65799, 65843); (65856, 65912); (65930, 65931); (66176, 66204); (66208,
   66256); (66273, 66299); (66304, 66339); (66349, 66378); (66384, 66421);
   (66432, 66461); (66464, 66499); (66504, 66511); (66513, 66517); (66560,
   66717); (66720, 66729); (66736, 66771); (66776, 66811); (66816, 66855);
   (66864, 66915); (66928, 66938); (66940, 66954); (66956, 66962); (66964,
   66965); (66967, 66977); (66979, 66993); (66995, 67001); (67003, 67004);
   (67072, 67382); (67392, 67413); (67424, 67431); (67456, 67461); (67463,
   67504); (67506, 67514); (67584, 67589); (67592, 67592); (67594, 67637);
   (67639, 67640); (67644, 67644); (67647, 67669); (67672, 67702); (67705,
   67742); (67751, 67759); (67808, 67826); (67828, 67829); (67835, 67867);
   (67872, 67897); (67968, 68023); (68028, 68047); (68050, 68096); (68112,
   68115); (68117, 68119); (68121, 68149); (68160, 68168); (68192, 68222);
   (68224, 68255); (68288, 68295); (68297, 68324); (68331, 68335); (68352,
   68405); (68416, 68437); (68440, 68466); (68472, 68497); (68521, 68527);
   (68608, 68680); (68736, 68786); (68800, 68850); (68858, 68899); (68912,
   68921); (69216, 69246); (69248, 69289); (69296, 69297); (69376, 69415);
   (69424, 69445); (69457, 69460); (69488, 69505); (69552, 69579); (69600,
   69622); (69635, 69687); (69714, 69743); (69745, 69746); (69749, 69749);
   (69763, 69807); (69840, 69864); (69872, 69881); (69891, 69926); (69942,
   69951); (69956, 69956); (69959, 69959); (69968, 70002); (70006, 70006);
   (70019, 70066); (70081, 70084); (70096, 70106); (70108, 70108); (70113,
   70132); (70144, 70161); (70163, 70187); (70272, 70278); (70280, 70280);
   (70282, 70285); (70287, 70301); (70303, 70312); (70320, 70366); (70384,
   70393); (70405, 70412); (70415, 70416); (70419, 70440); (70442, 70448);
   (70450, 70451); (70453, 70457); (70461, 70461); (70480, 70480); (70493,
   70497); (70656, 70708); (70727, 70730); (70736, 70745); (70751, 70753);
   (70784, 70831); (70852, 70853); (70855, 70855); (70864, 70873); (71040,
   71086); (71128, 71131); (71168, 71215); (71236, 71236); (71248, 71257);
   (71296, 71338); (71352, 71352); (71360, 71369); (71424, 71450); (71472,
   71483); (71488, 71494); (71680, 71723); (71840, 71922); (71935, 71942);
   (71945, 71945); (71948, 71955); (71957, 71958); (71960, 71983); (71999,
   71999); (72001, 72001); (72016, 72025); (72096, 72103); (72106, 72144);
   (72161, 72161); (72163, 72163); (72192, 72192); (72203, 72242); (72250,
   72250); (72272, 72272); (72284, 72329); (72349, 72349); (72368, 72440);
   (72704, 72712); (72714, 72750); (72768, 72768); (72784, 72812); (72818,
   72847); (72960, 72966); (72968, 72969); (72971, 73008); (73030, 73030);
   (73040, 73049); (73056, 73061); (73063, 73064); (73066, 73097); (73112,
   73112); (73120, 73129); (73440, 73458); (73648, 73648); (73664, 73684);
   (73728, 74649); (74752, 74862); (74880, 75075); (77712, 77808); (77824,
   78894); (82944, 83526); (92160, 92728); (92736, 92766); (92768, 92777);
   (92784, 92862); (92864, 92873); (92880, 92909); (92928, 92975); (92992,
   92995); (93008, 93017); (93019, 93025); (93027, 93047); (93053, 93071);
   (93760, 93846); (93952, 94026); (94032, 94032); (94099, 94111); (94176,
   94177); (94179, 94179); (94208, 100343); (100352, 101589); (101632,
   101640); (110576, 110579); (110581, 110587); (110589, 110590); (110592,
   110882); (110928, 110930); (110948, 110951); (110960, 111355); (113664,
   113770); (113776, 113788); (113792, 113800); (113808, 113817); (119520,
   119539); (119648, 119672); (119808, 119892); (119894, 119964); (119966,
   119967); (119970, 119970); (119973, 119974); (119977, 119980); (119982,
   119993); (119995, 119995); (119997, 120003); (120005, 120069); (120071,
   120074); (120077, 120084); (120086, 120092); (120094, 120121); (120123,
   120126); (120128, 120132); (120134, 120134); (120138, 120144); (120146,
   120485); (120488, 120512); (120514, 120538); (120540, 120570); (120572,
   120596); (120598, 120628); (120630, 120654); (120656, 120686); (120688,
   120712); (120714, 120744); (120746, 120770); (120772, 120779); (120782,
   120831); (122624, 122654); (123136, 123180); (123191, 123197); (123200,
   123209); (123214, 123214); (123536, 123565); (123584, 123627); (123632,
   123641); (124896, 124902); (124904, 124907); (124909, 124910); (124912,
   124926); (124928, 125124); (125127, 125135); (125184, 125251); (125259,
   125259); (125264, 125273); (126065, 126123); (126125, 126127); (126129,
   126132); (126209, 126253); (126255, 126269); (126464, 126467); (126469,
   126495); (126497, 126498); (126500, 126500); (126503, 126503); (126505,
   126514); (126516, 126519); (126521, 126521); (126523, 126523); (126530,
   126530); (126535, 126535); (126537, 126537); (126539, 126539); (126541,
   126543); (126545, 126546); (126548, 126548); (126551, 126551); (126553,
   126553); (126555, 126555); (126557, 126557); (126559, 126559); (126561,
   126562); (126564, 126564); (126567, 126570); (126572, 126578); (126580,
   126583); (126585, 126588); (126590, 126590); (126592, 126601); (126603,
   126619); (126625, 126627); (126629, 126633); (126635, 126651); (127232,
   127244); (130032, 130041); (131072, 173791); (173824, 177976); (177984,
   178205); (178208, 183969); (183984, 191456); (194560, 195101); (196608,
   201546)]%N.
Definition isalnum (c : N) : bool :=
  if N.ltb c 128 then isalpha c || between 48 57 c
  else existsb (fun r => between (fst r) (snd r) c) alnum_ranges.

(** [\w] of [re] on a [str]: alphanumeric or underscore. *)
Definition isword (c : N) : bool := isalnum c || N.eqb c 95.

Definition lower1 (c : N) : N := if isupper c then (c + 32)%N else c.
Definition upper1 (c : N) : N := if islower c then (c - 32)%N else c.
Definition lower (s : str) : str := map lower1 s.
Definition upper (s : str) : str := map upper1 s.

Fixpoint lstrip (s : str) : str :=
  match s with
  | c :: s' => if isspace c then lstrip s' else s
  | [] => []
  end.
Definition rstrip (s : str) : str := rev (lstrip (rev s)).
Definition strip (s : str) : str := rstrip (lstrip s).

Fixpoint startswith (s p : str) {struct p} : bool :=
  match p, s with
  | [], _ => true
  | x :: p', c :: s' => N.eqb c x && startswith s' p'
  | _ :: _, [] => false
  end.
Definition endswith (s p : str) : bool := startswith (rev s) (rev p).

(** [s.replace(old, new)] for a one-character [old]. *)
Definition replace1 (old : N) (new : str) (s : str) : str :=
  flat_map (fun c => if N.eqb c old then new else [c]) s.

(** [s[:-n]] *)
Definition drop_last (n : nat) (s : str) : str :=
  firstn (List.length s - n) s.

(** [s[-1]] of a non-empty string. *)
Definition last1 (s : str) : option N :=
  match rev s with
  | c :: _ => Some c
  | [] => None
  end.

(** Value of a run of decimal digits, as [int()] reads it. *)
Definition digit_val (c : N) : N :=
  match digit_zero c with Some z => (c - z)%N | None => 0%N end.
Definition int_of_digits (s : str) : N :=
  fold_left (fun acc c => (acc * 10 + digit_val c)%N) s 0%N.

(** [str(n)] of a non-negative integer with at least [w] digits
    (zero padded), by repeated division. *)
Fixpoint digits_fuel (fuel : nat) (n : N) (acc : str) : str :=
  match fuel with
  | O => acc
  | S f =>
      let acc' := (48 + n mod 10)%N :: acc in
      if (n <? 10)%N then acc' else digits_fuel f (n / 10)%N acc'
  end.
Definition str_of_N (n : N) : str := digits_fuel (S (N.to_nat (N.log2 n))) n [].
Definition zfill (w : nat) (s : str) : str := (repeat 48%N (w - List.length s) ++ s)%list.

Definition str_of_Z (z : Z) : str :=
  if (z <? 0)%Z then 45%N :: str_of_N (Z.abs_N z) else str_of_N (Z.abs_N z).

End PyStr.
Import PyStr.

(* ================================================================== *)
(** ** Regular expressions, as [re] matches them

    A backtracking matcher in continuation-passing style: alternatives are
    tried in order, repetitions are greedy, and the first overall success is
    the match.  [prev] is the character before the current position, which
    [\b] needs. *)

Module Re.

Inductive regex : Type :=
| Eps
| Cls (p : N -> bool)              (* one character of a class *)
| Seq (r1 r2 : regex)
| Alt (r1 r2 : regex)              (* r1|r2 *)
| Star (p : N -> bool)             (* greedy p* over a class *)
| Plus (p : N -> bool)             (* greedy p+ over a class *)
| Group (name : string) (r : regex)
| Look (r : regex)                 (* (?=r) *)
| WordB                            (* \b *)
| EndZ.                            (* \Z *)

Definition caps := list (string * str).

Definition isword_opt (o : option N) : bool :=
  match o with Some c => isword c | None => false end.

Definition at_boundary (prev : option N) (s : str) : bool :=
  xorb (isword_opt prev) (isword_opt (hd_error s)).

Fixpoint star_k {A} (p : N -> bool) (prev : option N) (s : str)
    (k : option N -> str -> option A) : option A :=
  match s with
  | c :: s' =>
      if p c then
        match star_k p (Some c) s' k with
        | Some a => Some a
        | None => k prev s
        end
      else k prev s
  | [] => k prev s
  end.

Fixpoint rmatch (A : Type) (r : regex) (prev : option N) (s : str) (cs : caps)
    (k : option N -> str -> caps -> option A) {struct r} : option A :=
  match r with
  | Eps => k prev s cs
  | Cls p =>
      match s with
      | c :: s' => if p c then k (Some c) s' cs else None
      | [] => None
      end
  | Seq r1 r2 =>
      rmatch r1 prev s cs (fun prev' s' cs' => rmatch r2 prev' s' cs' k)
  | Alt r1 r2 =>
      match rmatch r1 prev s cs k with
      | Some a => Some a
      | None => rmatch r2 prev s cs k
      end
  | Star p => star_k p prev s (fun prev' s' => k prev' s' cs)
  | Plus p =>
      match s with
      | c :: s' =>
          if p c then star_k p (Some c) s' (fun prev' s' => k prev' s' cs)
          else None
      | [] => None
      end
  | Group n r1 =>
      rmatch r1 prev s cs (fun prev' s' cs' =>
        k prev' s' ((n, firstn (List.length s - List.length s') s) :: cs'))
  | Look r1 =>
      match rmatch r1 prev s cs (fun _ _ _ => Some tt) with
      | Some _ => k prev s cs
      | None => None
      end
  | WordB => if at_boundary prev s then k prev s cs else None
  | EndZ => match s with [] => k prev s cs | _ :: _ => None end
  end.

(** [re.match(r, s)]: the unmatched rest and the groups. *)
Definition re_match (r : regex) (s : str) : option (str * caps) :=
  rmatch r None s [] (fun _ rest cs => Some (rest, cs)).

(** [m.group(name)], [None] when the group took no part in the match. *)
Fixpoint group (cs : caps) (n : string) : option str :=
  match cs with
  | (m, v) :: cs' => if String.eqb m n then Some v else group cs' n
  | [] => None
  end.

(** [re.sub] with the empty replacement: every non-overlapping match, leftmost first, is
    deleted.  [skip] counts the characters of the current match that are
    still to be dropped. *)
Fixpoint sub_del (r : regex) (prev : option N) (s : str) (skip : nat) : str :=
  match s with
  | [] => []
  | c :: s' =>
      match skip with
      | S n => sub_del r (Some c) s' n
      | O =>
          match rmatch r prev s []
                  (fun _ rest _ => Some (List.length s - List.length rest)) with
          | Some (S n) => sub_del r (Some c) s' n
          | _ => c :: sub_del r (Some c) s' 0
          end
      end
  end.
Definition re_sub_del (r : regex) (s : str) : str := sub_del r None s 0.

(** Unicode simple lower-case mapping, for the code points it sends to ASCII
    letters: A-Z, U+0130 and U+212A. *)
Definition ulower (x : N) : N :=
  if N.eqb x 304 then 105 else if N.eqb x 8490 then 107 else lower1 x.

(** A pattern character [c] under [re.IGNORECASE]: the subject character is
    compared after lower-casing, and [i] and [s] also match U+0131 and
    U+017F. *)
Definition ieq (c x : N) : bool :=
  let lo := lower1 c in
  let lx := ulower x in
  N.eqb lx lo || (N.eqb lo 115 && N.eqb lx 383) || (N.eqb lo 105 && N.eqb lx 305).

(** ASCII-only case-insensitive comparison. *)
Definition aeq (c x : N) : bool := N.eqb (lower1 x) (lower1 c).

Fixpoint lit_with (eq : N -> N -> bool) (s : str) : regex :=
  match s with
  | [] => Eps
  | [c] => Cls (eq c)
  | c :: s' => Seq (Cls (eq c)) (lit_with eq s')
  end.
Definition ilit (s : string) : regex := lit_with ieq (u s).
Definition alit (s : string) : regex := lit_with aeq (u s).
Definition opt (r : regex) : regex := Alt r Eps.
Definition digit : regex := Cls isdigit.
Definition one_of (s : string) : regex :=
  Cls (fun x => existsb (N.eqb x) (u s)).
Definition range (lo hi : string) : regex :=
  Cls (fun x => match u lo, u hi with
                | [a], [b] => between a b x
                | _, _ => false
                end).

End Re.
Import Re.

(* ================================================================== *)
(** ** [decimal.Decimal] under the default context

    Precision 28, ROUND_HALF_EVEN, Emax 999999, Emin -999999, no clamping;
    InvalidOperation, DivisionByZero and Overflow are trapped (raised), the
    other signals only set flags. *)

Module Dec.

Inductive Decimal : Type :=
| Fin (sign : bool) (coeff : N) (exp : Z)      (* (-1)^sign * coeff * 10^exp *)
| Inf (sign : bool)
| NaN (sign : bool) (signaling : bool) (payload : N).

Definition prec : Z := 28.
Definition Emax : Z := 999999.
Definition Emin : Z := -999999.
Definition Etiny : Z := Emin - prec + 1.
Definition Etop : Z := Emax - prec + 1.

(** [len(self._int)] *)
Definition len_int (c : N) : Z := Z.of_nat (List.length (str_of_N c)).

(** [10**n], and 1 for a negative [n]. *)
Definition pow10 (n : Z) : N := (10 ^ Z.to_N n)%N.

(** [_round_half_even], on a coefficient of which the last [nd > 0] digits
    are dropped: 1 to round up, 0 when the dropped digits are all zero,
    -1 to truncate. *)
Definition _round_half_even (c : N) (nd : Z) : Z :=
  let kept := (c / pow10 nd)%N in
  let rem := (c mod pow10 nd)%N in
  let half := (5 * pow10 (nd - 1))%N in
  if N.eqb rem half && N.even kept then (-1)%Z
  else if N.leb half rem then 1%Z
  else if N.eqb rem 0 then 0%Z
  else (-1)%Z.

(** [_fix_nan]: the payload keeps its last [prec] digits. *)
Definition _fix_nan (sign signaling : bool) (payload : N) : Decimal :=
  if Z.ltb prec (len_int payload) && negb (N.eqb payload 0)
  then NaN sign signaling (payload mod pow10 prec)%N
  else NaN sign signaling payload.

(** [_fix]: round to the context's precision and exponent range. *)
Definition _fix (d : Decimal) : result Decimal :=
  match d with
  | NaN s sg p => Ok (_fix_nan s sg p)
  | Inf _ => Ok d
  | Fin s c e =>
      if N.eqb c 0 then Ok (Fin s 0 (Z.min (Z.max e Etiny) Emax))
      else
        let exp_min := (len_int c + e - prec)%Z in
        if Z.ltb Etop exp_min then Raise Overflow
        else
          let exp_min := if Z.ltb exp_min Etiny then Etiny else exp_min in
          if Z.ltb e exp_min then
            let digits := (len_int c + e - exp_min)%Z in
            let '(c1, digits) :=
              if Z.ltb digits 0 then (1%N, 0%Z) else (c, digits) in
            let nd := (len_int c1 - digits)%Z in
            let changed := _round_half_even c1 nd in
            let coeff := (c1 / pow10 nd)%N in
            let '(coeff, exp_min) :=
              if Z.ltb 0 changed then
                let coeff' := (coeff + 1)%N in
                if Z.ltb prec (len_int coeff')
                then ((coeff' / 10)%N, (exp_min + 1)%Z)
                else (coeff', exp_min)
              else (coeff, exp_min) in
            if Z.ltb Etop exp_min then Raise Overflow
            else Ok (Fin s coeff exp_min)
          else Ok d
  end.

(** [_check_nans]: a signalling NaN raises, a quiet NaN is the result. *)
Definition _check_nans (a b : Decimal) : option (result Decimal) :=
  match a, b with
  | NaN _ true _, _ => Some (Raise InvalidOperation)
  | _, NaN _ true _ => Some (Raise InvalidOperation)
  | NaN s false p, _ => Some (Ok (_fix_nan s false p))
  | _, NaN s false p => Some (Ok (_fix_nan s false p))
  | _, _ => None
  end.

(** The loop of an exact division: drop trailing zeros while the exponent
    is below the ideal one. *)
Fixpoint strip_zeros (n : nat) (coeff : N) (exp : Z) : N * Z :=
  match n with
  | O => (coeff, exp)
  | S n' =>
      if N.eqb (coeff mod 10) 0
      then strip_zeros n' (coeff / 10)%N (exp + 1)%Z
      else (coeff, exp)
  end.

(** [Decimal.__truediv__] *)
Definition truediv (a b : Decimal) : result Decimal :=
  match _check_nans a b with
  | Some r => r
  | None =>
      match a, b with
      | Inf _, Inf _ => Raise InvalidOperation
      | Inf sa, Fin sb _ _ => Ok (Inf (xorb sa sb))
      | Fin sa _ _, Inf sb => Ok (Fin (xorb sa sb) 0 Etiny)
      | Fin sa ca ea, Fin sb cb eb =>
          let sign := xorb sa sb in
          if N.eqb cb 0 then
            if N.eqb ca 0 then Raise InvalidOperation else Raise DivisionByZero
          else if N.eqb ca 0 then _fix (Fin sign 0 (ea - eb))
          else
            let shift := (len_int cb - len_int ca + prec + 1)%Z in
            let exp := (ea - eb - shift)%Z in
            let '(coeff, remainder) :=
              if Z.leb 0 shift
              then N.div_eucl (ca * pow10 shift) cb
              else N.div_eucl ca (cb * pow10 (- shift)) in
            let '(coeff, exp) :=
              if negb (N.eqb remainder 0)
              then ((if N.eqb (coeff mod 5) 0 then coeff + 1 else coeff)%N, exp)
              else strip_zeros (Z.to_nat (ea - eb - exp)) coeff exp in
            _fix (Fin sign coeff exp)
      | _, _ => Raise InvalidOperation
      end
  end.

(** [Decimal.__mul__] *)
Definition mul (a b : Decimal) : result Decimal :=
  match _check_nans a b with
  | Some r => r
  | None =>
      match a, b with
      | Inf sa, Inf sb => Ok (Inf (xorb sa sb))
      | Inf sa, Fin sb cb _ =>
          if N.eqb cb 0 then Raise InvalidOperation else Ok (Inf (xorb sa sb))
      | Fin sa ca _, Inf sb =>
          if N.eqb ca 0 then Raise InvalidOperation else Ok (Inf (xorb sa sb))
      | Fin sa ca ea, Fin sb cb eb =>
          _fix (Fin (xorb sa sb) (ca * cb) (ea + eb))
      | _, _ => Raise InvalidOperation
      end
  end.

(** The grammar of numeric strings accepted by the constructor
    (case-insensitive on ASCII letters): an optional sign, then either a
    number with at least one digit (digits, an optional point and digits,
    an optional exponent E with optional sign and digits), or Inf or
    Infinity, or NaN or sNaN followed by optional diagnostic digits; and
    nothing after it. *)
Definition _parser : regex :=
  Seq (opt (Group "sign" (one_of "-+")))
   (Seq (Alt (Seq (Look (Alt digit (Seq (one_of ".") digit)))
              (Seq (Group "int" (Star isdigit))
               (Seq (opt (Seq (one_of ".") (Group "frac" (Star isdigit))))
                    (opt (Seq (alit "E")
                           (Group "exp" (Seq (opt (one_of "-+")) (Plus isdigit))))))))
         (Alt (Seq (alit "Inf") (opt (alit "inity")))
              (Seq (opt (Group "signal" (alit "s")))
                   (Seq (alit "NaN") (Group "diag" (Star isdigit))))))
        EndZ).

(** [int(s)] of an optionally signed run of digits. *)
Definition int_of_str (s : str) : Z :=
  match s with
  | 45%N :: ds => (- Z.of_N (int_of_digits ds))%Z
  | 43%N :: ds => Z.of_N (int_of_digits ds)
  | _ => Z.of_N (int_of_digits s)
  end.

(** [Decimal(value)] for a string: surrounding whitespace and underscores
    are dropped, and a string outside the grammar raises InvalidOperation.
    The conversion is exact (no rounding). *)
Definition from_str (value : str) : result Decimal :=
  match re_match _parser (replace1 95 [] (strip value)) with
  | None => Raise InvalidOperation
  | Some (_, cs) =>
      let sign := match group cs "sign" with
                  | Some (45%N :: _) => true
                  | _ => false
                  end in
      match group cs "int" with
      | Some intpart =>
          let fracpart := match group cs "frac" with Some f => f | None => [] end in
          let exp := match group cs "exp" with
                     | Some e => int_of_str e
                     | None => 0%Z
                     end in
          Ok (Fin sign (int_of_digits (intpart ++ fracpart))
                  (exp - Z.of_nat (List.length fracpart)))
      | None =>
          match group cs "diag" with
          | Some diag =>
              Ok (NaN sign
                      (match group cs "signal" with Some _ => true | None => false end)
                      (int_of_digits diag))
          | None => Ok (Inf sign)
          end
      end
  end.

(** [Decimal.__str__] (scientific notation with a capital E). *)
Definition to_str (d : Decimal) : str :=
  let sgn (s : bool) : str := if s then u "-" else [] in
  match d with
  | Inf s => sgn s ++ u "Infinity"
  | NaN s sg p =>
      sgn s ++ (if sg then u "sNaN" else u "NaN")
            ++ (if N.eqb p 0 then [] else str_of_N p)
  | Fin s c e =>
      let ds := str_of_N c in
      let L := Z.of_nat (List.length ds) in
      let leftdigits := (e + L)%Z in
      let dotplace :=
        if Z.leb e 0 && Z.ltb (-6) leftdigits then leftdigits else 1%Z in
      let '(intpart, fracpart) :=
        if Z.leb dotplace 0
        then (u "0", u "." ++ repeat 48%N (Z.to_nat (- dotplace)) ++ ds)
        else if Z.leb L dotplace
        then (ds ++ repeat 48%N (Z.to_nat (dotplace - L)), [])
        else (firstn (Z.to_nat dotplace) ds,
              u "." ++ skipn (Z.to_nat dotplace) ds) in
      let exp :=
        if Z.eqb leftdigits dotplace then []
        else u "E" ++ (if Z.ltb (leftdigits - dotplace) 0 then u "-" else u "+")
                   ++ str_of_N (Z.abs_N (leftdigits - dotplace)) in
      sgn s ++ intpart ++ fracpart ++ exp
  end.

(** [a == b]: numeric equality.  Zeros are equal whatever their sign and
    exponent; other finite numbers are equal when the signs agree and the
    coefficients agree once padded to the smaller exponent; a NaN equals
    nothing. *)
Definition eq (a b : Decimal) : bool :=
  match a, b with
  | Fin sa ca ea, Fin sb cb eb =>
      if N.eqb ca 0 then N.eqb cb 0
      else if N.eqb cb 0 then false
      else Bool.eqb sa sb
           && N.eqb (ca * pow10 (ea - eb)) (cb * pow10 (eb - ea))
  | Inf sa, Inf sb => Bool.eqb sa sb
  | _, _ => false
  end.

Definition is_finite (d : Decimal) : bool :=
  match d with Fin _ _ _ => true | _ => false end.

End Dec.
Import Dec.

(* ================================================================== *)
(** ** Dates: [datetime.date], [calendar.monthrange], [datetime.strptime] *)

Module Datetime.

Record date : Type := mkdate { year : Z; month : Z; day : Z }.

Definition isleap (y : Z) : bool :=
  Z.eqb (y mod 4) 0 && (negb (Z.eqb (y mod 100) 0) || Z.eqb (y mod 400) 0).

Definition mdays (m : Z) : Z :=
  nth (Z.to_nat m) [0; 31; 28; 31; 30; 31; 30; 31; 31; 30; 31; 30; 31]%Z 0%Z.

(** [calendar.monthrange(y, m)[1]] for a month in 1..12. *)
Definition monthrange (y m : Z) : Z :=
  (mdays m + (if Z.eqb m 2 && isleap y then 1 else 0))%Z.

(** [date(y, m, d)]: ValueError outside 1..9999, 1..12, 1..days in month. *)
Definition new_date (y m d : Z) : result date :=
  if Z.leb 1 y && Z.leb y 9999 && Z.leb 1 m && Z.leb m 12
     && Z.leb 1 d && Z.leb d (monthrange y m)
  then Ok (mkdate y m d)
  else Raise ValueError.

(** [date.isoformat], which is [str(date)]. *)
Definition isoformat (d : date) : str :=
  zfill 4 (str_of_N (Z.to_N (year d))) ++ u "-"
  ++ zfill 2 (str_of_N (Z.to_N (month d))) ++ u "-"
  ++ zfill 2 (str_of_N (Z.to_N (day d))).

(** Full month names of the C/English locale, lower case, in the order in
    which the regular expression of [%B] lists them (longest first). *)
Definition f_month : list (string * Z) :=
  [("september", 9); ("february", 2); ("november", 11); ("december", 12);
   ("january", 1); ("october", 10); ("august", 8); ("march", 3);
   ("april", 4); ("june", 6); ("july", 7); ("may", 5)]%string%Z.

Fixpoint alts (rs : list regex) : regex :=
  match rs with
  | [] => Cls (fun _ => false)
  | [r] => r
  | r :: rs' => Alt r (alts rs')
  end.

(** The regular expressions of the format directives [%d], [%m], [%Y]
    and [%B]. *)
Definition re_d : regex :=
  Group "d" (alts [Seq (ilit "3") (range "0" "1");
                   Seq (range "1" "2") digit;
                   Seq (ilit "0") (range "1" "9");
                   range "1" "9";
                   Seq (ilit " ") (range "1" "9")]).
Definition re_m : regex :=
  Group "m" (alts [Seq (ilit "1") (range "0" "2");
                   Seq (ilit "0") (range "1" "9");
                   range "1" "9"]).
Definition re_Y : regex := Group "Y" (Seq digit (Seq digit (Seq digit digit))).
Definition re_B : regex :=
  Group "B" (alts (map (fun nm => ilit (fst nm)) f_month)).

Definition directive (c : ascii) : option regex :=
  if Ascii.eqb c "d" then Some re_d
  else if Ascii.eqb c "m" then Some re_m
  else if Ascii.eqb c "Y" then Some re_Y
  else if Ascii.eqb c "B" then Some re_B
  else None.

(** [TimeRE.pattern]: a directive becomes its expression, a run of
    whitespace becomes [\s+], any other character stands for itself. *)
Fixpoint pattern (ws : bool) (f : string) : option regex :=
  match f with
  | EmptyString => Some Eps
  | String c f' =>
      if Ascii.eqb c "%" then
        match f' with
        | String d f'' =>
            match directive d, pattern false f'' with
            | Some r, Some rest => Some (Seq r rest)
            | _, _ => None
            end
        | EmptyString => None
        end
      else if isspace (N_of_ascii c) then
        match pattern true f' with
        | Some rest => Some (if ws then rest else Seq (Plus isspace) rest)
        | None => None
        end
      else
        match pattern false f' with
        | Some rest => Some (Seq (Cls (ieq (N_of_ascii c))) rest)
        | None => None
        end
  end.

Definition month_of_name (nm : str) : option Z :=
  match find (fun e => PyStr.eqb (u (fst e)) (lower nm)) f_month with
  | Some e => Some (snd e)
  | None => None
  end.

(** The date of the matched groups: the fields default to 1900-01-01, a
    month name is looked up in lower case, and an impossible date is a
    ValueError. *)
Definition date_of_groups (cs : caps) : result date :=
  let num (g : string) (default : Z) : Z :=
    match group cs g with
    | Some ds => Z.of_N (int_of_digits (strip ds))
    | None => default
    end in
  let y := num "Y"%string 1900%Z in
  let d := num "d"%string 1%Z in
  match group cs "B" with
  | Some nm =>
      match month_of_name nm with
      | Some m => new_date y m d
      | None => Raise ValueError
      end
  | None => new_date y (num "m"%string 1%Z) d
  end.

(** [datetime.strptime(s, f).date()] for formats over [%Y %m %d %B]: the
    expression must match at the start and consume the whole string. *)
Definition strptime (s : str) (f : string) : result date :=
  match pattern false f with
  | None => Raise ValueError
  | Some r =>
      match re_match r s with
      | None => Raise ValueError
      | Some (_ :: _, _) => Raise ValueError
      | Some ([], cs) => date_of_groups cs
      end
  end.

End Datetime.
Import Datetime.

(* ================================================================== *)
(** ** Raw values

    What the extraction oracle and [json.load] hand to the core: null,
    booleans, integers, strings, lists and dictionaries.  A dictionary is an
    association list read by its first binding of a key. *)

#[warnings="-register-all"] Inductive pyval : Type :=
| PNone
| PBool (b : bool)
| PInt (z : Z)
| PStr (s : str)
| PList (l : list pyval)
| PDict (kv : list (string * pyval)).

Definition dict := list (string * pyval).

(** [d.get(k)] (absent: [None] of Rocq) and [k in d]. *)
Fixpoint lookup {V} (k : string) (d : list (string * V)) : option V :=
  match d with
  | (k', v) :: d' => if String.eqb k' k then Some v else lookup k d'
  | [] => None
  end.
Definition mem {V} (k : string) (d : list (string * V)) : bool :=
  match lookup k d with Some _ => true | None => false end.
Definition keys {V} (d : list (string * V)) : list string := map fst d.

(* ================================================================== *)
(** ** models.py: scalar coercion *)

Module Models.

(** The operands [Decimal("100")], [Decimal("10000")] and the values of
    [_KMB], [Decimal("1e3")], [Decimal("1e6")], [Decimal("1e9")]. *)
Definition D100 : Decimal := Fin false 100 0.
Definition D10000 : Decimal := Fin false 10000 0.
Definition _KMB : list (N * Decimal) :=
  [(75%N, Fin false 1 3); (77%N, Fin false 1 6); (66%N, Fin false 1 9)].

Fixpoint kmb_get (c : N) (t : list (N * Decimal)) : option Decimal :=
  match t with
  | (k, m) :: t' => if N.eqb k c then Some m else kmb_get c t'
  | [] => None
  end.

(** The replacements of commas and currency symbols by nothing. *)
Definition strip_commas (s : str) : str := replace1 44 [] s.
Definition strip_symbols (s : str) : str :=
  replace1 POUND [] (replace1 EURO [] (replace1 36 [] (replace1 44 [] s))).

(** The string branch of [_to_decimal], after the test for the empty
    string. *)
Definition _to_decimal_str (v : str) : result (option Decimal) :=
  let s := strip v in
  if endswith s (u "%") then
    let num := strip_commas (strip (drop_last 1 s)) in
    (d <- from_str num ;; q <- truediv d D100 ;; Ok (Some q))%py
  else if endswith (lower s) (u "bp") then
    let num := strip_commas (strip (drop_last 2 s)) in
    (d <- from_str num ;; q <- truediv d D10000 ;; Ok (Some q))%py
  else if endswith (lower s) (u "x") then
    let num := strip_commas (strip (drop_last 1 s)) in
    (d <- from_str num ;; Ok (Some d))%py
  else
    let s2 := strip_symbols s in
    match match last1 s2 with
          | Some c => kmb_get (upper1 c) _KMB
          | None => None
          end with
    | Some mult =>
        let num := drop_last 1 s2 in
        (d <- from_str num ;; p <- mul d mult ;; Ok (Some p))%py
    | None =>
        match from_str s2 with
        | Ok d => Ok (Some d)
        | Raise InvalidOperation => Ok None
        | Raise e => Raise e
        end
    end.

(** [str(v)] of an [int]: the conversion of an integer of more than
    [sys.int_max_str_digits] digits, 4300 by default, raises ValueError. *)
Definition int_max_str_digits : N := 4300.
Definition str_of_int (z : Z) : result str :=
  if N.ltb int_max_str_digits (N.of_nat (List.length (str_of_N (Z.abs_N z))))
  then Raise ValueError
  else Ok (str_of_Z z).

(** [_to_decimal].  An [int] (and so a [bool]) goes through
    [Decimal(str(v))]; [str()] of a list or dictionary is bracketed, so that
    no suffix test applies and the final [Decimal()] fails into [None]. *)
Definition _to_decimal (v : pyval) : result (option Decimal) :=
  match v with
  | PNone => Ok None
  | PStr [] => Ok None
  | PBool b =>
      (d <- from_str (if b then u "True" else u "False") ;; Ok (Some d))%py
  | PInt z => (s <- str_of_int z ;; d <- from_str s ;; Ok (Some d))%py
  | PStr s => _to_decimal_str s
  | PList _ | PDict _ => Ok None
  end.

(** [Q([1-4])\s+(\d{4})] with [re.I], and [(?i)\bas of\b]. *)
Definition quarter_re : regex :=
  Seq (ilit "Q")
   (Seq (Group "1" (range "1" "4"))
    (Seq (Plus isspace)
         (Group "2" (Seq digit (Seq digit (Seq digit digit)))))).
Definition as_of_re : regex := Seq WordB (Seq (ilit "as of") WordB).

Definition fmts : list string :=
  ["%Y-%m-%d"; "%Y-%m"; "%d/%m/%Y"; "%m/%d/%Y"; "%B %d, %Y"; "%d %B %Y"]%string.

(** The loop over the formats: a ValueError moves on to the next format. *)
Fixpoint try_formats (s : str) (fs : list string) : result (option date) :=
  match fs with
  | [] => Ok None
  | f :: fs' =>
      match (dt <- strptime s f ;;
             if String.eqb f "%Y-%m"
             then new_date (year dt) (month dt) (monthrange (year dt) (month dt))
             else Ok dt)%py with
      | Ok d => Ok (Some d)
      | Raise ValueError => try_formats s fs'
      | Raise e => Raise e
      end
  end.

(** The quarter branch: [{1:3, 2:6, 3:9, 4:12}[q]] and the last day of that
    month. *)
Definition quarter_month (q : Z) : result Z :=
  match q with
  | 1%Z => Ok 3%Z
  | 2%Z => Ok 6%Z
  | 3%Z => Ok 9%Z
  | 4%Z => Ok 12%Z
  | _ => Raise KeyError
  end.
Definition quarter_date (q y : Z) : result (option date) :=
  (month <- quarter_month q ;;
   let last_day := monthrange y month in
   d <- new_date y month last_day ;; Ok (Some d))%py.

Definition _parse_str (v : str) : result (option date) :=
  let s := strip v in
  match re_match quarter_re s with
  | Some (_, cs) =>
      match group cs "1", group cs "2" with
      | Some q, Some y =>
          quarter_date (Z.of_N (int_of_digits q)) (Z.of_N (int_of_digits y))
      | _, _ => Raise TypeError
      end
  | None =>
      let s := strip (re_sub_del as_of_re s) in
      try_formats s fmts
  end.

(** [_parse_iso_or_quarter].  [str()] of a list or dictionary starts with a
    bracket, which no format accepts. *)
Definition _parse_iso_or_quarter (v : pyval) : result (option date) :=
  match v with
  | PNone => Ok None
  | PStr [] => Ok None
  | PStr s => _parse_str s
  | PInt z => (s <- str_of_int z ;; _parse_str s)%py
  | PBool b => _parse_str (if b then u "True" else u "False")
  | PList _ | PDict _ => Ok None
  end.

End Models.
Import Models.

(* ================================================================== *)
(** ** models.py: enumerations and the pydantic schema *)

Module Schema.

(** The [Enum] classes.  A class is the ordered table of its members'
    names and values. *)
Inductive EnumClass : Type :=
| InstrumentStrategy
| HedgingStrategy
| UnderlyingFundStrategy
| GeographyMacroarea
| MacroSector
| InvestmentType
| RealizationStatus
| RealEstateSegment.

Definition class_name (c : EnumClass) : string :=
  match c with
  | InstrumentStrategy => "InstrumentStrategy"
  | HedgingStrategy => "HedgingStrategy"
  | UnderlyingFundStrategy => "UnderlyingFundStrategy"
  | GeographyMacroarea => "GeographyMacroarea"
  | MacroSector => "MacroSector"
  | InvestmentType => "InvestmentType"
  | RealizationStatus => "RealizationStatus"
  | RealEstateSegment => "RealEstateSegment"
  end.

Definition members (c : EnumClass) : list (string * string) :=
  match c with
  | InstrumentStrategy =>
      [("EQUITY", "Equity"); ("CORPORATE_DEBT", "Corporate Debt")]
  | HedgingStrategy =>
      [("YES", "Yes"); ("NO", "No"); ("EXPECTED", "Expected")]
  | UnderlyingFundStrategy =>
      [("VC", "V.C."); ("GROWTH", "Growth"); ("BUYOUT", "Buyout");
       ("L_BUYOUT", "L. Buyout"); ("ASIA", "Asia"); ("DIRETTO", "Diretto");
       ("SENIOR", "Senior"); ("UNI_TRANCHE", "Uni-Tranche");
       ("MEZZANINE", "Mezzanine"); ("JUNIOR", "Junior");
       ("PREFERRED_EQUITY", "Preferred Equity"); ("REFIN", "ReFin");
       ("EQUITY", "Equity"); ("PIK", "PIK"); ("NAV_LENDING", "NAV Lending");
       ("CLO", "CLO"); ("CORE", "Core"); ("CORE_PLUS", "Core+");
       ("VALUE_ADDED", "Value Added"); ("OPPORTUNISTIC", "Opportunistic");
       ("RE_CREDIT", "RE Credit"); ("OTHER", "Other")]
  | GeographyMacroarea =>
      [("EUROPE", "Europe"); ("UK", "UK"); ("N_AMERICA", "N. America");
       ("LATAM", "LatAm"); ("CHINA", "China");
       ("SEA_OCEANIA", "SEA & Oceania"); ("OTHER", "Other")]
  | MacroSector =>
      [("EDUCATION", "Education"); ("FIN_SERVICES", "Financial Services");
       ("HEALTH_PHARMA", "Health & Pharma");
       ("INDUSTRIAL_BUSINESS", "Industrial & Business Services");
       ("CONSUMER_RETAIL", "Consumer & Retail");
       ("TRAVEL_HOSPITALITY", "Travel & Hospitality");
       ("SOFTWARE_TECH", "Software & Technol.");
       ("REAL_ESTATE", "Real estate"); ("OTHER", "Other")]
  | InvestmentType =>
      [("PRIMARY", "Primary"); ("SECONDARY", "Secondary");
       ("CO_INV", "Co-Inv")]
  | RealizationStatus =>
      [("REALIZED", "Realized"); ("UNREALIZED", "Unrealized")]
  | RealEstateSegment =>
      [("RESIDENTIAL", "Residential"); ("OFFICE", "Office");
       ("RETAIL", "Retail");
       ("INDUSTRIAL_LOGISTICS", "Industrial & Logistics");
       ("HOTEL", "Hotel"); ("MIXED_USE", "Mixed Use"); ("OTHER", "Other")]
  end%string.

Inductive kind : Type :=
| KStr                       (* str *)
| KDate                      (* date, behind _parse_iso_or_quarter *)
| KDecimal                   (* Decimal, behind _to_decimal *)
| KEnum (c : EnumClass).

(** A declared field: attribute name, alias, type, and whether it lacks a
    default. *)
Record field : Type := mkfield
  { fname : string; falias : string; fkind : kind; frequired : bool }.

Definition AssetSnapshot_fields : list field :=
  [mkfield "possesso_entry" "Possesso_Entry" KDecimal false;
   mkfield "ev_entry" "EV_Entry" KDecimal false;
   mkfield "ebitda_entry" "EBITDA_Entry" KDecimal false;
   mkfield "margin_entry" "Margin_Entry" KDecimal false;
   mkfield "net_revenue_entry" "Net_Revenue_Entry" KDecimal false;
   mkfield "net_debt_entry" "Net_Debt_Entry" KDecimal false;
   mkfield "fcf_entry" "FCF_Entry" KDecimal false;
   mkfield "net_result_entry" "Net_Result_Entry" KDecimal false;
   mkfield "ev_ebitda_entry" "EVEbitda_Entry" KDecimal false;
   mkfield "ev_revenue_entry" "EVRevenue_Entry" KDecimal false;
   mkfield "net_debt_ebitda_entry" "Net_DebtEbitda_Entry" KDecimal false;
   mkfield "economics_reporting_date" "Economics_Reporting_Date" KDate false;
   mkfield "possesso" "Possesso" KDecimal false;
   mkfield "ev" "EV" KDecimal false;
   mkfield "ltm_ebitda" "LTM_EBITDA" KDecimal false;
   mkfield "ltm_margin" "LTM_Margin" KDecimal false;
   mkfield "ltm_net_revenues" "LTM_Net_Revenues" KDecimal false;
   mkfield "ltm_net_equity" "LTM_Net_Equity" KDecimal false;
   mkfield "ltm_net_debt" "LTM_Net_Debt" KDecimal false;
   mkfield "ltm_fcf" "LTM_FCF" KDecimal false;
   mkfield "ltm_gross_profit" "LTM_Gross_Profit" KDecimal false;
   mkfield "ltm_net_result" "LTM_Net_Result" KDecimal false;
   mkfield "target_company_de_ratio" "Target_Companys_Debt_Equity_Ratio" KDecimal false;
   mkfield "discount_rate" "Discount_Rate" KDecimal false;
   mkfield "beta" "Beta" KDecimal false;
   mkfield "cost_of_equity" "Cost_of_Equity" KDecimal false;
   mkfield "cost_of_debt" "Cost_of_Debt" KDecimal false;
   mkfield "ev_ebitda" "EVEBITDA" KDecimal false;
   mkfield "ev_revenue" "EVRevenue" KDecimal false;
   mkfield "net_debt_ebitda" "Net_DebtEbitda" KDecimal false;
   mkfield "maturity_date" "Maturity_Date" KDate false;
   mkfield "price" "Price" KDecimal false;
   mkfield "coupon" "Coupon" KDecimal false;
   mkfield "spread" "Spread" KDecimal false;
   mkfield "watchlist_position" "Watchlist_position" KStr false;
   mkfield "ltv" "Ltv" KDecimal false;
   mkfield "leverage_entry" "Leverage_Entry" KDecimal false;
   mkfield "leverage" "Leverage" KDecimal false;
   mkfield "duration" "Duration" KDecimal false;
   mkfield "credit_sensitivity" "Credit_Sensitivity" KDecimal false;
   mkfield "risk_free_rate_applied" "Risk_Free_Rate_applied_to_Valuation" KDecimal false;
   mkfield "credit_rating" "Credit_Rating" KStr false;
   mkfield "credit_rating_source" "Credit_Rating_Source" KStr false;
   mkfield "credit_spread_pct" "Credit_Spread" KDecimal false;
   mkfield "country_premium_pct" "Country_Premium" KDecimal false;
   mkfield "liquidity_premium_pct" "Liquidity_Premium" KDecimal false;
   mkfield "other_premia_pct" "Other_premia" KDecimal false;
   mkfield "total_discount_rate_applied_pct" "Total_Discount_Rate_applied_to_Valuation" KDecimal false;
   mkfield "area" "Area" KStr false;
   mkfield "real_estate_segment" "Real_Estate_Segment" (KEnum RealEstateSegment) false]%string.

Definition FundExposure_fields : list field :=
  [mkfield "nav_date" "NAV_Date" KDate true;
   mkfield "valuation_date" "Valuation_Date" KDate false;
   mkfield "fondo_target_asset" "FONDO_TARGET_ASSET" KStr true;
   mkfield "oicr_fondo_target" "OICR_FONDO_TARGET" KStr true;
   mkfield "oicr" "OICR" KStr true;
   mkfield "isin_oicr" "ISIN_OICR" KStr false;
   mkfield "nome_fondo_target" "Nome_Fondo_Target" KStr true;
   mkfield "isin_fondo_target" "ISIN_Fondo_Target" KStr false;
   mkfield "tipologia_strumento" "Tipologia_Strumento" (KEnum InstrumentStrategy) false;
   mkfield "currency_fondo_target" "Currency_Fondo_Target" KStr false;
   mkfield "country_fondo_target" "Country_Fondo_Target" KStr false;
   mkfield "hedging_strategy_fondo_target" "Hedging_Strategy_Fondo_Target" (KEnum HedgingStrategy) false;
   mkfield "strategia_fondo_target" "Strategia_Fondo_Target" (KEnum UnderlyingFundStrategy) false;
   mkfield "nome_asset" "Nome_Asset" KStr false;
   mkfield "nome_asset_sintetico" "Nome_Asset_Sintetico" KStr false;
   mkfield "area_geo_asset" "Area_Geo_Asset" (KEnum GeographyMacroarea) false;
   mkfield "paese_asset" "Paese_Asset" KStr false;
   mkfield "indirizzo_asset" "Indirizzo_Asset" KStr false;
   mkfield "currency_asset" "Currency_Asset" KStr false;
   mkfield "macrosettore_attivita_asset" "Macrosettore_Attivita_Asset" (KEnum MacroSector) false;
   mkfield "settore_attivita_asset" "Settore_Attivita_Asset" KStr false;
   mkfield "tipologia_investimento" "Tipologia_Investimento" (KEnum InvestmentType) false;
   mkfield "investment_date" "Investment_Date" KDate false;
   mkfield "exit_date" "Exit_Date" KDate false;
   mkfield "valuation_methodology" "Valuation_Methodology" KStr false;
   mkfield "realized_unrealized" "Realized_Unrealized" (KEnum RealizationStatus) false;
   mkfield "commitment_fondo_target" "Commitment_Fondo_Target" KDecimal false;
   mkfield "capitale_investito_lordo_loc_curr" "Capitale_Investito_Lordo_Loc_Curr" KDecimal false;
   mkfield "distribuzioni_loc_curr" "Distribuzioni_Loc_Curr" KDecimal false;
   mkfield "fmv_loc_curr" "FMV_Loc_Curr" KDecimal false;
   mkfield "tvpi" "TVPI" KDecimal false;
   mkfield "irr" "IRR" KDecimal false;
   mkfield "cap_inv_fondo_target_pct" "Cap_Inv_Fondo_Target" KDecimal false;
   mkfield "fmv_fondo_target_pct" "FMV_Fondo_Target" KDecimal false;
   mkfield "cap_inv_ripartito_fof_eur" "Cap_Inv_Ripartito_FOF" KDecimal false;
   mkfield "nav_ripartito_fof_eur" "NAV_Ripartito_FOF" KDecimal false;
   mkfield "capitale_investito_fof_pct" "Capitale_Investito_Fof" KDecimal false;
   mkfield "fmv_fof_pct" "FMV_Fof" KDecimal false]%string.

(** A validated field value.  With [use_enum_values] an enumeration field
    holds the member's value (a string), otherwise the member itself. *)
Inductive value : Type :=
| VNone
| VStr (s : str)
| VDate (d : date)
| VDecimal (d : Decimal)
| VEnum (c : EnumClass) (member : string).

(** A validated model: the values of its fields by attribute name, in
    declaration order. *)
Definition model := list (string * value).

(** Enum resolution: the first member whose value is the input string. *)
Definition resolve (c : EnumClass) (raw : str) : option (string * string) :=
  find (fun m => PyStr.eqb (u (snd m)) raw) (members c).

(** The outcome of validating one field: a value, a validation error (which
    pydantic collects), or an exception that is neither a ValueError nor an
    AssertionError (which passes through pydantic unchanged). *)
Inductive outcome : Type :=
| Valid (v : value)
| Invalid (err : string)
| Raised (e : exn).

Definition validate_value (use_enum_values : bool) (f : field) (raw : pyval)
  : outcome :=
  match fkind f with
  | KStr =>
      match raw with
      | PStr s => Valid (VStr s)
      | PNone => if frequired f then Invalid "string_type" else Valid VNone
      | _ => Invalid "string_type"
      end
  | KDate =>
      match _parse_iso_or_quarter raw with
      | Ok (Some d) => Valid (VDate d)
      | Ok None => if frequired f then Invalid "date_type" else Valid VNone
      | Raise ValueError => Invalid "value_error"
      | Raise e => Raised e
      end
  | KDecimal =>
      match _to_decimal raw with
      | Ok (Some d) =>
          if is_finite d then Valid (VDecimal d) else Invalid "finite_number"
      | Ok None => if frequired f then Invalid "decimal_type" else Valid VNone
      | Raise ValueError => Invalid "value_error"
      | Raise e => Raised e
      end
  | KEnum c =>
      match raw with
      | PNone => if frequired f then Invalid "enum" else Valid VNone
      | PStr s =>
          match resolve c s with
          | Some (name, val) =>
              Valid (if use_enum_values then VStr (u val) else VEnum c name)
          | None => Invalid "enum"
          end
      | _ => Invalid "enum"
      end
  end.

(** The raw value of a field: by alias, else ([populate_by_name]) by
    attribute name. *)
Definition raw_of (f : field) (rec : dict) : option pyval :=
  match lookup (falias f) rec with
  | Some v => Some v
  | None => lookup (fname f) rec
  end.

(** An absent field takes its default [None] unvalidated, unless it is
    required. *)
Definition validate_field (use_enum_values : bool) (f : field) (rec : dict)
  : outcome :=
  match raw_of f rec with
  | Some raw => validate_value use_enum_values f raw
  | None => if frequired f then Invalid "missing" else Valid VNone
  end.

Definition errors := list (list loc_item * string).

(** The fields are validated in declaration order; errors accumulate, an
    exception stops the validation. *)
Fixpoint validate_fields (use_enum_values : bool) (fs : list field)
    (rec : dict) (loc : list loc_item) : result (model * errors) :=
  match fs with
  | [] => Ok ([], [])
  | f :: fs' =>
      match validate_field use_enum_values f rec with
      | Raised e => Raise e
      | Valid v =>
          (r <- validate_fields use_enum_values fs' rec loc ;;
           Ok ((fname f, v) :: fst r, snd r))%py
      | Invalid err =>
          (r <- validate_fields use_enum_values fs' rec loc ;;
           Ok (fst r, (loc ++ [LKey (falias f)], err) :: snd r))%py
      end
  end.

(** [AssetSnapshot] (no [use_enum_values]). *)
Definition AssetSnapshot := model.
Definition AssetSnapshot_validate (raw : pyval) (loc : list loc_item)
  : result (AssetSnapshot * errors) :=
  match raw with
  | PDict rec => validate_fields false AssetSnapshot_fields rec loc
  | _ => Ok ([], [(loc, "model_type"%string)])
  end.

(** [List[AssetSnapshot]], item by item. *)
Fixpoint validate_snapshots (items : list pyval) (i : nat) (loc : list loc_item)
  : result (list AssetSnapshot * errors) :=
  match items with
  | [] => Ok ([], [])
  | x :: items' =>
      (r <- AssetSnapshot_validate x (loc ++ [LIdx i]) ;;
       rs <- validate_snapshots items' (S i) loc ;;
       Ok (fst r :: fst rs, snd r ++ snd rs))%py
  end.

(** [FundExposure] ([use_enum_values=True]): the scalar fields, then
    [asset_snapshots], whose default is the empty list. *)
Record FundExposure : Type := mkFundExposure
  { fe_fields : model; asset_snapshots : list AssetSnapshot }.

Definition FundExposure_validate_at (raw : pyval) (loc : list loc_item)
  : result (FundExposure * errors) :=
  match raw with
  | PDict rec =>
      (r <- validate_fields true FundExposure_fields rec loc ;;
       rs <- match lookup "asset_snapshots" rec with
             | None => Ok ([], [])
             | Some (PList items) =>
                 validate_snapshots items 0 (loc ++ [LKey "asset_snapshots"])
             | Some _ =>
                 Ok ([], [(loc ++ [LKey "asset_snapshots"], "list_type"%string)])
             end ;;
       Ok (mkFundExposure (fst r) (fst rs), snd r ++ snd rs))%py
  | _ => Ok (mkFundExposure [] [], [(loc, "model_type"%string)])
  end.

(** [Model.model_validate]: any collected error raises one
    ValidationError. *)
Definition finish {A} (r : result (A * errors)) : result A :=
  (x <- r ;;
   match snd x with
   | [] => Ok (fst x)
   | errs => Raise (ValidationError errs)
   end)%py.

Definition FundExposure_validate (raw : pyval) : result FundExposure :=
  finish (FundExposure_validate_at raw []).

(** [FundExposureBatch]: [items: List[FundExposure]], default empty. *)
Fixpoint validate_items (items : list pyval) (i : nat) (loc : list loc_item)
  : result (list FundExposure * errors) :=
  match items with
  | [] => Ok ([], [])
  | x :: items' =>
      (r <- FundExposure_validate_at x (loc ++ [LIdx i]) ;;
       rs <- validate_items items' (S i) loc ;;
       Ok (fst r :: fst rs, snd r ++ snd rs))%py
  end.

Definition FundExposureBatch := list FundExposure.
Definition FundExposureBatch_validate (raw : pyval) : result FundExposureBatch :=
  finish
    match raw with
    | PDict rec =>
        match lookup "items" rec with
        | None => Ok ([], [])
        | Some (PList items) => validate_items items 0 [LKey "items"]
        | Some _ => Ok ([], [([LKey "items"], "list_type"%string)])
        end
    | _ => Ok ([], [([], "model_type"%string)])
    end.

(** [model_dump(by_alias=True)] followed by
    [json.dump(..., default=str)]: a Decimal, a date and an enumeration
    member are written as their [str()]. *)
Definition json_of_value (v : value) : pyval :=
  match v with
  | VNone => PNone
  | VStr s => PStr s
  | VDate d => PStr (isoformat d)
  | VDecimal d => PStr (to_str d)
  | VEnum c name => PStr (u (class_name c) ++ u "." ++ u name)
  end.

Definition dump_fields (fs : list field) (m : model) : dict :=
  map (fun f => (falias f,
                 json_of_value match lookup (fname f) m with
                               | Some v => v
                               | None => VNone
                               end)) fs.

Definition model_dump (fe : FundExposure) : dict :=
  dump_fields FundExposure_fields (fe_fields fe)
  ++ [("asset_snapshots"%string,
       PList (map (fun sn => PDict (dump_fields AssetSnapshot_fields sn))
                  (asset_snapshots fe)))].
Definition dump_FundExposure (fe : FundExposure) : pyval :=
  PDict (model_dump fe).

End Schema.
Import Schema.

(* ================================================================== *)
(** ** excel_exporting.py: projection, groups and flattening *)

Module ExcelExporting.

(** The column order. *)
Definition COLUMNS : list string :=
  ["NAV_Date"; "Valuation_Date"; "FONDO_TARGET_ASSET"; "OICR_FONDO_TARGET";
   "OICR"; "ISIN_OICR"; "Nome_Fondo_Target"; "ISIN_Fondo_Target";
   "Tipologia_Strumento"; "Currency_Fondo_Target"; "Country_Fondo_Target";
   "Hedging_Strategy_Fondo_Target"; "Strategia_Fondo_Target"; "Nome_Asset";
   "Nome_Asset_Sintetico"; "Area_Geo_Asset"; "Paese_Asset";
   "Indirizzo_Asset"; "Currency_Asset"; "Macrosettore_Attivita_Asset";
   "Settore_Attivita_Asset"; "Tipologia_Investimento"; "Investment_Date";
   "Exit_Date"; "Valuation_Methodology"; "Realized_Unrealized";
   "Commitment_Fondo_Target"; "Capitale_Investito_Lordo_Loc_Curr";
   "Distribuzioni_Loc_Curr"; "FMV_Loc_Curr"; "TVPI"; "IRR";
   "Cap_Inv_Fondo_Target"; "FMV_Fondo_Target"; "Cap_Inv_Ripartito_FOF";
   "NAV_Ripartito_FOF"; "Capitale_Investito_Fof"; "FMV_Fof";
   "Possesso_Entry"; "EV_Entry"; "EBITDA_Entry"; "Margin_Entry";
   "Net_Revenue_Entry"; "Net_Debt_Entry"; "FCF_Entry"; "Net_Result_Entry";
   "EVEbitda_Entry"; "EVRevenue_Entry"; "Net_DebtEbitda_Entry";
   "Economics_Reporting_Date"; "Possesso"; "EV"; "LTM_EBITDA"; "LTM_Margin";
   "LTM_Net_Revenues"; "LTM_Net_Equity"; "LTM_Net_Debt"; "LTM_FCF";
   "LTM_Gross_Profit"; "LTM_Net_Result"; "Target_Companys_Debt_Equity_Ratio";
   "Discount_Rate"; "Beta"; "Cost_of_Equity"; "Cost_of_Debt"; "EVEBITDA";
   "EVRevenue"; "Net_DebtEbitda"; "Maturity_Date"; "Price"; "Coupon";
   "Spread"; "Watchlist_position"; "Ltv"; "Leverage_Entry"; "Leverage";
   "Duration"; "Credit_Sensitivity"; "Risk_Free_Rate_applied_to_Valuation";
   "Credit_Rating"; "Credit_Rating_Source"; "Credit_Spread";
   "Country_Premium"; "Liquidity_Premium"; "Other_premia";
   "Total_Discount_Rate_applied_to_Valuation"; "Area"; "Real_Estate_Segment"]%string.

(** The colour groups, in the order of the dictionary literal. *)
Definition COLUMN_GROUPS : list (string * list string) :=
  [("beige",
    ["NAV_Date"; "Valuation_Date"]);
   ("gray",
    ["FONDO_TARGET_ASSET"; "OICR_FONDO_TARGET"; "OICR"; "ISIN_OICR"]);
   ("light_blue",
    ["Nome_Fondo_Target"; "ISIN_Fondo_Target"; "Tipologia_Strumento";
     "Currency_Fondo_Target"; "Country_Fondo_Target";
     "Hedging_Strategy_Fondo_Target"; "Strategia_Fondo_Target"]);
   ("light_yellow",
    ["Nome_Asset"; "Nome_Asset_Sintetico"; "Area_Geo_Asset"; "Paese_Asset";
     "Indirizzo_Asset"; "Currency_Asset"; "Macrosettore_Attivita_Asset";
     "Settore_Attivita_Asset"]);
   ("pink",
    ["Tipologia_Investimento"; "Investment_Date"; "Exit_Date";
     "Valuation_Methodology"; "Realized_Unrealized";
     "Commitment_Fondo_Target"; "Capitale_Investito_Lordo_Loc_Curr";
     "Distribuzioni_Loc_Curr"; "FMV_Loc_Curr"; "TVPI"; "IRR";
     "Cap_Inv_Fondo_Target"; "FMV_Fondo_Target"; "Cap_Inv_Ripartito_FOF";
     "NAV_Ripartito_FOF"; "Capitale_Investito_Fof"; "FMV_Fof"]);
   ("light_green",
    ["Possesso_Entry"; "EV_Entry"; "EBITDA_Entry"; "Margin_Entry";
     "Net_Revenue_Entry"; "Net_Debt_Entry"; "FCF_Entry"; "Net_Result_Entry";
     "EVEbitda_Entry"; "EVRevenue_Entry"; "Net_DebtEbitda_Entry";
     "Economics_Reporting_Date"; "Possesso"; "EV"; "LTM_EBITDA";
     "LTM_Margin"; "LTM_Net_Revenues"; "LTM_Net_Equity"; "LTM_Net_Debt";
     "LTM_FCF"; "LTM_Gross_Profit"; "LTM_Net_Result"]);
   ("gray2",
    ["Target_Companys_Debt_Equity_Ratio"; "Discount_Rate"; "Beta";
     "Cost_of_Equity"; "Cost_of_Debt"]);
   ("orange",
    ["EVEBITDA"; "EVRevenue"; "Net_DebtEbitda"; "Maturity_Date"; "Price";
     "Coupon"; "Spread"; "Watchlist_position"; "Ltv"; "Leverage_Entry";
     "Leverage"; "Duration"; "Credit_Sensitivity"]);
   ("gray3",
    ["Risk_Free_Rate_applied_to_Valuation"; "Credit_Rating";
     "Credit_Rating_Source"; "Credit_Spread"; "Country_Premium";
     "Liquidity_Premium"; "Other_premia";
     "Total_Discount_Rate_applied_to_Valuation"]);
   ("green_final",
    ["Area"; "Real_Estate_Segment"])]%string.

Definition FILL_COLORS : list (string * string) :=
  [("beige", "DDD0C8");
   ("gray", "D9D9D9");
   ("light_blue", "DEEDED");
   ("light_yellow", "F6E8CC");
   ("pink", "F8D7DA");
   ("light_green", "D4EED4");
   ("gray2", "BFBFBF");
   ("orange", "F8CBAD");
   ("gray3", "C9C9C9");
   ("green_final", "C6EFCE")]%string.

(** The column list of a group, as [COLUMN_GROUPS[g]]. *)
Definition group_columns (g : string) : list string :=
  match lookup g COLUMN_GROUPS with Some cs => cs | None => [] end.

(** [p in s] for strings. *)
Fixpoint contains (s p : str) : bool :=
  startswith s p || match s with _ :: s' => contains s' p | [] => false end.

(** [d[k] = v] *)
Fixpoint set_item {V} (k : string) (v : V) (d : list (string * V))
  : list (string * V) :=
  match d with
  | [] => [(k, v)]
  | (k', v') :: d' =>
      if String.eqb k' k then (k, v) :: d' else (k', v') :: set_item k v d'
  end.

(** [k in snap and snap[k] is not None], with the value when it holds.
    On a string or a list [in] is a containment test and indexing by a
    string a TypeError; [in] on [None], a number or a boolean is a
    TypeError. *)
Definition snap_item (snap : pyval) (k : string) : result (option pyval) :=
  match snap with
  | PDict d =>
      match lookup k d with
      | Some PNone => Ok None
      | Some v => Ok (Some v)
      | None => Ok None
      end
  | PStr s => if contains s (u k) then Raise TypeError else Ok None
  | PList l =>
      if existsb (fun x => match x with
                           | PStr s => PyStr.eqb s (u k)
                           | _ => false
                           end) l
      then Raise TypeError else Ok None
  | PNone | PBool _ | PInt _ => Raise TypeError
  end.

(** The loop [for k in COLUMNS: if k in snap and ...: flat[k] = snap[k]]. *)
Fixpoint overlay (snap : pyval) (ks : list string) (flat : dict) : result dict :=
  match ks with
  | [] => Ok flat
  | k :: ks' =>
      (o <- snap_item snap k ;;
       overlay snap ks' match o with
                        | Some v => set_item k v flat
                        | None => flat
                        end)%py
  end.

(** [rec.get(k, None)] *)
Definition get (k : string) (rec : dict) : pyval :=
  match lookup k rec with Some v => v | None => PNone end.

(** [snapshots[0] if isinstance(snapshots, list) and snapshots else {}] *)
Definition first_snapshot (rec : dict) : pyval :=
  match lookup "asset_snapshots" rec with
  | Some (PList (s0 :: _)) => s0
  | _ => PDict []
  end.

Definition flatten_record (rec : pyval) : result dict :=
  match rec with
  | PDict r =>
      let flat := map (fun k => (k, get k r)) COLUMNS in
      overlay (first_snapshot r) COLUMNS flat
  | _ => Raise AttributeError
  end.

(** The parsed content of a JSON file: a list of records, one record, or
    nothing usable. *)
Definition load_json_records (data : pyval) : list pyval :=
  match data with
  | PList l => l
  | PDict _ => [data]
  | _ => []
  end.

(** The rows a file contributes: an exception while flattening skips the
    rest of the file, the rows already appended stay. *)
Fixpoint rows_of_records (records : list pyval) : list dict :=
  match records with
  | [] => []
  | rec :: rs =>
      match flatten_record rec with
      | Ok row => row :: rows_of_records rs
      | Raise _ => []
      end
  end.

(** [sorted(out_dir_path.glob("*.json"))]: the files of the folder by
    name.  Paths of one folder compare by their last part, a [str], and so
    by code points; a name is held here as its bytes, whose order is the
    same.  [insert_by_name] puts a file before the first one that is not
    below it. *)
Fixpoint insert_by_name {X} (f : string * X) (fs : list (string * X))
  : list (string * X) :=
  match fs with
  | [] => [f]
  | g :: fs' =>
      if String.leb (fst f) (fst g) then f :: g :: fs'
      else g :: insert_by_name f fs'
  end.
Definition sorted_by_name {X} (fs : list (string * X)) : list (string * X) :=
  fold_right insert_by_name [] fs.

(** The rows of the files taken in the order given. *)
Definition all_rows (files : list (string * pyval)) : list dict :=
  flat_map (fun f => rows_of_records (load_json_records (snd f))) files.

(** [export_excel] on the content of the output folder: the files are read
    in the order of their names, and no file is written when there is no
    row. *)
Definition export_excel (out_dir : list (string * pyval))
  : option (list string * list dict) :=
  match all_rows (sorted_by_name out_dir) with
  | [] => None
  | rows => Some (COLUMNS, rows)
  end.

End ExcelExporting.
Import ExcelExporting.

(* ================================================================== *)
(** ** agent_field_matching.py: one document, then the loop *)

Module AgentFieldMatching.

(** [process_md_file]: the structured-output wrapper validates what the
    oracle returned against [FundExposureBatch]; the items are then dumped
    by alias. *)
Definition process_md_file (oracle_output : pyval) : result pyval :=
  (obj <- FundExposureBatch_validate oracle_output ;;
   Ok (PList (map dump_FundExposure obj)))%py.

(** [str.rfind] of one character: the last index where it occurs, or -1. *)
Fixpoint rfind_from (c : ascii) (p : list ascii) (i : Z) (found : Z) : Z :=
  match p with
  | [] => found
  | a :: p' => rfind_from c p' (i + 1) (if Ascii.eqb a c then i else found)
  end.
Definition rfind (c : ascii) (p : list ascii) : Z := rfind_from c p 0 (-1).

(** [p[i:j]] for indices that are not negative. *)
Definition slice (p : list ascii) (i j : Z) : list ascii :=
  firstn (Z.to_nat (j - i)) (skipn (Z.to_nat i) p).

(** [os.path.basename]: what follows the last separator. *)
Definition basename (p : list ascii) : list ascii :=
  skipn (Z.to_nat (rfind "/" p + 1)) p.

(** [os.path.splitext]: the extension starts at the last dot of the last
    part, unless only dots come before it there; the loop over the leading
    dots is the test that all of them are dots. *)
Definition splitext (p : list ascii) : list ascii * list ascii :=
  let sepIndex := rfind "/" p in
  let dotIndex := rfind "." p in
  if Z.ltb sepIndex dotIndex
     && negb (forallb (Ascii.eqb ".") (slice p (sepIndex + 1) dotIndex))
  then (firstn (Z.to_nat dotIndex) p, skipn (Z.to_nat dotIndex) p)
  else (p, []).

(** The name [save_json] gives the file of a document:
    [os.path.splitext(os.path.basename(md_path))[0] + ".json"].  A path is
    held as its bytes; separator and dot are single bytes in every
    encoding of a path. *)
Definition json_name (md_path : string) : string :=
  string_of_list_ascii
    (fst (splitext (basename (list_ascii_of_string md_path))))
  ++ ".json".

(** [field_matching]: each document, given by the path of its markdown
    file and what the oracle returns for it, is processed inside [try]; on
    success its JSON file is written into the output folder (a file of the
    same name is overwritten), on any exception the failure is printed with
    the path and the document is skipped.  The state of the loop is the
    content of the output folder and what was printed for the failures. *)
Record run : Type := mkrun
  { saved : list (string * pyval); reported : list (string * exn) }.

Definition field_matching_step (st : run) (doc : string * pyval) : run :=
  match process_md_file (snd doc) with
  | Ok data =>
      mkrun (set_item (json_name (fst doc)) data (saved st)) (reported st)
  | Raise e => mkrun (saved st) (reported st ++ [(fst doc, e)])
  end.
Definition field_matching (docs : list (string * pyval)) : run :=
  fold_left field_matching_step docs (mkrun [] []).

End AgentFieldMatching.
Import AgentFieldMatching.

(* ================================================================== *)
(** ** Decision procedures used in the proofs *)

(** A boolean test of duplicate-freeness. *)
Fixpoint nodupb {A} (A_eqb : A -> A -> bool) (l : list A) : bool :=
  match l with
  | [] => true
  | x :: l' => negb (existsb (A_eqb x) l') && nodupb A_eqb l'
  end.

(** The operating range of the default context on which a division by 100
    or 10000 and a multiplication by 1e3, 1e6 or 1e9 are exact: at most 28
    significant digits, and an exponent that leaves room for the shift. *)
Definition in_working_range (c : N) (e : Z) : Prop :=
  (c < 10 ^ 28)%N /\ (Emin <= e <= Etop - 9)%Z.

(** The magnitude letters K, k, M, m, B, b with the exponents of their
    multipliers in [_KMB]. *)
Definition magnitude_letters : list (N * Z) :=
  [(75%N, 3%Z); (107%N, 3%Z); (77%N, 6%Z); (109%N, 6%Z); (66%N, 9%Z);
   (98%N, 9%Z)].

(** The spellings that [(?i)as of] matches: either case of each letter, and
    U+017F for the s. *)
Definition as_of_spellings : list str :=
  flat_map (fun a =>
    flat_map (fun s =>
      flat_map (fun o =>
        map (fun f => [a; s; 32%N; o; f]) [102%N; 70%N])
        [111%N; 79%N])
      [115%N; 83%N; 383%N])
    [97%N; 65%N].

(* ================================================================== *)
(** ** The documented date notations

    How a date is written in each notation that [_parse_iso_or_quarter]
    recognises; the properties below read these renderings back. *)

Module DateNotation.

(** A year in four digits, a month or day in two, a day without padding. *)
Definition Y4 (y : Z) : str := zfill 4 (str_of_N (Z.to_N y)).
Definition D2 (n : Z) : str := zfill 2 (str_of_N (Z.to_N n)).
Definition D1 (n : Z) : str := str_of_N (Z.to_N n).

Definition month_names : list string :=
  ["January"; "February"; "March"; "April"; "May"; "June"; "July";
   "August"; "September"; "October"; "November"; "December"]%string.
Definition month_name (m : Z) : str :=
  u (nth (Z.to_nat (m - 1)) month_names EmptyString).

(** [Q2 2023] (the letter in either case) *)
Definition quarter (letter : N) (q y : Z) : str :=
  letter :: D1 q ++ u " " ++ Y4 y.
(** [2023-07-04], [2023-07], [04/07/2023], [07/04/2023], [July 4, 2023],
    [4 July 2023] *)
Definition iso (y m d : Z) : str := Y4 y ++ u "-" ++ D2 m ++ u "-" ++ D2 d.
Definition iso_month (y m : Z) : str := Y4 y ++ u "-" ++ D2 m.
Definition dmy (y m d : Z) : str := D2 d ++ u "/" ++ D2 m ++ u "/" ++ Y4 y.
Definition mdy (y m d : Z) : str := D2 m ++ u "/" ++ D2 d ++ u "/" ++ Y4 y.
Definition long_mdy (y m d : Z) : str :=
  month_name m ++ u " " ++ D1 d ++ u ", " ++ Y4 y.
Definition long_dmy (y m d : Z) : str :=
  D1 d ++ u " " ++ month_name m ++ u " " ++ Y4 y.

(** A date of the calendar of [datetime.date]. *)
Definition valid_date (y m d : Z) : Prop :=
  (1 <= y <= 9999)%Z /\ (1 <= m <= 12)%Z /\ (1 <= d <= monthrange y m)%Z.

(** Integer ranges, for the facts settled by enumeration. *)
Definition zrange (lo hi : Z) : list Z :=
  map Z.of_nat (seq (Z.to_nat lo) (Z.to_nat (hi - lo + 1))).

(** The rendering of a number in [w] digits reads back as the number. *)
Definition digits_ok (w : nat) (render : Z -> str) (n : Z) : bool :=
  let s := render n in
  Nat.eqb (List.length s) w && forallb isdigit s
  && Z.eqb (Z.of_N (int_of_digits s)) n.

End DateNotation.
Import DateNotation.

(** A string without an [a] directly followed by an [s] (in any letter
    case): it has no [as of] to delete. *)
Fixpoint as_free (s : str) : bool :=
  match s with
  | x :: t =>
      negb (ieq 97 x && match t with y :: _ => ieq 115 y | [] => false end)
      && as_free t
  | [] => true
  end.

(** A string that starts and ends with a character other than whitespace,
    does not start with the letter of the quarter notation and holds no
    [as of]: [_parse_iso_or_quarter] hands it to the formats as it is. *)
Definition plain_date_string (s : str) : Prop :=
  exists c c', hd_error s = Some c /\ isspace c = false /\ ieq 81 c = false
               /\ last1 s = Some c' /\ isspace c' = false
               /\ as_free s = true.

(** Whether a string ends with an [a] in either case. *)
Definition ends_a (x : str) : bool :=
  match last1 x with Some c => ieq 97 c | None => false end.

(** A non-empty string of digits. *)
Definition digit_string (x : str) : Prop :=
  x <> [] /\ forallb isdigit x = true.

(** The separators of the formats as expressions. *)
Definition dash : regex := Cls (ieq 45).
Definition slash : regex := Cls (ieq 47).
Definition comma : regex := Cls (ieq 44).
Definition spaces : regex := Plus isspace.


(* ================================================================== *)
(** ** The two scopes of a column

    The columns that are fields of the record itself and the columns that
    are fields of a snapshot, by the aliases of the two models. *)

Definition top_level_columns : list string := map falias FundExposure_fields.
Definition snapshot_columns : list string := map falias AssetSnapshot_fields.

(** What the overlay takes from a snapshot dictionary for a column. *)
Definition snapshot_value (d : dict) (k : string) : option pyval :=
  match lookup k d with
  | Some PNone => None
  | Some v => Some v
  | None => None
  end.


(* ================================================================== *)
(** ** Shapes of records used in the properties *)

(** The fields of a model declared without a default. *)
Definition required_fields (fs : list field) : list string :=
  map falias (filter frequired fs).

(** No member of the class has this display value. *)
Definition no_member (c : EnumClass) (s : str) : Prop :=
  forall name val, In (name, val) (members c) -> s <> u val.

(** Validation fails: it raises, and unless an exception of a field
    validator passed through, what it raises is the validation error with
    all collected errors, this one among them. *)
Definition fails_with {A} (r : result (A * errors)) (loc : list loc_item)
    (err : string) : Prop :=
  (exists e, finish r = Raise e)
  /\ forall x, r = Ok x ->
               finish r = Raise (ValidationError (snd x))
               /\ In (loc, err) (snd x).


(** A record with the five required fields and a classification in lower
    case; the same record without [FONDO_TARGET_ASSET]. *)
Definition identity_fields : dict :=
  [("NAV_Date"%string, PStr (u "2023-06-30"));
   ("OICR_FONDO_TARGET"%string, PStr (u "FoF I / Target A"));
   ("OICR"%string, PStr (u "FoF I"));
   ("Nome_Fondo_Target"%string, PStr (u "Target A"))].
Definition record_lowercase_enum : dict :=
  (identity_fields
   ++ [("FONDO_TARGET_ASSET"%string, PStr (u "Target A / Asset 1"));
       ("Tipologia_Strumento"%string, PStr (u "equity"))])%list.
Definition record_plain : dict :=
  (identity_fields
   ++ [("FONDO_TARGET_ASSET"%string, PStr (u "Target A / Asset 1"))])%list.


(** What a document leaves in the output folder and what is printed for
    it, and the rows its JSON file gives. *)
Definition saved_of (doc : string * pyval) : list (string * pyval) :=
  match process_md_file (snd doc) with
  | Ok data => [(json_name (fst doc), data)]
  | Raise _ => []
  end.
Definition reported_of (doc : string * pyval) : list (string * exn) :=
  match process_md_file (snd doc) with
  | Ok _ => []
  | Raise e => [(fst doc, e)]
  end.
Definition rows_of (doc : string * pyval) : list dict :=
  match process_md_file (snd doc) with
  | Ok data => rows_of_records (load_json_records data)
  | Raise _ => []
  end.

(** The documents under the names of their JSON files, in the order of
    these names. *)
Definition by_json_name (docs : list (string * pyval))
  : list (string * pyval) :=
  sorted_by_name (map (fun doc => (json_name (fst doc), snd doc)) docs).

(** What [export_excel] writes for these rows: nothing when there is
    none. *)
Definition table_of (rows : list dict) : option (list string * list dict) :=
  match rows with
  | [] => None
  | _ => Some (COLUMNS, rows)
  end.

(** Validation collected no error and raised nothing. *)
Definition accepted {A} (r : result (A * errors)) : bool :=
  match r with
  | Ok (_, []) => true
  | _ => false
  end.

(** A batch of three records, the second without [OICR], as the only
    document, and next to a document of two valid records. *)
Definition batch_of (items : list pyval) : pyval :=
  PDict [("items"%string, PList items)].
Definition three_records : list pyval :=
  [PDict record_plain;
   PDict (("NAV_Date"%string, PStr (u "2023-06-30"))
          :: ("FONDO_TARGET_ASSET"%string, PStr (u "Target B / Asset 2"))
          :: ("OICR_FONDO_TARGET"%string, PStr (u "FoF I / Target B"))
          :: ("Nome_Fondo_Target"%string, PStr (u "Target B")) :: nil);
   PDict (("Currency_Asset"%string, PStr (u "EUR")) :: record_plain)].


(** The tests of [_to_decimal] that lead to a branch outside the [try]
    block, on the stripped string: a percent sign, [bp] or [x] at the end,
    or a magnitude letter at the end once commas and currency symbols are
    removed. *)
Definition suffixed (s : str) : bool :=
  endswith s (u "%") || endswith (lower s) (u "bp")
  || endswith (lower s) (u "x")
  || match last1 (strip_symbols s) with
     | Some c => match kmb_get (upper1 c) _KMB with
                 | Some _ => true
                 | None => false
                 end
     | None => false
     end.


(* ================================================================== *)
(** ** excel_exporting.py: the header colours *)

(** The inner loop of [apply_header_colors]: the first group, in the order
    of the dictionary, whose list has the column name. *)
Fixpoint first_group (col_name : string) (groups : list (string * list string))
  : option string :=
  match groups with
  | [] => None
  | (g, col_list) :: rest =>
      if existsb (String.eqb col_name) col_list then Some g
      else first_group col_name rest
  end.

(** The fill a header cell gets: [FILL_COLORS[group]] for the group found,
    and nothing when no group has the name. *)
Definition header_fill (col_name : string) : result (option string) :=
  match first_group col_name COLUMN_GROUPS with
  | None => Ok None
  | Some g =>
      match lookup g FILL_COLORS with
      | Some color => Ok (Some color)
      | None => Raise KeyError
      end
  end.

(** [apply_header_colors], from the names in the first row to the fills of
    its cells. *)
Fixpoint apply_header_colors (header : list string)
  : result (list (option string)) :=
  match header with
  | [] => Ok []
  | col_name :: rest =>
      (f <- header_fill col_name ;;
       fs <- apply_header_colors rest ;;
       Ok (f :: fs))%py
  end.

(** The group that lists a column, and whether two columns are in one
    group. *)
Definition group_of (col : string) (g : string) : Prop :=
  exists cols, In (g, cols) COLUMN_GROUPS /\ In col cols.


(** What a validated field may hold, by its declared type: nothing, or a
    string, a day of the calendar, a finite number, or a member of the
    enumeration (as its value where the model uses enum values). *)
Definition well_formed (k : kind) (use_enum_values : bool) (v : value) : Prop :=
  v = VNone
  \/ match k with
     | KStr => exists s, v = VStr s
     | KDate => exists d, v = VDate d /\ valid_date (year d) (month d) (day d)
     | KDecimal => exists d, v = VDecimal d /\ is_finite d = true
     | KEnum c =>
         exists name val,
           In (name, val) (members c)
           /\ v = if use_enum_values then VStr (u val) else VEnum c name
     end.

(** [str()] of an enumeration member. *)
Definition qualified_name (c : EnumClass) (name : string) : str :=
  u (class_name c) ++ u "." ++ u name.


(* ================================================================== *)
(** ** What an expression accepts

    The strings an expression matches, stated without the search:
    [accepts r prev s rest] says that [r] matches [s] when [prev] is the
    character before [s] and [rest] is what follows it.  [alphabet r] is
    the class of the characters that a match of [r] can be made of. *)

Definition last_or (prev : option N) (s : str) : option N :=
  match last1 s with Some c => Some c | None => prev end.

Fixpoint accepts (r : regex) (prev : option N) (s rest : str) : Prop :=
  match r with
  | Eps => s = []
  | Cls p => exists c, s = [c] /\ p c = true
  | Seq r1 r2 =>
      exists s1 s2,
        s = (s1 ++ s2)%list
        /\ accepts r1 prev s1 (s2 ++ rest)
        /\ accepts r2 (last_or prev s1) s2 rest
  | Alt r1 r2 => accepts r1 prev s rest \/ accepts r2 prev s rest
  | Star p => forallb p s = true
  | Plus p => s <> [] /\ forallb p s = true
  | Group _ r1 => accepts r1 prev s rest
  | Look r1 =>
      s = [] /\ exists s1 s2, rest = (s1 ++ s2)%list /\ accepts r1 prev s1 s2
  | WordB => s = [] /\ at_boundary prev rest = true
  | EndZ => s = [] /\ rest = []
  end.

Fixpoint alphabet (r : regex) (c : N) : bool :=
  match r with
  | Eps | Look _ | WordB | EndZ => false
  | Cls p | Star p | Plus p => p c
  | Seq r1 r2 | Alt r1 r2 => alphabet r1 c || alphabet r2 c
  | Group _ r1 => alphabet r1 c
  end.

(** The whole of a string is accepted by a format of [strptime], by the
    grammar of the [Decimal] constructor (which drops surrounding whitespace
    and underscores first), and the start of a string is in the quarter
    notation. *)
Definition matches_format (f : string) (s : str) : Prop :=
  exists r, pattern false f = Some r /\ accepts r None s [].
Definition numeric_string (t : str) : Prop :=
  accepts _parser None (replace1 95 [] (strip t)) [].
Definition starts_with_quarter (s : str) : Prop :=
  exists p rest, s = (p ++ rest)%list /\ accepts quarter_re None p rest.

(** What is left of a string for the formats: stripped, [as of] removed,
    stripped again. *)
Definition date_text (s : str) : str :=
  strip (re_sub_del as_of_re (strip s)).


(** Every string that the expression accepts has a decimal digit. *)
Definition needs_digit (r : regex) : Prop :=
  forall prev s rest, accepts r prev s rest -> existsb isdigit s = true.


(** The files are in the order of their names: each one is not above any
    that comes after it. *)
Fixpoint name_sorted {X} (fs : list (string * X)) : Prop :=
  match fs with
  | [] => True
  | f :: fs' =>
      (forall g, In g fs' -> String.leb (fst f) (fst g) = true)
      /\ name_sorted fs'
  end.

(** The files of a folder that a reading keeps, each under its name. *)
Definition kept {X Y} (keep : X -> option Y) (fs : list (string * X))
  : list (string * Y) :=
  flat_map (fun f => match keep (snd f) with
                     | Some y => [(fst f, y)]
                     | None => []
                     end) fs.

(** What [process_md_file] returns, when it returns. *)
Definition processed (oracle_output : pyval) : option pyval :=
  match process_md_file oracle_output with
  | Ok data => Some data
  | Raise _ => None
  end.

(* ================================================================== *)
(** * Properties *)

(** ** The runtime model on known inputs *)

(** The Decimal constructor. *)
Example from_str_ex :
  from_str (u " 1_000.50 ") = Ok (Fin false 100050 (-2))
  /\ from_str (u "-.5e3") = Ok (Fin true 5 2)
  /\ from_str (u "1.") = Ok (Fin false 1 0)
  /\ from_str (u ".") = Raise InvalidOperation
  /\ from_str [] = Raise InvalidOperation
  /\ from_str (u "1e") = Raise InvalidOperation
  /\ from_str (u "-Infinity") = Ok (Inf true)
  /\ from_str (u "snan12") = Ok (NaN false true 12)
  /\ from_str (u "0x10") = Raise InvalidOperation.
Proof. repeat split; reflexivity. Qed.

(** Division and multiplication round to 28 digits, half even. *)
Example truediv_ex :
  truediv (Fin false 1 0) (Fin false 3 0)
    = Ok (Fin false 3333333333333333333333333333 (-28))
  /\ truediv (Fin false 2 0) (Fin false 3 0)
    = Ok (Fin false 6666666666666666666666666667 (-28))
  /\ truediv (Fin false 5 0) (Fin false 100 0) = Ok (Fin false 5 (-2))
  /\ truediv (Fin false 500 0) (Fin false 100 0) = Ok (Fin false 5 0)
  /\ truediv (Fin false 10000000000000000000000000001 0) (Fin false 100 0)
    = Ok (Fin false 1000000000000000000000000000 (-1))
  /\ mul (Fin false 12 (-1)) (Fin false 1 6) = Ok (Fin false 12 5)
  /\ mul (Fin false 9 999999) (Fin false 1 3) = Raise Overflow.
Proof. repeat split; vm_compute; reflexivity. Qed.

(** str() of a Decimal. *)
Example to_str_ex :
  to_str (Fin false 12 5) = u "1.2E+6" /\ to_str (Fin false 5 (-2)) = u "0.05"
  /\ to_str (Fin true 1234 (-2)) = u "-12.34" /\ to_str (Fin false 0 0) = u "0"
  /\ to_str (Fin false 5 (-8)) = u "5E-8" /\ to_str (Fin false 120 0) = u "120".
Proof. repeat split; vm_compute; reflexivity. Qed.

(** strptime on the formats of the source. *)
Example strptime_ex :
  strptime (u "2023-07-04") "%Y-%m-%d" = Ok (mkdate 2023 7 4)
  /\ strptime (u "2023-7-4") "%Y-%m-%d" = Ok (mkdate 2023 7 4)
  /\ strptime (u "2023-07") "%Y-%m" = Ok (mkdate 2023 7 1)
  /\ strptime (u "2023-13") "%Y-%m" = Raise ValueError
  /\ strptime (u "2023-02-29") "%Y-%m-%d" = Raise ValueError
  /\ strptime (u "2024-02-29") "%Y-%m-%d" = Ok (mkdate 2024 2 29)
  /\ strptime (u "31/12/2023") "%d/%m/%Y" = Ok (mkdate 2023 12 31)
  /\ strptime (u "12/31/2023") "%d/%m/%Y" = Raise ValueError
  /\ strptime (u "12/31/2023") "%m/%d/%Y" = Ok (mkdate 2023 12 31)
  /\ strptime (u "June 30, 2023") "%B %d, %Y" = Ok (mkdate 2023 6 30)
  /\ strptime (u "june  5,  2023") "%B %d, %Y" = Ok (mkdate 2023 6 5)
  /\ strptime (u "30 JUNE 2023") "%d %B %Y" = Ok (mkdate 2023 6 30)
  /\ strptime (u "0000-01-01") "%Y-%m-%d" = Raise ValueError
  /\ strptime (u "2023-07-04x") "%Y-%m-%d" = Raise ValueError.
Proof. repeat split; vm_compute; reflexivity. Qed.

(** _to_decimal on the forms named in its docstring and on malformed input. *)
Example to_decimal_ex :
  _to_decimal (PStr (u "1.2M")) = Ok (Some (Fin false 12 5))
  /\ _to_decimal (PStr (u "5%")) = Ok (Some (Fin false 5 (-2)))
  /\ _to_decimal (PStr (u "250bp")) = Ok (Some (Fin false 25 (-3)))
  /\ _to_decimal (PStr (u "250 bp")) = Ok (Some (Fin false 25 (-3)))
  /\ _to_decimal (PStr (u "2.7x")) = Ok (Some (Fin false 27 (-1)))
  /\ _to_decimal (PStr (u "4,570M")) = Ok (Some (Fin false 4570 6))
  /\ _to_decimal (PStr (u "$174M")) = Ok (Some (Fin false 174 6))
  /\ _to_decimal (PStr (36%N :: EURO :: POUND :: u "1,7k")) = Ok (Some (Fin false 17 3))
  /\ _to_decimal (PStr (u "12%")) = Ok (Some (Fin false 12 (-2)))
  /\ _to_decimal (PStr (u "abc")) = Ok None
  /\ _to_decimal (PStr (u "abc%")) = Raise InvalidOperation
  /\ _to_decimal (PStr (u "NaN")) = Ok (Some (NaN false false 0))
  /\ _to_decimal (PStr (u "inf")) = Ok (Some (Inf false))
  /\ _to_decimal (PInt (-12)) = Ok (Some (Fin true 12 0))
  /\ _to_decimal (PBool true) = Raise InvalidOperation.
Proof. repeat split; vm_compute; reflexivity. Qed.

(** _parse_iso_or_quarter on the forms named in its docstring. *)
Example parse_date_ex :
  _parse_iso_or_quarter (PStr (u "Q2 2023")) = Ok (Some (mkdate 2023 6 30))
  /\ _parse_iso_or_quarter (PStr (u "q4  1999xyz")) = Ok (Some (mkdate 1999 12 31))
  /\ _parse_iso_or_quarter (PStr (u "2023-07")) = Ok (Some (mkdate 2023 7 31))
  /\ _parse_iso_or_quarter (PStr (u "2024-02")) = Ok (Some (mkdate 2024 2 29))
  /\ _parse_iso_or_quarter (PStr (u "as of 30 June 2023")) = Ok (Some (mkdate 2023 6 30))
  /\ _parse_iso_or_quarter (PStr (u "As Of June 30, 2023")) = Ok (Some (mkdate 2023 6 30))
  /\ _parse_iso_or_quarter (PStr (u "01/02/2023")) = Ok (Some (mkdate 2023 2 1))
  /\ _parse_iso_or_quarter (PStr (u "12/31/2023")) = Ok (Some (mkdate 2023 12 31))
  /\ _parse_iso_or_quarter (PStr (u "as of Q2 2023")) = Ok None
  /\ _parse_iso_or_quarter (PStr (u "Q1 0000")) = Raise ValueError
  /\ _parse_iso_or_quarter (PStr (u "hello")) = Ok None
  /\ _parse_iso_or_quarter (PStr (u "basof 2023-01-01")) = Ok None.
Proof. repeat split; vm_compute; reflexivity. Qed.

(* ================================================================== *)
(** ** Column groups (excel_exporting.py) *)

Section ListFacts.

Variable A : Type.
Variable A_eqb : A -> A -> bool.
Hypothesis A_eqb_eq : forall x y, A_eqb x y = true <-> x = y.

Lemma nodupb_sound (l : list A) : nodupb A_eqb l = true -> NoDup l.
Proof.
  induction l as [|x l IH]; simpl; intro H.
  - constructor.
  - apply andb_true_iff in H as [Hx Hl].
    constructor; [|auto].
    intro Hin. apply negb_true_iff in Hx.
    assert (existsb (A_eqb x) l = true) as E.
    { apply existsb_exists. exists x. split; [assumption|]. now apply A_eqb_eq. }
    congruence.
Qed.

(** In a duplicate-free concatenation an element lies in one block only. *)
Lemma concat_NoDup_unique {B} (f : B -> list A) (gs : list B) :
  NoDup (List.concat (map f gs)) ->
  forall g1 g2 c, In g1 gs -> In g2 gs -> In c (f g1) -> In c (f g2) -> g1 = g2.
Proof.
  induction gs as [|g gs IH]; simpl; intros ND g1 g2 c H1 H2 Hc1 Hc2.
  - contradiction.
  - assert (forall h, In h gs -> In c (f h) -> In c (List.concat (map f gs))) as Hin.
    { intros h Hh Hc. apply in_concat. exists (f h). split; [|assumption].
      now apply in_map. }
    pose proof (NoDup_app_remove_l _ _ ND) as ND'.
    assert (forall x, In x (f g) -> ~ In x (List.concat (map f gs))) as Hdis.
    { intros x Hx Hx'. revert ND Hx Hx'. clear. generalize (List.concat (map f gs)).
      induction (f g) as [|y l IHl]; simpl; intros r ND Hx Hx'.
      - contradiction.
      - inversion ND as [|? ? Hy ND1]; subst. destruct Hx as [->|Hx].
        + apply Hy. apply in_or_app. now right.
        + now apply (IHl r). }
    destruct H1 as [<-|H1], H2 as [<-|H2].
    + reflexivity.
    + exfalso. apply (Hdis c Hc1). now apply (Hin g2).
    + exfalso. apply (Hdis c Hc2). now apply (Hin g1).
    + now apply (IH ND' g1 g2 c).
Qed.

End ListFacts.

Lemma COLUMNS_NoDup : NoDup COLUMNS.
Proof. apply (nodupb_sound String.eqb String.eqb_eq). vm_compute. reflexivity. Qed.

Lemma COLUMN_GROUPS_concat : List.concat (map snd COLUMN_GROUPS) = COLUMNS.
Proof. reflexivity. Qed.

(** C9.  The colour groups partition the projection: the groups' column
    lists, concatenated in group order, are exactly COLUMNS; COLUMNS has no
    repeated name; a name is a column exactly when some group lists it; and
    two groups (which carry distinct names) that list the same column are
    the same group, so that every column lies in exactly one group and the
    groups are pairwise disjoint. *)
Theorem column_groups_partition :
  List.concat (map snd COLUMN_GROUPS) = COLUMNS
  /\ NoDup COLUMNS
  /\ NoDup (map fst COLUMN_GROUPS)
  /\ (forall c, In c COLUMNS <-> exists g, In g COLUMN_GROUPS /\ In c (snd g))
  /\ (forall g1 g2 c,
        In g1 COLUMN_GROUPS -> In g2 COLUMN_GROUPS ->
        In c (snd g1) -> In c (snd g2) -> g1 = g2).
Proof.
  split; [exact COLUMN_GROUPS_concat|].
  split; [exact COLUMNS_NoDup|].
  split.
  { apply (nodupb_sound String.eqb String.eqb_eq). vm_compute. reflexivity. }
  split.
  - intro c. rewrite <- COLUMN_GROUPS_concat. rewrite in_concat. split.
    + intros (l & Hl & Hc). apply in_map_iff in Hl as (g & <- & Hg). now exists g.
    + intros (g & Hg & Hc). exists (snd g). split; [now apply in_map|assumption].
  - apply concat_NoDup_unique with (f := @snd string (list string)).
    rewrite COLUMN_GROUPS_concat. exact COLUMNS_NoDup.
Qed.

(** The partition at the column EV: it is a column, the group light_green
    lists it, and a group listing it is that group. *)
Lemma column_groups_partition_witness :
  In "EV"%string COLUMNS
  /\ forall g, In g COLUMN_GROUPS -> In "EV"%string (snd g) ->
               fst g = "light_green"%string.
Proof.
  destruct column_groups_partition as (_ & _ & _ & Hcov & Huniq).
  split.
  - apply Hcov. exists ("light_green", group_columns "light_green")%string.
    split; vm_compute; tauto.
  - intros g Hg Hc.
    rewrite (Huniq g ("light_green", group_columns "light_green")%string "EV"%string Hg);
      [reflexivity | vm_compute; tauto | exact Hc | vm_compute; tauto].
Defined.

(* ================================================================== *)
(** ** Numeric coercion (models.py, _to_decimal) *)

(** C10.  Strings that are no numbers but special tokens of the Decimal
    constructor pass every suffix test and the magnitude test and come back
    as a non-finite Decimal, not as None: NaN, sNaN, inf and Infinity in
    any case and with a sign. *)
Theorem to_decimal_special_tokens :
  _to_decimal (PStr (u "NaN")) = Ok (Some (NaN false false 0))
  /\ _to_decimal (PStr (u "nan")) = Ok (Some (NaN false false 0))
  /\ _to_decimal (PStr (u "sNaN")) = Ok (Some (NaN false true 0))
  /\ _to_decimal (PStr (u "inf")) = Ok (Some (Inf false))
  /\ _to_decimal (PStr (u "-inf")) = Ok (Some (Inf true))
  /\ _to_decimal (PStr (u "Infinity")) = Ok (Some (Inf false))
  /\ exists s d, _to_decimal (PStr s) = Ok (Some d) /\ is_finite d = false.
Proof.
  do 6 (split; [vm_compute; reflexivity|]).
  exists (u "inf"), (Inf false). split; vm_compute; reflexivity.
Qed.

(** C1 (the code departs from it).  None and the empty string give None,
    and a malformed string without suffix gives None through the except
    clause; but the suffix branches call Decimal() outside the try block, so
    a malformed numeric part before a percent sign, bp, x or a magnitude
    letter raises InvalidOperation, and so does a boolean. *)
Theorem to_decimal_raises_on_malformed_suffix :
  _to_decimal PNone = Ok None
  /\ _to_decimal (PStr []) = Ok None
  /\ _to_decimal (PStr (u "abc")) = Ok None
  /\ _to_decimal (PStr (u "abc%")) = Raise InvalidOperation
  /\ _to_decimal (PStr (u "%")) = Raise InvalidOperation
  /\ _to_decimal (PStr (u "n/a bp")) = Raise InvalidOperation
  /\ _to_decimal (PStr (u "x")) = Raise InvalidOperation
  /\ _to_decimal (PStr (u "NM")) = Raise InvalidOperation
  /\ _to_decimal (PStr (u "N/A")) = Ok None
  /\ _to_decimal (PBool true) = Raise InvalidOperation.
Proof. repeat split; vm_compute; reflexivity. Qed.

(** *** Decimal arithmetic within the precision *)

Lemma digits_fuel_length (f : nat) : forall (n : N) (acc : str) (k : nat),
  (n < 10 ^ N.of_nat k)%N -> (1 <= k)%nat ->
  (List.length (digits_fuel f n acc) <= k + List.length acc)%nat.
Proof.
  induction f as [|f IH]; intros n acc k Hn Hk; simpl.
  - lia.
  - destruct (N.ltb_spec n 10) as [Hlt|Hge]; simpl.
    + lia.
    + destruct k as [|[|k]]; [lia| |].
      * change (10 ^ N.of_nat 1)%N with 10%N in Hn. lia.
      * specialize (IH (n / 10)%N ((48 + n mod 10)%N :: acc) (S k)).
        simpl List.length in IH.
        assert (n / 10 < 10 ^ N.of_nat (S k))%N as Hdiv.
        { apply N.Div0.div_lt_upper_bound.
          replace (N.of_nat (S (S k))) with (N.succ (N.of_nat (S k))) in Hn by lia.
          rewrite N.pow_succ_r' in Hn. exact Hn. }
        specialize (IH Hdiv). lia.
Qed.

Lemma len_int_bound (c : N) : (c < 10 ^ 28)%N -> (len_int c <= 28)%Z.
Proof.
  intro H. unfold len_int, str_of_N.
  assert (1 <= 28)%nat as H1 by lia.
  pose proof (@digits_fuel_length (S (N.to_nat (N.log2 c))) c [] 28 H H1) as L.
  change (List.length (@nil N)) with 0%nat in L. lia.
Qed.

Lemma pow10_nat (j : nat) : pow10 (Z.of_nat j) = (10 ^ N.of_nat j)%N.
Proof. unfold pow10. f_equal. lia. Qed.

Lemma pow10_nonpos (z : Z) : (z <= 0)%Z -> pow10 z = 1%N.
Proof. intro H. unfold pow10. replace (Z.to_N z) with 0%N by lia. reflexivity. Qed.

Lemma pow10_neq0 (z : Z) : pow10 z <> 0%N.
Proof. unfold pow10. apply N.pow_nonzero. discriminate. Qed.

(** Trailing zeros that were put in are taken out again. *)
Lemma strip_zeros_pow (j : nat) : forall (n : nat) (c : N) (x : Z),
  (j <= n)%nat ->
  strip_zeros n (c * 10 ^ N.of_nat j)%N x
  = strip_zeros (n - j) c (x + Z.of_nat j)%Z.
Proof.
  induction j as [|j IH]; intros n c x Hj.
  - simpl. rewrite N.mul_1_r, Z.add_0_r, Nat.sub_0_r. reflexivity.
  - destruct n as [|n]; [lia|].
    replace (N.of_nat (S j)) with (N.succ (N.of_nat j)) by lia.
    rewrite N.pow_succ_r'.
    replace (c * (10 * 10 ^ N.of_nat j))%N with ((c * 10 ^ N.of_nat j) * 10)%N by lia.
    simpl strip_zeros.
    rewrite N.Div0.mod_mul. simpl.
    rewrite N.div_mul by discriminate.
    rewrite IH by lia.
    f_equal. lia.
Qed.

(** The loop keeps the value and stops within its bound. *)
Lemma strip_zeros_inv (n : nat) : forall (c : N) (x : Z) (c' : N) (x' : Z),
  strip_zeros n c x = (c', x') ->
  exists j : nat, (j <= n)%nat /\ x' = (x + Z.of_nat j)%Z
                  /\ c = (c' * 10 ^ N.of_nat j)%N.
Proof.
  induction n as [|n IH]; intros c x c' x' H; simpl in H.
  - injection H as <- <-. exists 0%nat. repeat split; [lia|lia|simpl; lia].
  - destruct (N.eqb_spec (c mod 10) 0) as [Hm|Hm].
    + apply IH in H as (j & Hj & -> & Hc).
      exists (S j). repeat split; [lia|lia|].
      replace (N.of_nat (S j)) with (N.succ (N.of_nat j)) by lia.
      rewrite N.pow_succ_r'.
      pose proof (N.Div0.div_mod c 10) as D. rewrite Hm, N.add_0_r, Hc in D. lia.
    + injection H as <- <-. exists 0%nat. repeat split; [lia|lia|simpl; lia].
Qed.

(** A coefficient within the precision and an exponent within the range
    pass through [_fix] unchanged. *)
Lemma fix_small (s : bool) (c : N) (e : Z) :
  c <> 0%N -> (c < 10 ^ 28)%N -> (Etiny <= e <= Etop)%Z ->
  _fix (Fin s c e) = Ok (Fin s c e).
Proof.
  intros Hc Hlt He. pose proof (len_int_bound Hlt) as HL.
  unfold _fix. destruct (N.eqb_spec c 0) as [|_]; [contradiction|].
  unfold Etiny, Etop, Emin, Emax, prec in *.
  destruct (Z.ltb_spec (999999 - 28 + 1) (len_int c + e - 28)); [lia|].
  destruct (Z.ltb_spec (len_int c + e - 28) (-999999 - 28 + 1)).
  - destruct (Z.ltb_spec e (-999999 - 28 + 1)); [lia|reflexivity].
  - destruct (Z.ltb_spec e (len_int c + e - 28)); [lia|reflexivity].
Qed.

Lemma fix_zero (s : bool) (e : Z) :
  exists e', _fix (Fin s 0 e) = Ok (Fin s 0 e').
Proof. eexists. reflexivity. Qed.

(** Numeric equality of a coefficient with its zeros moved into the
    exponent. *)
Lemma eq_scaled (sg : bool) (c c' : N) (e0 : Z) (j : nat) :
  c = (c' * 10 ^ N.of_nat j)%N ->
  Dec.eq (Fin sg c' (e0 + Z.of_nat j)) (Fin sg c e0) = true.
Proof.
  intros ->. unfold Dec.eq.
  destruct (N.eqb_spec c' 0) as [->|Hc'].
  - reflexivity.
  - assert (10 ^ N.of_nat j <> 0)%N by (apply N.pow_nonzero; discriminate).
    destruct (N.eqb_spec (c' * 10 ^ N.of_nat j) 0) as [E|_]; [lia|].
    rewrite Bool.eqb_reflx. simpl.
    replace (e0 + Z.of_nat j - e0)%Z with (Z.of_nat j) by lia.
    rewrite pow10_nat, pow10_nonpos by lia.
    apply N.eqb_eq. lia.
Qed.

Lemma eq_refl_fin (sg : bool) (c : N) (e : Z) :
  Dec.eq (Fin sg c e) (Fin sg c e) = true.
Proof.
  replace e with (e + Z.of_nat 0)%Z at 1 by lia.
  apply eq_scaled. simpl. lia.
Qed.

Lemma eq_zero (s1 s2 : bool) (e1 e2 : Z) :
  Dec.eq (Fin s1 0 e1) (Fin s2 0 e2) = true.
Proof. reflexivity. Qed.

(** Exact division by a power of ten [10^k]: the result is numerically the
    dividend with its exponent lowered by [k]. *)
Lemma truediv_pow10 (sg : bool) (c : N) (e : Z) (k : nat) (cb : N) :
  cb = (10 ^ N.of_nat k)%N -> len_int cb = (Z.of_nat k + 1)%Z ->
  (c < 10 ^ 28)%N -> (Etiny + Z.of_nat k <= e <= Etop)%Z ->
  exists r, truediv (Fin sg c e) (Fin false cb 0) = Ok r
            /\ Dec.eq r (Fin sg c (e - Z.of_nat k)) = true.
Proof.
  intros Hcb Hlen Hc He.
  assert (cb <> 0)%N as Hcb0 by (subst cb; apply N.pow_nonzero; discriminate).
  unfold truediv. simpl _check_nans. cbv iota.
  rewrite xorb_false_r.
  destruct (N.eqb_spec cb 0) as [|_]; [contradiction|].
  destruct (N.eqb_spec c 0) as [->|Hc0].
  - destruct (fix_zero sg (e - 0)) as (e' & ->). exists (Fin sg 0 e').
    split; reflexivity.
  - pose proof (len_int_bound Hc) as HL.
    assert (0 <= len_int c)%Z as HL0 by (unfold len_int; lia).
    rewrite Hlen.
    set (shift := (Z.of_nat k + 1 - len_int c + prec + 1)%Z).
    assert (Z.of_nat k + 2 <= shift)%Z as Hshift by (unfold shift, prec; lia).
    clearbody shift.
    destruct (Z.leb_spec 0 shift) as [_|]; [|lia].
    assert (pow10 shift = (10 ^ N.of_nat (Z.to_nat shift - k) * cb)%N) as Hpow.
    { unfold pow10. subst cb. rewrite <- N.pow_add_r. f_equal. lia. }
    destruct (N.div_eucl (c * pow10 shift) cb) as [q r0] eqn:Hdiv.
    assert (q = (c * pow10 shift / cb)%N) as Hq by (unfold N.div; now rewrite Hdiv).
    assert (r0 = ((c * pow10 shift) mod cb)%N) as Hr
      by (unfold N.modulo; now rewrite Hdiv).
    rewrite Hpow, N.mul_assoc in Hq, Hr.
    rewrite N.div_mul in Hq by assumption.
    rewrite N.Div0.mod_mul in Hr. subst q r0. simpl negb. cbv iota.
    replace (Z.to_nat (e - 0 - (e - 0 - shift))) with (Z.to_nat shift) by lia.
    rewrite strip_zeros_pow by lia.
    replace (Z.to_nat shift - (Z.to_nat shift - k))%nat with k by lia.
    destruct (strip_zeros k c (e - 0 - shift + Z.of_nat (Z.to_nat shift - k)))
      as [c' e'] eqn:Hsz.
    apply strip_zeros_inv in Hsz as (j & Hj & -> & Hcc).
    assert (10 ^ N.of_nat j <> 0)%N as Hp by (apply N.pow_nonzero; discriminate).
    assert (c' <> 0)%N as Hc'0 by (intros ->; lia).
    assert (c' <= c)%N as Hle by nia.
    rewrite fix_small; [|assumption|lia|unfold Etiny, Etop, Emin, Emax, prec in *; lia].
    eexists. split; [reflexivity|].
    replace (e - 0 - shift + Z.of_nat (Z.to_nat shift - k) + Z.of_nat j)%Z
      with ((e - Z.of_nat k) + Z.of_nat j)%Z by lia.
    now apply eq_scaled.
Qed.

(** Multiplication by a power of ten [1E+k]: the exponent rises by [k]. *)
Lemma mul_pow10 (sg : bool) (c : N) (e k : Z) :
  (c < 10 ^ 28)%N -> (Etiny <= e + k <= Etop)%Z ->
  exists r, mul (Fin sg c e) (Fin false 1 k) = Ok r
            /\ Dec.eq r (Fin sg c (e + k)) = true.
Proof.
  intros Hc He. unfold mul. simpl _check_nans. cbv iota.
  rewrite xorb_false_r, N.mul_1_r.
  destruct (N.eq_dec c 0) as [->|Hc0].
  - destruct (fix_zero sg (e + k)) as (e' & ->). eexists. split; reflexivity.
  - rewrite fix_small by assumption. eexists. split; [reflexivity|].
    apply eq_refl_fin.
Qed.

(** *** String surgery of the suffix dispatch *)

Lemma lstrip_app_nonspace (b : str) (c : N) (t : str) :
  isspace c = false -> lstrip (b ++ c :: t) = lstrip b ++ c :: t.
Proof.
  intro Hc. induction b as [|x b IH]; simpl.
  - now rewrite Hc.
  - destruct (isspace x); [exact IH|reflexivity].
Qed.

Lemma rstrip_snoc (x : str) (c : N) :
  isspace c = false -> rstrip (x ++ [c]) = x ++ [c].
Proof.
  intro Hc. unfold rstrip. rewrite rev_app_distr. simpl. rewrite Hc.
  simpl. now rewrite rev_involutive.
Qed.

Lemma strip_snoc (b : str) (c : N) :
  isspace c = false -> strip (b ++ [c]) = lstrip b ++ [c].
Proof.
  intro Hc. unfold strip. rewrite lstrip_app_nonspace by assumption.
  now apply rstrip_snoc.
Qed.

Lemma strip_snoc2 (b : str) (c d : N) :
  isspace c = false -> isspace d = false ->
  strip (b ++ [c; d]) = lstrip b ++ [c; d].
Proof.
  intros Hc Hd. unfold strip. rewrite lstrip_app_nonspace by assumption.
  change (lstrip b ++ [c; d]) with (lstrip b ++ [c] ++ [d]).
  rewrite app_assoc. now apply rstrip_snoc.
Qed.

Lemma lstrip_idem (b : str) : lstrip (lstrip b) = lstrip b.
Proof.
  induction b as [|x b IH]; simpl; [reflexivity|].
  destruct (isspace x) eqn:E; [exact IH|]. simpl. now rewrite E.
Qed.

Lemma strip_lstrip (b : str) : strip (lstrip b) = strip b.
Proof. unfold strip. now rewrite lstrip_idem. Qed.

Lemma endswith_snoc (x : str) (c d : N) : endswith (x ++ [c]) [d] = N.eqb c d.
Proof.
  unfold endswith. rewrite rev_app_distr. simpl. apply andb_true_r.
Qed.

Lemma endswith_snoc2 (x : str) (a b p q : N) :
  endswith (x ++ [a; b]) [p; q] = N.eqb b q && N.eqb a p.
Proof.
  unfold endswith. change (x ++ [a; b]) with (x ++ [a] ++ [b]).
  rewrite app_assoc, !rev_app_distr. simpl. now rewrite andb_true_r.
Qed.

Lemma endswith_snoc_short (x : str) (c p q : N) :
  N.eqb c q = false -> endswith (x ++ [c]) [p; q] = false.
Proof. intro H. unfold endswith. rewrite rev_app_distr. simpl. now rewrite H. Qed.

Lemma lower_snoc (x : str) (c : N) : lower (x ++ [c]) = lower x ++ [lower1 c].
Proof. unfold lower. now rewrite map_app. Qed.

Lemma drop_last_snoc (x : str) (c : N) : drop_last 1 (x ++ [c]) = x.
Proof.
  unfold drop_last. rewrite length_app. simpl.
  replace (List.length x + 1 - 1)%nat with (List.length x + 0)%nat by lia.
  rewrite firstn_app_2. simpl. apply app_nil_r.
Qed.

Lemma drop_last_snoc2 (x : str) (c d : N) : drop_last 2 (x ++ [c; d]) = x.
Proof.
  unfold drop_last. rewrite length_app. simpl.
  replace (List.length x + 2 - 2)%nat with (List.length x + 0)%nat by lia.
  rewrite firstn_app_2. simpl. apply app_nil_r.
Qed.

Lemma last1_snoc (x : str) (c : N) : last1 (x ++ [c]) = Some c.
Proof. unfold last1. now rewrite rev_app_distr. Qed.

Lemma replace1_snoc (o : N) (x : str) (c : N) :
  N.eqb c o = false -> replace1 o [] (x ++ [c]) = replace1 o [] x ++ [c].
Proof. intro H. unfold replace1. rewrite flat_map_app. simpl. now rewrite H. Qed.

Lemma strip_symbols_snoc (x : str) (c : N) :
  N.eqb c 44 = false -> N.eqb c 36 = false ->
  N.eqb c EURO = false -> N.eqb c POUND = false ->
  strip_symbols (x ++ [c]) = strip_symbols x ++ [c].
Proof.
  intros H1 H2 H3 H4. unfold strip_symbols.
  now rewrite !replace1_snoc by assumption.
Qed.

Lemma to_decimal_snoc (b : str) (c : N) :
  _to_decimal (PStr (b ++ [c])) = _to_decimal_str (b ++ [c]).
Proof. destruct b; reflexivity. Qed.

Lemma to_decimal_snoc2 (b : str) (c d : N) :
  _to_decimal (PStr (b ++ [c; d])) = _to_decimal_str (b ++ [c; d]).
Proof. destruct b; reflexivity. Qed.

(** What each suffix branch computes, for every string with that suffix. *)
Lemma to_decimal_percent (body : str) :
  _to_decimal (PStr (body ++ u "%"))
  = (d <- from_str (strip_commas (strip body)) ;;
     q <- truediv d D100 ;; Ok (Some q))%py.
Proof.
  change (u "%") with [37%N]. rewrite to_decimal_snoc. unfold _to_decimal_str.
  rewrite strip_snoc by reflexivity.
  change (u "%") with [37%N]. rewrite endswith_snoc. simpl N.eqb. cbv iota.
  now rewrite drop_last_snoc, strip_lstrip.
Qed.

Lemma to_decimal_bp (body : str) (b p : N) :
  (b = 98 \/ b = 66)%N -> (p = 112 \/ p = 80)%N ->
  _to_decimal (PStr (body ++ [b; p]))
  = (d <- from_str (strip_commas (strip body)) ;;
     q <- truediv d D10000 ;; Ok (Some q))%py.
Proof.
  intros Hb Hp. rewrite to_decimal_snoc2. unfold _to_decimal_str.
  assert (isspace b = false) as Sb by (destruct Hb; subst; reflexivity).
  assert (isspace p = false) as Sp by (destruct Hp; subst; reflexivity).
  rewrite strip_snoc2 by assumption.
  change (u "%") with [37%N]. change (lstrip body ++ [b; p]) with (lstrip body ++ [b] ++ [p]).
  rewrite app_assoc, endswith_snoc.
  replace (N.eqb p 37) with false by (destruct Hp; subst; reflexivity).
  cbv iota. rewrite <- app_assoc. change ([b] ++ [p]) with [b; p].
  unfold lower. rewrite map_app. simpl map. change (u "bp") with [98; 112]%N.
  rewrite endswith_snoc2.
  replace (N.eqb (lower1 p) 112) with true by (destruct Hp; subst; reflexivity).
  replace (N.eqb (lower1 b) 98) with true by (destruct Hb; subst; reflexivity).
  simpl andb. cbv iota.
  now rewrite drop_last_snoc2, strip_lstrip.
Qed.

Lemma to_decimal_multiple (body : str) (x : N) :
  (x = 120 \/ x = 88)%N ->
  _to_decimal (PStr (body ++ [x]))
  = (d <- from_str (strip_commas (strip body)) ;; Ok (Some d))%py.
Proof.
  intros Hx. rewrite to_decimal_snoc. unfold _to_decimal_str.
  assert (isspace x = false) as Sx by (destruct Hx; subst; reflexivity).
  rewrite strip_snoc by assumption.
  change (u "%") with [37%N]. rewrite endswith_snoc.
  replace (N.eqb x 37) with false by (destruct Hx; subst; reflexivity).
  cbv iota. rewrite lower_snoc. change (u "bp") with [98; 112]%N.
  rewrite endswith_snoc_short by (destruct Hx; subst; reflexivity).
  cbv iota. change (u "x") with [120%N]. rewrite endswith_snoc.
  replace (N.eqb (lower1 x) 120) with true by (destruct Hx; subst; reflexivity).
  cbv iota.
  now rewrite drop_last_snoc, strip_lstrip.
Qed.

Lemma to_decimal_magnitude (body : str) (letter : N) (k : Z) :
  In (letter, k) magnitude_letters ->
  _to_decimal (PStr (body ++ [letter]))
  = (d <- from_str (strip_symbols (lstrip body)) ;;
     p <- mul d (Fin false 1 k) ;; Ok (Some p))%py.
Proof.
  intros Hin. rewrite to_decimal_snoc. unfold _to_decimal_str.
  assert (isspace letter = false /\ N.eqb letter 37 = false
          /\ N.eqb (lower1 letter) 112 = false
          /\ N.eqb (lower1 letter) 120 = false
          /\ N.eqb letter 44 = false /\ N.eqb letter 36 = false
          /\ N.eqb letter EURO = false /\ N.eqb letter POUND = false
          /\ kmb_get (upper1 letter) _KMB = Some (Fin false 1 k))
    as (Sx & H1 & H2 & H3 & H4 & H5 & H6 & H7 & H8).
  { simpl in Hin.
    repeat (destruct Hin as [Hin|Hin];
            [injection Hin as <- <-; repeat split; reflexivity|]).
    contradiction. }
  rewrite strip_snoc by assumption.
  change (u "%") with [37%N]. rewrite endswith_snoc, H1. cbv iota.
  rewrite lower_snoc. change (u "bp") with [98; 112]%N.
  rewrite endswith_snoc_short by assumption. cbv iota.
  change (u "x") with [120%N]. rewrite endswith_snoc, H3. cbv iota.
  rewrite strip_symbols_snoc by assumption.
  rewrite last1_snoc, H8, drop_last_snoc. reflexivity.
Qed.

(** C5 (as amended).  The documented examples hold up to numeric equality:
    1.2M is 1200000, 5% is 0.05, 250bp is 0.025, 2.7x is 2.7.  In general,
    when the numeric part (commas stripped, or commas and currency symbols
    stripped on the magnitude path) is a decimal of at most 28 significant
    digits with an exponent in the working range, a percent sign divides it
    by 100, bp in any case divides it by 10000, x in any case leaves it as
    it is, and K, M or B in any case multiplies it by 1e3, 1e6 or 1e9. *)
Theorem to_decimal_suffix_value :
  (exists r, _to_decimal (PStr (u "1.2M")) = Ok (Some r)
             /\ Dec.eq r (Fin false 1200000 0) = true)
  /\ (exists r, _to_decimal (PStr (u "5%")) = Ok (Some r)
                /\ Dec.eq r (Fin false 5 (-2)) = true)
  /\ (exists r, _to_decimal (PStr (u "250bp")) = Ok (Some r)
                /\ Dec.eq r (Fin false 25 (-3)) = true)
  /\ (exists r, _to_decimal (PStr (u "2.7x")) = Ok (Some r)
                /\ Dec.eq r (Fin false 27 (-1)) = true)
  /\ forall (body : str) (sg : bool) (c : N) (e : Z),
       in_working_range c e ->
       (from_str (strip_commas (strip body)) = Ok (Fin sg c e) ->
          (exists r, _to_decimal (PStr (body ++ u "%")) = Ok (Some r)
                     /\ Dec.eq r (Fin sg c (e - 2)) = true)
          /\ (forall b p, (b = 98 \/ b = 66)%N -> (p = 112 \/ p = 80)%N ->
                exists r, _to_decimal (PStr (body ++ [b; p])) = Ok (Some r)
                          /\ Dec.eq r (Fin sg c (e - 4)) = true)
          /\ (forall x, (x = 120 \/ x = 88)%N ->
                _to_decimal (PStr (body ++ [x])) = Ok (Some (Fin sg c e))))
       /\ (from_str (strip_symbols (lstrip body)) = Ok (Fin sg c e) ->
           forall letter k, In (letter, k) magnitude_letters ->
             exists r, _to_decimal (PStr (body ++ [letter])) = Ok (Some r)
                       /\ Dec.eq r (Fin sg c (e + k)) = true).
Proof.
  do 4 (split; [eexists; split; vm_compute; reflexivity|]).
  intros body sg c e [Hc He]. unfold Emin, Etop, Emax, prec in He.
  split.
  - intros Hnum. split; [|split].
    + rewrite to_decimal_percent, Hnum. unfold D100. simpl bind.
      destruct (@truediv_pow10 sg c e 2 100) as (r & -> & Hr);
        [reflexivity|reflexivity|assumption|
          unfold Etiny, Etop, Emin, Emax, prec; simpl Z.of_nat; lia|].
      exists r. split; [reflexivity|exact Hr].
    + intros b p Hb Hp. rewrite (to_decimal_bp body Hb Hp), Hnum. unfold D10000. simpl bind.
      destruct (@truediv_pow10 sg c e 4 10000) as (r & -> & Hr);
        [reflexivity|reflexivity|assumption|
          unfold Etiny, Etop, Emin, Emax, prec; simpl Z.of_nat; lia|].
      exists r. split; [reflexivity|exact Hr].
    + intros x Hx. rewrite (to_decimal_multiple body Hx), Hnum. reflexivity.
  - intros Hnum letter k Hin.
    rewrite (to_decimal_magnitude body Hin), Hnum. simpl bind.
    assert (k = 3 \/ k = 6 \/ k = 9)%Z as Hk.
    { simpl in Hin.
      repeat (destruct Hin as [Hin|Hin]; [injection Hin as _ <-; lia|]).
      contradiction. }
    destruct (@mul_pow10 sg c e k) as (r & -> & Hr);
      [assumption|unfold Etiny, Etop, Emin, Emax, prec; lia|].
    exists r. split; [reflexivity|exact Hr].
Qed.

(** The general rule at the numeric part 5: in range, parsed as 5, and
    "5%" comes out numerically equal to 0.05. *)
Lemma to_decimal_suffix_value_witness :
  in_working_range 5 0
  /\ from_str (strip_commas (strip (u "5"))) = Ok (Fin false 5 0)
  /\ exists r, _to_decimal (PStr (u "5" ++ u "%")) = Ok (Some r)
               /\ Dec.eq r (Fin false 5 (0 - 2)) = true.
Proof.
  assert (in_working_range 5 0) as Hr by (split; [reflexivity|vm_compute; split; discriminate]).
  assert (from_str (strip_commas (strip (u "5"))) = Ok (Fin false 5 0)) as Hn
    by reflexivity.
  split; [exact Hr|]. split; [exact Hn|].
  exact (proj1 (proj1 (proj2 (proj2 (proj2 (proj2 to_decimal_suffix_value)))
                         (u "5") false 5%N 0%Z Hr) Hn)).
Defined.

(** C5 as stated fails beyond the precision: a numeric part of 29
    significant digits is read exactly, but its division by 100 is rounded
    to 28 digits, and the result is not equal to the numeric part divided by
    100. *)
Lemma to_decimal_percent_beyond_precision :
  from_str (strip_commas (strip (u "10000000000000000000000000001")))
    = Ok (Fin false 10000000000000000000000000001 0)
  /\ _to_decimal (PStr (u "10000000000000000000000000001" ++ u "%"))
    = Ok (Some (Fin false 1000000000000000000000000000 (-1)))
  /\ Dec.eq (Fin false 1000000000000000000000000000 (-1))
            (Fin false 10000000000000000000000000001 (0 - 2)) = false.
Proof. repeat split; vm_compute; reflexivity. Qed.

(* ================================================================== *)
(** ** Date coercion (models.py, _parse_iso_or_quarter) *)

(** *** Whitespace *)

Lemma isspace_range (w : N) :
  isspace w = true ->
  (w <= 32 \/ w = 133 \/ w = 160 \/ w = 5760 \/ 8192 <= w <= 8287 \/ w = 12288)%N.
Proof.
  unfold isspace, between. intro H.
  repeat (apply orb_true_iff in H as [H|H]);
    repeat match type of H with
           | (_ && _ = true) => apply andb_true_iff in H as [? ?]
           end;
    repeat match goal with
           | H : N.leb _ _ = true |- _ => apply N.leb_le in H
           | H : N.eqb _ _ = true |- _ => apply N.eqb_eq in H
           end; lia.
Qed.

Ltac char_class :=
  repeat match goal with
         | |- context [N.leb ?a ?b] => destruct (N.leb_spec a b)
         | |- context [N.eqb ?a ?b] => destruct (N.eqb_spec a b)
         end; simpl; try reflexivity; try discriminate; try lia.

Lemma isspace_cases (w : N) :
  isspace w = true ->
  In w [9; 10; 11; 12; 13; 28; 29; 30; 31; 32; 133; 160; 5760; 8192; 8193;
        8194; 8195; 8196; 8197; 8198; 8199; 8200; 8201; 8202; 8232; 8233;
        8239; 8287; 12288]%N.
Proof.
  unfold isspace, between. intro H. cbn [In].
  repeat (apply orb_true_iff in H as [H|H]);
    repeat match type of H with
           | (_ && _ = true) => apply andb_true_iff in H as [? ?]
           end;
    repeat match goal with
           | H : N.leb _ _ = true |- _ => apply N.leb_le in H
           | H : N.eqb _ _ = true |- _ => apply N.eqb_eq in H
           end; lia.
Qed.

(** Settles a fact about a whitespace character by going through the
    twenty-nine of them. *)
Ltac each_space H :=
  apply isspace_cases in H; cbn [In] in H;
  repeat (destruct H as [<-|H]; [vm_compute; reflexivity|]); destruct H.

Lemma isspace_not_word (w : N) : isspace w = true -> isword w = false.
Proof. intro H. each_space H. Qed.

Lemma ulower_space (w : N) : isspace w = true -> ulower w = w.
Proof.
  intro H. apply isspace_range in H.
  unfold ulower, lower1, isupper, between. char_class.
Qed.

Lemma lower1_letter (c : N) : (65 <= c <= 122)%N -> (91 <= lower1 c <= 122)%N.
Proof. intro H. unfold lower1, isupper, between. char_class. Qed.

Lemma isspace_not_letter (w c : N) :
  isspace w = true -> (65 <= c <= 122)%N -> ieq c w = false.
Proof.
  intros H Hc. unfold ieq. rewrite (ulower_space w H).
  apply isspace_range in H. apply lower1_letter in Hc.
  destruct (N.eqb_spec w (lower1 c)); [lia|].
  destruct (N.eqb_spec w 383); [lia|].
  destruct (N.eqb_spec w 305); [lia|].
  now rewrite !andb_false_r.
Qed.

Lemma lstrip_app (x y : str) :
  lstrip (x ++ y) = match lstrip x with [] => lstrip y | l => l ++ y end.
Proof.
  induction x as [|c x IH]; simpl; [reflexivity|].
  destruct (isspace c); [exact IH|reflexivity].
Qed.

Lemma rstrip_app (a b : str) :
  rstrip (a ++ b) = match rstrip b with [] => rstrip a | r => a ++ r end.
Proof.
  unfold rstrip. rewrite rev_app_distr, lstrip_app.
  destruct (lstrip (rev b)) as [|c l] eqn:E.
  - reflexivity.
  - rewrite rev_app_distr, rev_involutive.
    destruct (rev (c :: l)) eqn:E'; [|reflexivity].
    apply (f_equal (@List.length N)) in E'. rewrite length_rev in E'.
    discriminate.
Qed.

Lemma rstrip_cons (c : N) (s : str) :
  rstrip (c :: s)
  = match rstrip s with
    | [] => if isspace c then [] else [c]
    | r => c :: r
    end.
Proof.
  change (c :: s) with ([c] ++ s). rewrite rstrip_app.
  destruct (rstrip s); [|reflexivity].
  unfold rstrip. simpl. destruct (isspace c); reflexivity.
Qed.

Lemma strip_comm (s : str) : rstrip (lstrip s) = lstrip (rstrip s).
Proof.
  induction s as [|c s IH]; [reflexivity|].
  rewrite rstrip_cons. simpl lstrip at 1.
  destruct (isspace c) eqn:E.
  - rewrite IH. destruct (rstrip s); simpl; [reflexivity|now rewrite E].
  - rewrite rstrip_cons, E. destruct (rstrip s); simpl; now rewrite E.
Qed.

Lemma strip_cons_space (w : N) (x : str) :
  isspace w = true -> strip (w :: x) = strip x.
Proof. intro H. unfold strip. simpl. now rewrite H. Qed.

Lemma rstrip_nil_strip (s : str) : rstrip s = [] -> strip s = [].
Proof. intro H. unfold strip. now rewrite strip_comm, H. Qed.

(** *** The deletion of [as of] *)

Lemma sub5 (n : nat) : (S (S (S (S (S n)))) - n = 5)%nat.
Proof. lia. Qed.

(** A leading [as of] before a non-word character, or at the very end, is
    deleted. *)
Lemma sub_del_as_of_head (prev : option N) (t : str) :
  isword_opt prev = false -> isword_opt (hd_error t) = false ->
  sub_del as_of_re prev (u "as of" ++ t) 0 = sub_del as_of_re (Some 102%N) t 0.
Proof.
  intros Hp Ht. cbn -[Nat.sub]. unfold at_boundary. cbn -[Nat.sub].
  rewrite Hp, Ht. cbn -[Nat.sub]. rewrite sub5. reflexivity.
Qed.

(** Only the word class of the preceding character matters. *)
Lemma sub_del_prev (p1 p2 : option N) (s : str) :
  isword_opt p1 = isword_opt p2 ->
  sub_del as_of_re p1 s 0 = sub_del as_of_re p2 s 0.
Proof.
  intro H. destruct s as [|c s]; [reflexivity|].
  simpl. unfold at_boundary. now rewrite H.
Qed.

(** A whitespace character is kept. *)
Lemma sub_del_space (prev : option N) (w : N) (t : str) :
  isspace w = true ->
  sub_del as_of_re prev (w :: t) 0 = w :: sub_del as_of_re (Some w) t 0.
Proof.
  intro H. simpl.
  rewrite (@isspace_not_letter w 97%N H) by lia.
  destruct (at_boundary prev (w :: t)); reflexivity.
Qed.

Lemma strip_sub_del_lstrip (t : str) : forall w,
  isspace w = true ->
  strip (sub_del as_of_re (Some w) t 0)
  = strip (sub_del as_of_re None (lstrip t) 0).
Proof.
  induction t as [|c t IH]; intros w Hw; [reflexivity|].
  simpl lstrip. destruct (isspace c) eqn:E.
  - rewrite sub_del_space by assumption.
    rewrite strip_cons_space by assumption. now apply IH.
  - f_equal. apply sub_del_prev. simpl. now apply isspace_not_word.
Qed.

(** A leading [as of], in any spelling, before a non-word character or at
    the very end, is deleted. *)
Lemma sub_del_as_of_spelling (p : str) :
  In p as_of_spellings ->
  forall (prev : option N) (t : str),
    isword_opt prev = false -> isword_opt (hd_error t) = false ->
    sub_del as_of_re prev (p ++ t) 0 = sub_del as_of_re (Some 102%N) t 0.
Proof.
  intros Hin prev t Hp Ht. simpl in Hin.
  repeat (destruct Hin as [<-|Hin];
          [cbn -[Nat.sub]; unfold at_boundary; cbn -[Nat.sub];
           rewrite Hp, Ht; cbn -[Nat.sub]; rewrite sub5;
           apply sub_del_prev; reflexivity|]).
  contradiction.
Qed.

Lemma as_of_spelling_facts (p : str) :
  In p as_of_spellings ->
  (forall t, lstrip (p ++ t) = p ++ t)
  /\ rstrip p = p
  /\ (forall t, re_match quarter_re (p ++ t) = None)
  /\ (forall t, _parse_iso_or_quarter (PStr (p ++ t)) = _parse_str (p ++ t))
  /\ re_sub_del as_of_re p = [].
Proof.
  intros Hin. simpl in Hin.
  repeat (destruct Hin as [<-|Hin];
          [repeat split; intros; reflexivity|]).
  contradiction.
Qed.

(** C7 (as amended).  For every string whose stripped form does not begin
    with the quarter notation, putting [as of] and a space in front of it,
    in any letter case, does not change the result of the date coercion
    (the same date, or None in both cases). *)
Theorem as_of_prefix_transparent (p s : str) :
  In p as_of_spellings ->
  re_match quarter_re (strip s) = None ->
  _parse_iso_or_quarter (PStr (p ++ u " " ++ s))
  = _parse_iso_or_quarter (PStr s).
Proof.
  intros Hin Hq.
  destruct (@as_of_spelling_facts p Hin) as (Hl & Hr & Hnq & Hne & Hsub).
  rewrite Hne. change (u " " ++ s) with (32%N :: s).
  assert (strip (p ++ 32%N :: s)
          = match rstrip s with [] => p | _ :: _ => p ++ 32%N :: rstrip s end)
    as Hstrip.
  { unfold strip. rewrite Hl, rstrip_app, rstrip_cons.
    destruct (rstrip s); [exact Hr|reflexivity]. }
  unfold _parse_str at 1. rewrite Hstrip.
  destruct (rstrip s) as [|c r] eqn:E.
  - pose proof (Hnq []) as Hnq0. rewrite app_nil_r in Hnq0.
    rewrite Hnq0, Hsub.
    destruct s as [|c s]; [reflexivity|].
    simpl _parse_iso_or_quarter. unfold _parse_str.
    rewrite (@rstrip_nil_strip _ E). reflexivity.
  - rewrite Hnq. unfold re_sub_del.
    rewrite (@sub_del_as_of_spelling p Hin) by reflexivity.
    rewrite sub_del_space by reflexivity.
    rewrite strip_cons_space by reflexivity.
    rewrite strip_sub_del_lstrip by reflexivity.
    destruct s as [|c0 s]; [discriminate E|].
    simpl _parse_iso_or_quarter. unfold _parse_str.
    assert (strip (c0 :: s) = lstrip (c :: r)) as St
      by (unfold strip; now rewrite strip_comm, E).
    rewrite St in Hq |- *. rewrite Hq. reflexivity.
Qed.

(** The amended rule at a long-form date: [30 June 2023] does not begin
    with the quarter notation, and with [as of] in front it is the same
    date. *)
Lemma as_of_prefix_transparent_witness :
  In (u "as of") as_of_spellings
  /\ re_match quarter_re (strip (u "30 June 2023")) = None
  /\ _parse_iso_or_quarter (PStr (u "as of" ++ u " " ++ u "30 June 2023"))
     = Ok (Some (mkdate 2023 6 30)).
Proof.
  assert (In (u "as of") as_of_spellings) as Hin by (simpl; tauto).
  assert (re_match quarter_re (strip (u "30 June 2023")) = None) as Hq
    by reflexivity.
  split; [exact Hin|]. split; [exact Hq|].
  rewrite (@as_of_prefix_transparent (u "as of") (u "30 June 2023") Hin Hq).
  vm_compute. reflexivity.
Defined.

(** C7 as stated fails on the quarter notation: the quarter is looked for at
    the start of the string before [as of] is removed, so that [Q2 2023]
    alone is 2023-06-30 but with [as of] in front it is None. *)
Lemma as_of_before_quarter_is_unset :
  _parse_iso_or_quarter (PStr (u "Q2 2023")) = Ok (Some (mkdate 2023 6 30))
  /\ _parse_iso_or_quarter (PStr (u "as of " ++ u "Q2 2023")) = Ok None
  /\ _parse_iso_or_quarter (PStr (u "as of " ++ u "Q2 2023"))
     <> _parse_iso_or_quarter (PStr (u "Q2 2023")).
Proof.
  assert (_parse_iso_or_quarter (PStr (u "Q2 2023")) = Ok (Some (mkdate 2023 6 30)))
    as H1 by (vm_compute; reflexivity).
  assert (_parse_iso_or_quarter (PStr (u "as of " ++ u "Q2 2023")) = Ok None)
    as H2 by (vm_compute; reflexivity).
  split; [exact H1|]. split; [exact H2|].
  rewrite H1, H2. discriminate.
Qed.

(** *** Renderings and their digits *)

Lemma in_zrange (lo hi z : Z) :
  (0 <= lo <= z)%Z -> (z <= hi)%Z -> In z (zrange lo hi).
Proof.
  intros H1 H2. unfold zrange. apply in_map_iff. exists (Z.to_nat z).
  split; [lia|]. apply in_seq. lia.
Qed.

Lemma forallb_zrange (f : Z -> bool) (lo hi : Z) :
  forallb f (zrange lo hi) = true ->
  forall z, (0 <= lo <= z)%Z -> (z <= hi)%Z -> f z = true.
Proof.
  intros H z H1 H2. rewrite forallb_forall in H. apply H. now apply in_zrange.
Qed.

Lemma Y4_ok (y : Z) : (0 <= y <= 9999)%Z -> digits_ok 4 Y4 y = true.
Proof.
  intro H. apply (@forallb_zrange (digits_ok 4 Y4) 0 9999); [|lia|lia].
  vm_compute. reflexivity.
Qed.

Lemma D2_ok (n : Z) : (0 <= n <= 99)%Z -> digits_ok 2 D2 n = true.
Proof.
  intro H. apply (@forallb_zrange (digits_ok 2 D2) 0 99); [|lia|lia].
  vm_compute. reflexivity.
Qed.

(** A year is four digit characters that read back as the year. *)
Lemma Y4_digits (y : Z) :
  (0 <= y <= 9999)%Z ->
  exists a b c d, Y4 y = [a; b; c; d]
    /\ isdigit a = true /\ isdigit b = true /\ isdigit c = true
    /\ isdigit d = true /\ Z.of_N (int_of_digits [a; b; c; d]) = y.
Proof.
  intro H. pose proof (Y4_ok H) as Hok. unfold digits_ok in Hok.
  apply andb_true_iff in Hok as [Hok Hv].
  apply andb_true_iff in Hok as [Hl Hd].
  apply Nat.eqb_eq in Hl. apply Z.eqb_eq in Hv.
  destruct (Y4 y) as [|a [|b [|c [|d [|? ?]]]]]; try discriminate Hl.
  simpl in Hd. repeat (apply andb_true_iff in Hd as [? Hd]).
  exists a, b, c, d. repeat split; assumption.
Qed.

Lemma D2_digits (n : Z) :
  (0 <= n <= 99)%Z ->
  exists a b, D2 n = [a; b] /\ isdigit a = true /\ isdigit b = true
              /\ Z.of_N (int_of_digits [a; b]) = n.
Proof.
  intro H. pose proof (D2_ok H) as Hok. unfold digits_ok in Hok.
  apply andb_true_iff in Hok as [Hok Hv].
  apply andb_true_iff in Hok as [Hl Hd].
  apply Nat.eqb_eq in Hl. apply Z.eqb_eq in Hv.
  destruct (D2 n) as [|a [|b [|? ?]]]; try discriminate Hl.
  simpl in Hd. repeat (apply andb_true_iff in Hd as [? Hd]).
  exists a, b. repeat split; assumption.
Qed.

(** *** Digit characters *)

Lemma isdigit_cases (x : N) :
  isdigit x = true ->
  exists z, In z (48%N :: digit_zeros) /\ (z <= x)%N /\ (x <= z + 9)%N.
Proof.
  unfold isdigit, digit_zero.
  destruct (between 48 57 x) eqn:E.
  - intros _. exists 48%N. unfold between in E.
    apply andb_true_iff in E as [H1 H2]. apply N.leb_le in H1, H2.
    split; [now left|lia].
  - destruct (find _ digit_zeros) as [z|] eqn:F; [|discriminate].
    intros _. apply find_some in F as [Hin Hb]. exists z. unfold between in Hb.
    apply andb_true_iff in Hb as [H1 H2]. apply N.leb_le in H1, H2.
    split; [now right|lia].
Qed.

(** Settles a fact about a decimal digit by going through the runs of
    ten. *)
Ltac each_zero H tac :=
  apply isdigit_cases in H;
  let z := fresh "z" in
  let Hin := fresh "Hin" in
  let Hlo := fresh "Hlo" in
  let Hhi := fresh "Hhi" in
  destruct H as (z & Hin & Hlo & Hhi);
  unfold digit_zeros in Hin; cbn [In] in Hin;
  repeat (destruct Hin as [<-|Hin]; [tac|]); destruct Hin.

Lemma isascii_digit (x : N) : (48 <= x <= 57)%N -> isdigit x = true.
Proof.
  intro H. unfold isdigit, digit_zero, between.
  destruct (N.leb_spec 48 x); [|lia]. destruct (N.leb_spec x 57); [|lia].
  reflexivity.
Qed.

Lemma digit_val_ascii (x : N) : (48 <= x <= 57)%N -> digit_val x = (x - 48)%N.
Proof.
  intro H. unfold digit_val, digit_zero, between.
  destruct (N.leb_spec 48 x); [|lia]. destruct (N.leb_spec x 57); [|lia].
  reflexivity.
Qed.

Lemma digit_not_space (x : N) : isdigit x = true -> isspace x = false.
Proof.
  intro H. destruct (isspace x) eqn:E; [|reflexivity].
  apply isspace_cases in E. cbn [In] in E.
  each_zero H ltac:(lia).
Qed.

Lemma digit_outside_letters (x : N) :
  isdigit x = true -> ((48 <= x <= 57)%N \/ (1632 <= x)%N) /\ x <> 8490%N.
Proof. intro H. each_zero H ltac:(lia). Qed.

Lemma ulower_digit (x : N) : isdigit x = true -> ulower x = x.
Proof.
  intro H. apply digit_outside_letters in H.
  unfold ulower, lower1, isupper, between. char_class.
Qed.

Lemma digit_not_letter (x c : N) :
  isdigit x = true -> (65 <= c <= 122)%N -> ieq c x = false.
Proof.
  intros H Hc. unfold ieq. rewrite (ulower_digit x H).
  apply digit_outside_letters in H. apply lower1_letter in Hc.
  destruct (N.eqb_spec x (lower1 c)); [lia|].
  destruct (N.eqb_spec x 383); [lia|].
  destruct (N.eqb_spec x 305); [lia|].
  now rewrite !andb_false_r.
Qed.

(** *** The steps before the formats *)

Lemma parse_cons (c : N) (t : str) :
  _parse_iso_or_quarter (PStr (c :: t)) = _parse_str (c :: t).
Proof. reflexivity. Qed.

Lemma strip_id (s : str) (c c' : N) :
  hd_error s = Some c -> isspace c = false ->
  last1 s = Some c' -> isspace c' = false -> strip s = s.
Proof.
  intros Hh Hc Hl Hc'. unfold strip.
  destruct s as [|x t]; [discriminate|]. injection Hh as ->.
  simpl lstrip. rewrite Hc. unfold rstrip. unfold last1 in Hl.
  destruct (rev (c :: t)) as [|z r] eqn:E; [discriminate|].
  injection Hl as ->. simpl lstrip. rewrite Hc'.
  rewrite <- E. apply rev_involutive.
Qed.

Lemma last1_app (x y : str) :
  last1 (x ++ y) = match last1 y with Some c => Some c | None => last1 x end.
Proof.
  unfold last1. rewrite rev_app_distr.
  destruct (rev y); [now rewrite app_nil_l|reflexivity].
Qed.

Lemma new_date_valid (y m d : Z) :
  valid_date y m d -> new_date y m d = Ok (mkdate y m d).
Proof.
  intros (Hy & Hm & Hd). unfold new_date.
  repeat match goal with
         | |- context [Z.leb ?a ?b] =>
             destruct (Z.leb_spec a b); [|lia]
         end.
  reflexivity.
Qed.

(** The quarter expression does not match a string that does not start with
    the letter. *)
Lemma quarter_needs_letter (c : N) (t : str) :
  ieq 81 c = false -> re_match quarter_re (c :: t) = None.
Proof. intro H. unfold re_match, quarter_re. simpl. now rewrite H. Qed.

Lemma as_of_needs_as (prev : option N) (x : N) (t : str) A
    (k : option N -> str -> caps -> option A) :
  ieq 97 x && match t with y :: _ => ieq 115 y | [] => false end = false ->
  rmatch as_of_re prev (x :: t) [] k = None.
Proof.
  intro H. unfold as_of_re. simpl.
  destruct (at_boundary prev (x :: t)); [|reflexivity].
  destruct (ieq 97 x); [|reflexivity].
  destruct t as [|y t]; [reflexivity|].
  simpl in H. now rewrite H.
Qed.

Lemma sub_del_cons (r : regex) (prev : option N) (c : N) (t : str) :
  sub_del r prev (c :: t) 0
  = match rmatch r prev (c :: t) []
            (fun _ rest _ => Some (List.length (c :: t) - List.length rest)) with
    | Some (S n) => sub_del r (Some c) t n
    | _ => c :: sub_del r (Some c) t 0
    end.
Proof. reflexivity. Qed.

Lemma sub_del_as_free (s : str) :
  as_free s = true -> forall prev, sub_del as_of_re prev s 0 = s.
Proof.
  induction s as [|x t IH]; intros H prev; [reflexivity|].
  simpl in H. apply andb_true_iff in H as [H1 H2].
  apply negb_true_iff in H1.
  rewrite sub_del_cons, as_of_needs_as by assumption.
  now rewrite IH.
Qed.

(** A plain date string goes to the formats unchanged. *)
Lemma parse_plain (s : str) :
  plain_date_string s -> _parse_iso_or_quarter (PStr s) = try_formats s fmts.
Proof.
  intros (c & c' & Hh & Hc & Hq & Hl & Hc' & Hf).
  assert (strip s = s) as St by (now apply strip_id with (c := c) (c' := c')).
  destruct s as [|x t]; [discriminate|]. injection Hh as ->.
  rewrite parse_cons. unfold _parse_str. rewrite St.
  rewrite quarter_needs_letter by assumption.
  unfold re_sub_del. rewrite sub_del_as_free by assumption.
  now rewrite St.
Qed.

(** *** Composition of plain strings *)

Lemma as_free_app (x y : str) :
  as_free x = true -> ends_a x = false -> as_free y = true ->
  as_free (x ++ y) = true.
Proof.
  intros Hx He Hy. induction x as [|c x IH]; [exact Hy|].
  simpl in Hx. apply andb_true_iff in Hx as [H1 H2].
  destruct x as [|c2 x].
  - simpl. unfold ends_a in He. simpl in He. rewrite He, Hy. reflexivity.
  - change ((c :: c2 :: x) ++ y) with (c :: (c2 :: x) ++ y).
    simpl as_free. simpl in H1. rewrite H1. simpl.
    apply IH; [exact H2|].
    unfold ends_a in *. change (c :: c2 :: x) with ([c] ++ c2 :: x) in He.
    rewrite last1_app in He.
    destruct (last1 (c2 :: x)) eqn:E; [exact He|].
    unfold last1 in E. simpl in E. destruct (rev x ++ [c2]) eqn:E'; [|discriminate].
    destruct (rev x); discriminate.
Qed.

Lemma ends_a_app (x y : str) :
  y <> [] -> ends_a (x ++ y) = ends_a y.
Proof.
  intro Hy. unfold ends_a. rewrite last1_app.
  destruct (last1 y) eqn:E; [reflexivity|].
  unfold last1 in E. destruct (rev y) eqn:E'; [|discriminate].
  apply (f_equal (@rev N)) in E'. rewrite rev_involutive in E'. contradiction.
Qed.

(** Digit strings. *)
Lemma digit_string_as_free (x : str) :
  forallb isdigit x = true -> as_free x = true /\ ends_a x = false.
Proof.
  intro H. split.
  - induction x as [|c x IH]; [reflexivity|].
    simpl in H. apply andb_true_iff in H as [Hc Hx].
    simpl. rewrite (@digit_not_letter c 97%N Hc) by lia. simpl. now apply IH.
  - unfold ends_a, last1. destruct (rev x) as [|c r] eqn:E; [reflexivity|].
    rewrite forallb_forall in H. apply digit_not_letter; [|lia].
    apply H. apply in_rev. rewrite E. now left.
Qed.

Lemma digit_string_head (x : str) :
  digit_string x -> exists c, hd_error x = Some c /\ isdigit c = true.
Proof.
  intros [Hn H]. destruct x as [|c x]; [contradiction|].
  simpl in H. apply andb_true_iff in H as [Hc _]. now exists c.
Qed.

Lemma digit_string_last (x : str) :
  digit_string x -> exists c, last1 x = Some c /\ isdigit c = true.
Proof.
  intros [Hn H]. unfold last1. destruct (rev x) as [|c r] eqn:E.
  - apply (f_equal (@rev N)) in E. rewrite rev_involutive in E. contradiction.
  - exists c. split; [reflexivity|]. rewrite forallb_forall in H.
    apply H. apply in_rev. rewrite E. now left.
Qed.

Lemma strip_digits (x : str) : forallb isdigit x = true -> strip x = x.
Proof.
  intro H. destruct x as [|c t] eqn:Ex; [reflexivity|]. rewrite <- Ex in *.
  assert (digit_string x) as D by (split; [subst; discriminate|assumption]).
  destruct (digit_string_head D) as (h & Hh & Hd).
  destruct (digit_string_last D) as (l & Hl & Hd').
  apply strip_id with (c := h) (c' := l); auto using digit_not_space.
Qed.

Lemma Y4_digit_string (y : Z) :
  (0 <= y <= 9999)%Z ->
  digit_string (Y4 y) /\ List.length (Y4 y) = 4%nat
  /\ Z.of_N (int_of_digits (strip (Y4 y))) = y.
Proof.
  intro H. pose proof (Y4_ok H) as Hok. unfold digits_ok in Hok.
  apply andb_true_iff in Hok as [Hok Hv].
  apply andb_true_iff in Hok as [Hl Hd].
  apply Nat.eqb_eq in Hl. apply Z.eqb_eq in Hv.
  repeat split; try assumption.
  - intro E. rewrite E in Hl. discriminate.
  - now rewrite strip_digits.
Qed.

Lemma D2_digit_string (n : Z) :
  (0 <= n <= 99)%Z ->
  digit_string (D2 n) /\ List.length (D2 n) = 2%nat
  /\ Z.of_N (int_of_digits (strip (D2 n))) = n.
Proof.
  intro H. pose proof (D2_ok H) as Hok. unfold digits_ok in Hok.
  apply andb_true_iff in Hok as [Hok Hv].
  apply andb_true_iff in Hok as [Hl Hd].
  apply Nat.eqb_eq in Hl. apply Z.eqb_eq in Hv.
  repeat split; try assumption.
  - intro E. rewrite E in Hl. discriminate.
  - now rewrite strip_digits.
Qed.

(** *** The groups of the formats on their renderings *)

#[local] Arguments Nat.sub : simpl never.

Lemma sub_len (k n : nat) : (k + n - n = k)%nat.
Proof. lia. Qed.

Ltac count_S t n :=
  lazymatch t with
  | S ?t' => count_S t' (S n)
  | _ => n
  end.

(** Settles the length of a captured prefix. *)
Ltac fix_capture :=
  repeat match goal with
         | |- context [firstn (Nat.sub ?a ?b) _] =>
             let ka := count_S a 0%nat in
             let kb := count_S b 0%nat in
             let k := eval compute in (ka - kb)%nat in
             replace (Nat.sub a b) with k by (clear; lia)
         end.

(** Closes a goal about a match that hands over to the continuation [k],
    given what the continuation returns there. *)
Ltac by_continuation Hk :=
  simpl; fix_capture; simpl;
  lazymatch type of Hk with
  | ?L = _ =>
      match goal with
      | |- context [?k ?p ?r ?c] =>
          change (k p r c) with L; rewrite Hk; reflexivity
      end
  end.

(** Four digits are taken by a group of four digits. *)
Lemma rmatch_digits4 (g : string) (x rest : str) (prev : option N) (cs : caps)
    A (k : option N -> str -> caps -> option A) :
  List.length x = 4%nat -> forallb isdigit x = true ->
  rmatch (Group g (Seq digit (Seq digit (Seq digit digit)))) prev (x ++ rest) cs k
  = k (last1 x) rest ((g, x) :: cs).
Proof.
  intros Hl Hd.
  destruct x as [|a [|b [|c [|d [|? ?]]]]]; try discriminate Hl.
  simpl in Hd. repeat (apply andb_true_iff in Hd as [? Hd]).
  unfold digit. simpl. rewrite H, H0, H1, H2. simpl. fix_capture. reflexivity.
Qed.

Lemma rmatch_year (y : Z) (rest : str) (prev : option N) (cs : caps)
    A (k : option N -> str -> caps -> option A) :
  (0 <= y <= 9999)%Z ->
  rmatch re_Y prev (Y4 y ++ rest) cs k
  = k (last1 (Y4 y)) rest (("Y"%string, Y4 y) :: cs).
Proof.
  intro H. destruct (Y4_digit_string H) as ([_ Hd] & Hl & _).
  unfold re_Y. now apply rmatch_digits4.
Qed.

(** A run of whitespace stops before a digit string. *)
Lemma star_k_digits (x rest : str) (prev : option N)
    A (k : option N -> str -> option A) :
  digit_string x -> star_k isspace prev (x ++ rest) k = k prev (x ++ rest).
Proof.
  intros D. destruct (digit_string_head D) as (c & Hh & Hc).
  destruct x as [|c0 x]; [discriminate|]. injection Hh as ->.
  simpl. now rewrite (digit_not_space c Hc).
Qed.

(** The month and day groups take a two-digit month or day. *)
Lemma rmatch_month (m : Z) (rest : str) (prev : option N) (cs : caps)
    A (k : option N -> str -> caps -> option A) (a : A) :
  (1 <= m <= 12)%Z ->
  k (last1 (D2 m)) rest (("m"%string, D2 m) :: cs) = Some a ->
  rmatch re_m prev (D2 m ++ rest) cs k = Some a.
Proof.
  intros Hm Hk.
  assert (In m (zrange 1 12)) as Hin by (apply in_zrange; lia).
  vm_compute in Hin.
  repeat (destruct Hin as [<-|Hin];
          [unfold re_m; by_continuation Hk|]).
  contradiction.
Qed.

Lemma rmatch_day (d : Z) (rest : str) (prev : option N) (cs : caps)
    A (k : option N -> str -> caps -> option A) (a : A) :
  (1 <= d <= 31)%Z ->
  k (last1 (D2 d)) rest (("d"%string, D2 d) :: cs) = Some a ->
  rmatch re_d prev (D2 d ++ rest) cs k = Some a.
Proof.
  intros Hd Hk.
  assert (In d (zrange 1 31)) as Hin by (apply in_zrange; lia).
  vm_compute in Hin.
  repeat (destruct Hin as [<-|Hin];
          [unfold re_d; by_continuation Hk|]).
  contradiction.
Qed.

(** *** Plain strings framed by digits *)

Lemma hd_error_app (x y : str) (c : N) :
  hd_error x = Some c -> hd_error (x ++ y) = Some c.
Proof. destruct x; [discriminate|trivial]. Qed.

Lemma plain_frame (x mid z : str) (c : N) :
  hd_error x = Some c -> isspace c = false -> ieq 81 c = false ->
  as_free x = true -> ends_a x = false ->
  as_free mid = true -> ends_a mid = false ->
  digit_string z ->
  plain_date_string (x ++ mid ++ z).
Proof.
  intros Hh Hs Hq Hx Hex Hm Hem Dz.
  destruct (digit_string_last Dz) as (l & Hl & Hd).
  destruct Dz as [_ Dz]. destruct (digit_string_as_free z Dz) as [Hz _].
  exists c, l. repeat split; auto using digit_not_space.
  - now apply hd_error_app.
  - now rewrite !last1_app, Hl.
  - apply as_free_app; [assumption|assumption|]. now apply as_free_app.
Qed.

Lemma plain_digits (x mid z : str) :
  digit_string x -> as_free mid = true -> ends_a mid = false ->
  digit_string z ->
  plain_date_string (x ++ mid ++ z).
Proof.
  intros Dx Hm Hem Dz.
  destruct (digit_string_head Dx) as (c & Hh & Hc).
  destruct Dx as [_ Dx]. destruct (digit_string_as_free x Dx) as [Hx Hex].
  apply plain_frame with (c := c); auto using digit_not_space.
  apply digit_not_letter; [assumption|lia].
Qed.

(** *** The formats one by one *)

Lemma try_formats_skip (s : str) (f : string) (fs : list string) :
  strptime s f = Raise ValueError ->
  try_formats s (f :: fs) = try_formats s fs.
Proof. intro H. simpl. now rewrite H. Qed.

Lemma try_formats_hit (s : str) (f : string) (fs : list string) (dt : date) :
  strptime s f = Ok dt -> String.eqb f "%Y-%m" = false ->
  try_formats s (f :: fs) = Ok (Some dt).
Proof. intros H Hf. simpl. now rewrite H, Hf. Qed.

Lemma strptime_no_match (s : str) (f : string) (r : regex) :
  pattern false f = Some r -> re_match r s = None ->
  strptime s f = Raise ValueError.
Proof. intros Hp Hm. unfold strptime. now rewrite Hp, Hm. Qed.

Lemma strptime_match (s : str) (f : string) (r : regex) (cs : caps) :
  pattern false f = Some r -> re_match r s = Some ([], cs) ->
  strptime s f = date_of_groups cs.
Proof. intros Hp Hm. unfold strptime. now rewrite Hp, Hm. Qed.

(** The expressions of the six formats. *)
Lemma patterns :
  pattern false "%Y-%m-%d"
    = Some (Seq re_Y (Seq dash (Seq re_m (Seq dash (Seq re_d Eps)))))
  /\ pattern false "%Y-%m" = Some (Seq re_Y (Seq dash (Seq re_m Eps)))
  /\ pattern false "%d/%m/%Y"
    = Some (Seq re_d (Seq slash (Seq re_m (Seq slash (Seq re_Y Eps)))))
  /\ pattern false "%m/%d/%Y"
    = Some (Seq re_m (Seq slash (Seq re_d (Seq slash (Seq re_Y Eps)))))
  /\ pattern false "%B %d, %Y"
    = Some (Seq re_B (Seq spaces (Seq re_d (Seq comma (Seq spaces (Seq re_Y Eps))))))
  /\ pattern false "%d %B %Y"
    = Some (Seq re_d (Seq spaces (Seq re_B (Seq spaces (Seq re_Y Eps))))).
Proof. repeat split; reflexivity. Qed.

Lemma monthrange_le_31 (y m : Z) : (1 <= m <= 12)%Z -> (monthrange y m <= 31)%Z.
Proof.
  intro Hm.
  assert (In m (zrange 1 12)) as Hin by (apply in_zrange; lia).
  vm_compute in Hin. unfold monthrange.
  destruct (isleap y);
    repeat (destruct Hin as [<-|Hin]; [vm_compute; discriminate|]);
    contradiction.
Qed.

(** The date of the groups of a numeric format. *)
Lemma date_of_numeric_groups (y m d : Z) (cs : caps) :
  valid_date y m d ->
  group cs "Y" = Some (Y4 y) -> group cs "m" = Some (D2 m) ->
  group cs "d" = Some (D2 d) -> group cs "B" = None ->
  date_of_groups cs = Ok (mkdate y m d).
Proof.
  intros V HY Hm Hd HB. unfold date_of_groups. rewrite HY, Hm, Hd, HB.
  pose proof V as (Vy & Vm & Vd).
  pose proof (monthrange_le_31 y Vm) as Hd31.
  destruct (@Y4_digit_string y) as (_ & _ & ->); [lia|].
  destruct (@D2_digit_string m) as (_ & _ & ->); [lia|].
  destruct (@D2_digit_string d) as (_ & _ & ->); [lia|].
  now apply new_date_valid.
Qed.

(** Evaluates the closed tests of the conditionals of the goal. *)
Ltac eval_tests :=
  repeat match goal with
         | |- context [if ?t then _ else _] =>
             let v := eval vm_compute in t in
             lazymatch v with
             | true => change t with true
             | false => change t with false
             end; cbv iota
         end.

(** One step of the matcher through sequences and separators; the groups
    stay folded for their lemmas. *)
Ltac match_step :=
  cbn [rmatch app u dash slash comma spaces]; eval_tests.

(** ISO full date. *)
Lemma iso_match (y m d : Z) :
  (0 <= y <= 9999)%Z -> (1 <= m <= 12)%Z -> (1 <= d <= 31)%Z ->
  re_match (Seq re_Y (Seq dash (Seq re_m (Seq dash (Seq re_d Eps))))) (iso y m d)
  = Some ([], [("d", D2 d); ("m", D2 m); ("Y", Y4 y)]%string).
Proof.
  intros Hy Hm Hd. unfold re_match, iso.
  rewrite <- (app_nil_r (D2 d)) at 1.
  match_step. rewrite rmatch_year by assumption. match_step.
  apply rmatch_month; [assumption|]. match_step.
  apply rmatch_day; [assumption|]. reflexivity.
Qed.

Lemma mid_ok (s1 x s2 : str) :
  as_free s1 = true -> ends_a s1 = false -> forallb isdigit x = true ->
  as_free s2 = true -> ends_a s2 = false -> s2 <> [] ->
  as_free (s1 ++ x ++ s2) = true /\ ends_a (s1 ++ x ++ s2) = false.
Proof.
  intros H1 E1 Hx H2 E2 Hn.
  destruct (digit_string_as_free x Hx) as [Fx Ex].
  split.
  - apply as_free_app; [assumption|assumption|]. now apply as_free_app.
  - rewrite app_assoc, ends_a_app; assumption.
Qed.

Lemma parse_iso (y m d : Z) :
  valid_date y m d ->
  _parse_iso_or_quarter (PStr (iso y m d)) = Ok (Some (mkdate y m d)).
Proof.
  intros V. pose proof V as (Vy & Vm & Vd).
  pose proof (monthrange_le_31 y Vm) as Hd31.
  destruct (@Y4_digit_string y) as (DY & _ & _); [lia|].
  destruct (@D2_digit_string m) as ([_ DM] & _ & _); [lia|].
  destruct (@D2_digit_string d) as (DD & _ & _); [lia|].
  rewrite parse_plain.
  - unfold fmts. apply try_formats_hit; [|reflexivity].
    erewrite strptime_match;
      [|exact (proj1 patterns)|apply iso_match; lia].
    now apply date_of_numeric_groups.
  - unfold iso.
    replace (Y4 y ++ u "-" ++ D2 m ++ u "-" ++ D2 d)
      with (Y4 y ++ (u "-" ++ D2 m ++ u "-") ++ D2 d)
      by (now rewrite <- !app_assoc).
    destruct (@mid_ok (u "-") (D2 m) (u "-")) as [F E];
      try reflexivity; try assumption; try discriminate.
    now apply plain_digits.
Qed.

(** ISO year and month: the first format fails for want of a day, the
    second gives the first of the month, which the code moves to the last
    day. *)
Lemma month_then_dash_fails (m : Z) (R : regex) (prev : option N) (cs : caps)
    A (k : option N -> str -> caps -> option A) :
  (1 <= m <= 12)%Z ->
  rmatch re_m prev (D2 m ++ []) cs (fun p s c => rmatch (Seq dash R) p s c k)
  = None.
Proof.
  intros Hm.
  assert (In m (zrange 1 12)) as Hin by (apply in_zrange; lia).
  vm_compute in Hin.
  repeat (destruct Hin as [<-|Hin]; [unfold re_m, dash; simpl; reflexivity|]).
  contradiction.
Qed.

Lemma monthrange_ge_1 (y m : Z) : (1 <= m <= 12)%Z -> (1 <= monthrange y m)%Z.
Proof.
  intro Hm.
  assert (In m (zrange 1 12)) as Hin by (apply in_zrange; lia).
  vm_compute in Hin. unfold monthrange.
  destruct (isleap y);
    repeat (destruct Hin as [<-|Hin]; [vm_compute; discriminate|]);
    contradiction.
Qed.

Lemma date_of_month_groups (y m : Z) (cs : caps) :
  (1 <= y <= 9999)%Z -> (1 <= m <= 12)%Z ->
  group cs "Y" = Some (Y4 y) -> group cs "m" = Some (D2 m) ->
  group cs "d" = None -> group cs "B" = None ->
  date_of_groups cs = Ok (mkdate y m 1).
Proof.
  intros Vy Vm HY Hm Hd HB. unfold date_of_groups. rewrite HY, Hm, Hd, HB.
  pose proof (monthrange_ge_1 y Vm) as Hge.
  destruct (@Y4_digit_string y) as (_ & _ & ->); [lia|].
  destruct (@D2_digit_string m) as (_ & _ & ->); [lia|].
  apply new_date_valid. repeat split; lia.
Qed.

Lemma parse_iso_month (y m : Z) :
  (1 <= y <= 9999)%Z -> (1 <= m <= 12)%Z ->
  _parse_iso_or_quarter (PStr (iso_month y m))
  = Ok (Some (mkdate y m (monthrange y m))).
Proof.
  intros Vy Vm. pose proof (monthrange_ge_1 y Vm) as Hge.
  destruct (@Y4_digit_string y) as (DY & _ & HvY); [lia|].
  destruct (@D2_digit_string m) as (DM & _ & HvM); [lia|].
  rewrite parse_plain.
  - unfold fmts. rewrite try_formats_skip.
    + assert (strptime (iso_month y m) "%Y-%m" = Ok (mkdate y m 1)) as H.
      { assert (re_match (Seq re_Y (Seq dash (Seq re_m Eps))) (iso_month y m)
                = Some ([], [("m", D2 m); ("Y", Y4 y)]%string)) as Hmatch.
        { unfold re_match, iso_month. rewrite <- (app_nil_r (D2 m)) at 1.
          match_step. rewrite rmatch_year by lia. match_step.
          apply rmatch_month; [assumption|]. reflexivity. }
        rewrite (@strptime_match _ _ _ _ (proj1 (proj2 patterns)) Hmatch).
        now apply date_of_month_groups with (y := y) (m := m). }
      simpl try_formats. rewrite H. simpl.
      rewrite new_date_valid by (repeat split; lia). reflexivity.
    + apply strptime_no_match with (1 := proj1 patterns).
      unfold re_match, iso_month. rewrite <- (app_nil_r (D2 m)).
      match_step. rewrite rmatch_year by lia. match_step.
      now apply month_then_dash_fails.
  - unfold iso_month.
    apply plain_digits with (mid := u "-"); try assumption; reflexivity.
Qed.

(** Day, month, year. *)
Lemma year_fails_after_two_digits (x : str) (c : N) (rest : str)
    (prev : option N) (cs : caps) A (k : option N -> str -> caps -> option A) :
  List.length x = 2%nat -> isdigit c = false ->
  rmatch re_Y prev (x ++ c :: rest) cs k = None.
Proof.
  intros Hl Hc. destruct x as [|a [|b [|? ?]]]; try discriminate Hl.
  unfold re_Y, digit. simpl. rewrite Hc.
  destruct (isdigit a), (isdigit b); reflexivity.
Qed.

Lemma dmy_match (y m d : Z) :
  (0 <= y <= 9999)%Z -> (1 <= m <= 12)%Z -> (1 <= d <= 31)%Z ->
  re_match (Seq re_d (Seq slash (Seq re_m (Seq slash (Seq re_Y Eps))))) (dmy y m d)
  = Some ([], [("Y", Y4 y); ("m", D2 m); ("d", D2 d)]%string).
Proof.
  intros Hy Hm Hd. unfold re_match, dmy.
  rewrite <- (app_nil_r (Y4 y)) at 1.
  match_step. apply rmatch_day; [assumption|]. match_step.
  apply rmatch_month; [assumption|]. match_step.
  rewrite rmatch_year by assumption. reflexivity.
Qed.

Lemma slashed_is_plain (a b : Z) (y : Z) :
  (0 <= a <= 99)%Z -> (0 <= b <= 99)%Z -> (0 <= y <= 9999)%Z ->
  plain_date_string (D2 a ++ u "/" ++ D2 b ++ u "/" ++ Y4 y).
Proof.
  intros Ha Hb Hy.
  destruct (@Y4_digit_string y) as (DY & _ & _); [lia|].
  destruct (@D2_digit_string a) as (DA & _ & _); [lia|].
  destruct (@D2_digit_string b) as ([_ DB] & _ & _); [lia|].
  replace (D2 a ++ u "/" ++ D2 b ++ u "/" ++ Y4 y)
    with (D2 a ++ (u "/" ++ D2 b ++ u "/") ++ Y4 y)
    by (now rewrite <- !app_assoc).
  destruct (@mid_ok (u "/") (D2 b) (u "/")) as [F E];
    try reflexivity; try assumption; try discriminate.
  now apply plain_digits.
Qed.

Lemma slashed_not_iso (a : Z) (rest : str) (f : string) (R : regex) :
  (0 <= a <= 99)%Z -> pattern false f = Some (Seq re_Y R) ->
  strptime (D2 a ++ u "/" ++ rest) f = Raise ValueError.
Proof.
  intros Ha Hp. destruct (@D2_digit_string a) as (_ & Hl & _); [lia|].
  apply strptime_no_match with (1 := Hp). unfold re_match.
  cbn [rmatch app u]. now apply year_fails_after_two_digits.
Qed.

Lemma parse_dmy (y m d : Z) :
  valid_date y m d ->
  _parse_iso_or_quarter (PStr (dmy y m d)) = Ok (Some (mkdate y m d)).
Proof.
  intros V. pose proof V as (Vy & Vm & Vd).
  pose proof (monthrange_le_31 y Vm) as Hd31.
  rewrite parse_plain by (apply slashed_is_plain; lia).
  unfold fmts, dmy.
  rewrite try_formats_skip
    by (apply slashed_not_iso with (2 := proj1 patterns); lia).
  rewrite try_formats_skip
    by (apply slashed_not_iso with (2 := proj1 (proj2 patterns)); lia).
  apply try_formats_hit; [|reflexivity].
  erewrite strptime_match;
    [|exact (proj1 (proj2 (proj2 patterns)))|apply dmy_match; lia].
  now apply date_of_numeric_groups.
Qed.

(** Month, day, year: read as day, month, year when the second number can
    be a month, and as month, day, year otherwise. *)
Lemma month_slot_rejects_day (d : Z) (R : regex) (rest : str)
    (prev : option N) (cs : caps) A (k : option N -> str -> caps -> option A) :
  (13 <= d <= 31)%Z ->
  rmatch re_m prev (D2 d ++ rest) cs (fun p s c => rmatch (Seq slash R) p s c k)
  = None.
Proof.
  intros Hd.
  assert (In d (zrange 13 31)) as Hin by (apply in_zrange; lia).
  vm_compute in Hin.
  repeat (destruct Hin as [<-|Hin]; [unfold re_m, slash; simpl; reflexivity|]).
  contradiction.
Qed.

Lemma day_slot_then (m : Z) (X : str) (prev : option N) (cs : caps)
    A (K : option N -> str -> caps -> option A) :
  (1 <= m <= 12)%Z ->
  (forall cs', K (Some 47%N) X cs' = None) ->
  rmatch re_d prev (D2 m ++ u "/" ++ X) cs (fun p s c => rmatch slash p s c K)
  = None.
Proof.
  intros Hm HK.
  assert (In m (zrange 1 12)) as Hin by (apply in_zrange; lia).
  vm_compute in Hin.
  repeat (destruct Hin as [<-|Hin];
          [unfold re_d, slash; simpl; rewrite HK; reflexivity|]).
  contradiction.
Qed.

Lemma mdy_not_dmy (y m d : Z) :
  (1 <= m <= 12)%Z -> (13 <= d <= 31)%Z ->
  strptime (mdy y m d) "%d/%m/%Y" = Raise ValueError.
Proof.
  intros Hm Hd.
  apply strptime_no_match with (1 := proj1 (proj2 (proj2 patterns))).
  unfold re_match, mdy. cbn [rmatch].
  apply day_slot_then; [assumption|]. intro cs'.
  now apply month_slot_rejects_day.
Qed.

Lemma mdy_match (y m d : Z) :
  (0 <= y <= 9999)%Z -> (1 <= m <= 12)%Z -> (1 <= d <= 31)%Z ->
  re_match (Seq re_m (Seq slash (Seq re_d (Seq slash (Seq re_Y Eps))))) (mdy y m d)
  = Some ([], [("Y", Y4 y); ("d", D2 d); ("m", D2 m)]%string).
Proof.
  intros Hy Hm Hd. unfold re_match, mdy.
  rewrite <- (app_nil_r (Y4 y)) at 1.
  match_step. apply rmatch_month; [assumption|]. match_step.
  apply rmatch_day; [assumption|]. match_step.
  rewrite rmatch_year by assumption. reflexivity.
Qed.

Lemma parse_mdy (y m d : Z) :
  valid_date y m d -> (12 < d)%Z ->
  _parse_iso_or_quarter (PStr (mdy y m d)) = Ok (Some (mkdate y m d)).
Proof.
  intros V Hd. pose proof V as (Vy & Vm & Vd).
  pose proof (monthrange_le_31 y Vm) as Hd31.
  rewrite parse_plain by (apply slashed_is_plain; lia).
  unfold fmts.
  rewrite try_formats_skip
    by (apply slashed_not_iso with (2 := proj1 patterns); lia).
  rewrite try_formats_skip
    by (apply slashed_not_iso with (2 := proj1 (proj2 patterns)); lia).
  rewrite try_formats_skip by (apply mdy_not_dmy; lia).
  apply try_formats_hit; [|reflexivity].
  rewrite (@strptime_match _ _ _ _ (proj1 (proj2 (proj2 (proj2 patterns))))
             (@mdy_match y m d ltac:(lia) Vm ltac:(lia))).
  now apply date_of_numeric_groups.
Qed.

Lemma parse_mdy_as_dmy (y m d : Z) :
  valid_date y d m ->
  _parse_iso_or_quarter (PStr (mdy y m d)) = Ok (Some (mkdate y d m)).
Proof. intro V. exact (parse_dmy V). Qed.

(** *** Month names and unpadded days *)

Ltac each_of Hin tac :=
  vm_compute in Hin;
  repeat (destruct Hin as [<-|Hin]; [tac|]);
  contradiction.

Lemma D1_digit_string (d : Z) :
  (1 <= d <= 31)%Z ->
  digit_string (D1 d) /\ Z.of_N (int_of_digits (strip (D1 d))) = d
  /\ Z.of_N (int_of_digits (D1 d)) = d.
Proof.
  intro H. assert (In d (zrange 1 31)) as Hin by (apply in_zrange; lia).
  each_of Hin ltac:(split; [split; [discriminate|reflexivity]|split; reflexivity]).
Qed.

Lemma month_name_facts (m : Z) :
  (1 <= m <= 12)%Z ->
  (exists c, hd_error (month_name m) = Some c /\ isspace c = false
             /\ ieq 81 c = false)
  /\ as_free (month_name m) = true /\ ends_a (month_name m) = false
  /\ month_of_name (month_name m) = Some m.
Proof.
  intro H. assert (In m (zrange 1 12)) as Hin by (apply in_zrange; lia).
  each_of Hin ltac:(split; [eexists; repeat split; reflexivity
                           |repeat split; reflexivity]).
Qed.

(** No numeric group accepts a month name. *)
Lemma name_rejected (m : Z) (rest : str) (prev : option N) (cs : caps)
    A (k : option N -> str -> caps -> option A) :
  (1 <= m <= 12)%Z ->
  rmatch re_Y prev (month_name m ++ rest) cs k = None
  /\ rmatch re_d prev (month_name m ++ rest) cs k = None
  /\ rmatch re_m prev (month_name m ++ rest) cs k = None.
Proof.
  intro H. assert (In m (zrange 1 12)) as Hin by (apply in_zrange; lia).
  each_of Hin ltac:(split; [|split]; simpl; reflexivity).
Qed.

Lemma rmatch_name (m : Z) (rest : str) (prev : option N) (cs : caps)
    A (k : option N -> str -> caps -> option A) (a : A) :
  (1 <= m <= 12)%Z ->
  k (last1 (month_name m)) rest (("B"%string, month_name m) :: cs) = Some a ->
  rmatch re_B prev (month_name m ++ rest) cs k = Some a.
Proof.
  intros Hm Hk.
  assert (In m (zrange 1 12)) as Hin by (apply in_zrange; lia).
  each_of Hin ltac:(unfold re_B; by_continuation Hk).
Qed.

Lemma star_k_name (m : Z) (rest : str) (prev : option N)
    A (k : option N -> str -> option A) :
  (1 <= m <= 12)%Z ->
  star_k isspace prev (month_name m ++ rest) k = k prev (month_name m ++ rest).
Proof.
  intro H. assert (In m (zrange 1 12)) as Hin by (apply in_zrange; lia).
  each_of Hin ltac:(reflexivity).
Qed.

(** The day group takes an unpadded day that a comma or a space follows. *)
Lemma rmatch_day1 (d : Z) (c : N) (rest : str) (prev : option N) (cs : caps)
    A (k : option N -> str -> caps -> option A) (a : A) :
  (1 <= d <= 31)%Z -> In c [44%N; 32%N] ->
  k (last1 (D1 d)) (c :: rest) (("d"%string, D1 d) :: cs) = Some a ->
  rmatch re_d prev (D1 d ++ c :: rest) cs k = Some a.
Proof.
  intros Hd Hc Hk.
  assert (In d (zrange 1 31)) as Hin by (apply in_zrange; lia).
  simpl in Hc. destruct Hc as [<-|[<-|[]]];
    each_of Hin ltac:(unfold re_d; by_continuation Hk).
Qed.

(** An unpadded day before a space is the start of no other format. *)
Lemma day1_rejected (d : Z) (R : regex) (rest : str) (prev : option N)
    (cs : caps) A (k : option N -> str -> caps -> option A) :
  (1 <= d <= 31)%Z ->
  rmatch re_Y prev (D1 d ++ 32%N :: rest) cs k = None
  /\ rmatch re_B prev (D1 d ++ 32%N :: rest) cs k = None
  /\ rmatch re_d prev (D1 d ++ 32%N :: rest) cs
       (fun p s c => rmatch (Seq slash R) p s c k) = None
  /\ rmatch re_m prev (D1 d ++ 32%N :: rest) cs
       (fun p s c => rmatch (Seq slash R) p s c k) = None.
Proof.
  intro H. assert (In d (zrange 1 31)) as Hin by (apply in_zrange; lia).
  each_of Hin ltac:(split; [|split; [|split]]; simpl; reflexivity).
Qed.

Lemma date_of_named_groups (y m d : Z) (cs : caps) :
  valid_date y m d ->
  group cs "Y" = Some (Y4 y) -> group cs "d" = Some (D1 d) ->
  group cs "B" = Some (month_name m) ->
  date_of_groups cs = Ok (mkdate y m d).
Proof.
  intros V HY Hd HB. unfold date_of_groups. rewrite HY, Hd, HB.
  pose proof V as (Vy & Vm & Vd).
  pose proof (monthrange_le_31 y Vm) as Hd31.
  destruct (month_name_facts Vm) as (_ & _ & _ & ->).
  destruct (@Y4_digit_string y) as (_ & _ & ->); [lia|].
  destruct (@D1_digit_string d) as (_ & -> & _); [lia|].
  now apply new_date_valid.
Qed.

Lemma rmatch_Seq (r1 r2 : regex) (prev : option N) (s : str) (cs : caps)
    A (k : option N -> str -> caps -> option A) :
  rmatch (Seq r1 r2) prev s cs k
  = rmatch r1 prev s cs (fun p s' c => rmatch r2 p s' c k).
Proof. reflexivity. Qed.

(** Long form, month first. *)
Lemma long_mdy_match (y m d : Z) :
  (0 <= y <= 9999)%Z -> (1 <= m <= 12)%Z -> (1 <= d <= 31)%Z ->
  re_match (Seq re_B (Seq spaces (Seq re_d (Seq comma (Seq spaces (Seq re_Y Eps))))))
           (long_mdy y m d)
  = Some ([], [("Y", Y4 y); ("d", D1 d); ("B", month_name m)]%string).
Proof.
  intros Hy Hm Hd. unfold re_match, long_mdy.
  destruct (@Y4_digit_string y) as (DY & _ & _); [lia|].
  destruct (@D1_digit_string d) as (DD & _ & _); [lia|].
  rewrite <- (app_nil_r (Y4 y)) at 1.
  change (u " ") with [32%N]. change (u ", ") with [44%N; 32%N].
  match_step. apply rmatch_name; [assumption|]. match_step.
  rewrite star_k_digits by assumption.
  apply rmatch_day1; [assumption|now left|]. match_step.
  rewrite star_k_digits by assumption.
  rewrite rmatch_year by assumption. reflexivity.
Qed.

Lemma long_mdy_plain (y m d : Z) :
  (0 <= y <= 9999)%Z -> (1 <= m <= 12)%Z -> (1 <= d <= 31)%Z ->
  plain_date_string (long_mdy y m d).
Proof.
  intros Hy Hm Hd. unfold long_mdy.
  destruct (@Y4_digit_string y) as (DY & _ & _); [lia|].
  destruct (@D1_digit_string d) as ([_ DD] & _ & _); [lia|].
  destruct (month_name_facts Hm) as ((c & Hh & Hs & Hq) & Fn & En & _).
  replace (month_name m ++ u " " ++ D1 d ++ u ", " ++ Y4 y)
    with (month_name m ++ (u " " ++ D1 d ++ u ", ") ++ Y4 y)
    by (now rewrite <- !app_assoc).
  destruct (@mid_ok (u " ") (D1 d) (u ", ")) as [F E];
    try reflexivity; try assumption; try discriminate.
  now apply plain_frame with (c := c).
Qed.

Lemma parse_long_mdy (y m d : Z) :
  valid_date y m d ->
  _parse_iso_or_quarter (PStr (long_mdy y m d)) = Ok (Some (mkdate y m d)).
Proof.
  intros V. pose proof V as (Vy & Vm & Vd).
  pose proof (monthrange_le_31 y Vm) as Hd31.
  rewrite parse_plain by (apply long_mdy_plain; lia).
  unfold fmts.
  rewrite try_formats_skip
    by (apply strptime_no_match with (1 := proj1 patterns);
        unfold re_match, long_mdy; cbn [rmatch]; now apply name_rejected).
  rewrite try_formats_skip
    by (apply strptime_no_match with (1 := proj1 (proj2 patterns));
        unfold re_match, long_mdy; cbn [rmatch]; now apply name_rejected).
  rewrite try_formats_skip
    by (apply strptime_no_match with (1 := proj1 (proj2 (proj2 patterns)));
        unfold re_match, long_mdy; cbn [rmatch]; now apply name_rejected).
  rewrite try_formats_skip
    by (apply strptime_no_match with (1 := proj1 (proj2 (proj2 (proj2 patterns))));
        unfold re_match, long_mdy; cbn [rmatch]; now apply name_rejected).
  apply try_formats_hit; [|reflexivity].
  rewrite (@strptime_match _ _ _ _
             (proj1 (proj2 (proj2 (proj2 (proj2 patterns)))))
             (@long_mdy_match y m d ltac:(lia) Vm ltac:(lia))).
  now apply date_of_named_groups.
Qed.

(** Long form, day first. *)
Lemma long_dmy_match (y m d : Z) :
  (0 <= y <= 9999)%Z -> (1 <= m <= 12)%Z -> (1 <= d <= 31)%Z ->
  re_match (Seq re_d (Seq spaces (Seq re_B (Seq spaces (Seq re_Y Eps)))))
           (long_dmy y m d)
  = Some ([], [("Y", Y4 y); ("B", month_name m); ("d", D1 d)]%string).
Proof.
  intros Hy Hm Hd. unfold re_match, long_dmy.
  destruct (@Y4_digit_string y) as (DY & _ & _); [lia|].
  rewrite <- (app_nil_r (Y4 y)) at 1.
  change (u " ") with [32%N].
  match_step. apply rmatch_day1; [assumption|now right; left|]. match_step.
  rewrite star_k_name by assumption.
  apply rmatch_name; [assumption|]. match_step.
  rewrite star_k_digits by assumption.
  rewrite rmatch_year by assumption. reflexivity.
Qed.

Lemma long_dmy_plain (y m d : Z) :
  (0 <= y <= 9999)%Z -> (1 <= m <= 12)%Z -> (1 <= d <= 31)%Z ->
  plain_date_string (long_dmy y m d).
Proof.
  intros Hy Hm Hd. unfold long_dmy.
  destruct (@Y4_digit_string y) as (DY & _ & _); [lia|].
  destruct (@D1_digit_string d) as (DD & _ & _); [lia|].
  destruct (month_name_facts Hm) as (_ & Fn & En & _).
  replace (D1 d ++ u " " ++ month_name m ++ u " " ++ Y4 y)
    with (D1 d ++ (u " " ++ month_name m ++ u " ") ++ Y4 y)
    by (now rewrite <- !app_assoc).
  apply plain_digits; try assumption.
  - apply as_free_app; [reflexivity|reflexivity|].
    now apply as_free_app.
  - rewrite app_assoc. now rewrite ends_a_app.
Qed.

Lemma parse_long_dmy (y m d : Z) :
  valid_date y m d ->
  _parse_iso_or_quarter (PStr (long_dmy y m d)) = Ok (Some (mkdate y m d)).
Proof.
  intros V. pose proof V as (Vy & Vm & Vd).
  pose proof (monthrange_le_31 y Vm) as Hd31.
  assert (1 <= d <= 31)%Z as Hd by lia.
  rewrite parse_plain by (apply long_dmy_plain; lia).
  unfold fmts.
  rewrite try_formats_skip
    by (apply strptime_no_match with (1 := proj1 patterns);
        unfold re_match, long_dmy; change (u " ") with [32%N];
        cbn [rmatch app]; now apply day1_rejected with (R := Eps)).
  rewrite try_formats_skip
    by (apply strptime_no_match with (1 := proj1 (proj2 patterns));
        unfold re_match, long_dmy; change (u " ") with [32%N];
        cbn [rmatch app]; now apply day1_rejected with (R := Eps)).
  rewrite try_formats_skip
    by (apply strptime_no_match with (1 := proj1 (proj2 (proj2 patterns)));
        unfold re_match, long_dmy; change (u " ") with [32%N];
        cbn [app]; rewrite rmatch_Seq;
        exact (proj1 (proj2 (proj2 (@day1_rejected d _ _ _ _ _ _ Hd))))).
  rewrite try_formats_skip
    by (apply strptime_no_match with (1 := proj1 (proj2 (proj2 (proj2 patterns))));
        unfold re_match, long_dmy; change (u " ") with [32%N];
        cbn [app]; rewrite rmatch_Seq;
        exact (proj2 (proj2 (proj2 (@day1_rejected d _ _ _ _ _ _ Hd))))).
  rewrite try_formats_skip
    by (apply strptime_no_match
          with (1 := proj1 (proj2 (proj2 (proj2 (proj2 patterns)))));
        unfold re_match, long_dmy; change (u " ") with [32%N];
        cbn [rmatch app]; now apply day1_rejected with (R := Eps)).
  apply try_formats_hit; [|reflexivity].
  rewrite (@strptime_match _ _ _ _
             (proj2 (proj2 (proj2 (proj2 (proj2 patterns)))))
             (@long_dmy_match y m d ltac:(lia) Vm Hd)).
  apply date_of_named_groups with (y := y) (m := m) (d := d);
    [assumption|reflexivity|reflexivity|reflexivity].
Qed.

(** The quarter notation. *)
Lemma quarter_prefix (letter : N) (q : Z) (R : regex) (x rest : str)
    A (k : option N -> str -> caps -> option A) :
  In letter [81%N; 113%N] -> (1 <= q <= 4)%Z -> digit_string x ->
  rmatch (Seq (ilit "Q") (Seq (Group "1" (range "1" "4")) (Seq (Plus isspace) R)))
         None (letter :: D1 q ++ u " " ++ x ++ rest) [] k
  = rmatch R (Some 32%N) (x ++ rest) [("1"%string, D1 q)] k.
Proof.
  intros Hl Hq Dx.
  assert (In q (zrange 1 4)) as Hin by (apply in_zrange; lia).
  simpl in Hl. destruct Hl as [<-|[<-|[]]];
    each_of Hin ltac:(simpl; fix_capture; simpl;
                      rewrite star_k_digits by assumption; reflexivity).
Qed.

Lemma quarter_match (letter : N) (q y : Z) :
  In letter [81%N; 113%N] -> (1 <= q <= 4)%Z -> (0 <= y <= 9999)%Z ->
  re_match quarter_re (quarter letter q y)
  = Some ([], [("2", Y4 y); ("1", D1 q)]%string).
Proof.
  intros Hl Hq Hy. destruct (Y4_digit_string Hy) as (DY & Hlen & _).
  unfold re_match, quarter, quarter_re.
  rewrite <- (app_nil_r (Y4 y)) at 1.
  rewrite quarter_prefix by assumption.
  destruct DY as [_ DY]. now rewrite rmatch_digits4.
Qed.

Lemma parse_quarter (letter : N) (q y : Z) :
  In letter [81%N; 113%N] -> (1 <= q <= 4)%Z -> (1 <= y <= 9999)%Z ->
  _parse_iso_or_quarter (PStr (quarter letter q y))
  = Ok (Some (mkdate y (3 * q)
                (if Z.eqb q 1 || Z.eqb q 4 then 31 else 30)%Z)).
Proof.
  intros Hl Hq Hy.
  destruct (@Y4_digit_string y) as (DY & _ & _); [lia|].
  destruct (digit_string_last DY) as (l & Hlast & Hdl).
  pose proof (Y4_ok (y := y) ltac:(lia)) as Hok. unfold digits_ok in Hok.
  apply andb_true_iff in Hok as [_ Hv]. apply Z.eqb_eq in Hv.
  assert (strip (quarter letter q y) = quarter letter q y) as St.
  { apply strip_id with (c := letter) (c' := l).
    - reflexivity.
    - simpl in Hl. destruct Hl as [<-|[<-|[]]]; reflexivity.
    - unfold quarter. change (letter :: D1 q ++ u " " ++ Y4 y)
        with ([letter] ++ D1 q ++ u " " ++ Y4 y).
      now rewrite !last1_app, Hlast.
    - now apply digit_not_space. }
  unfold quarter at 1. rewrite parse_cons. fold (quarter letter q y).
  unfold _parse_str. rewrite St, quarter_match by (assumption || lia).
  cbn [group String.eqb Ascii.eqb Bool.eqb andb]. rewrite Hv.
  assert (In q (zrange 1 4)) as Hin by (apply in_zrange; lia).
  each_of Hin ltac:(unfold quarter_date; cbn [quarter_month int_of_digits bind];
                    simpl; rewrite new_date_valid;
                    [reflexivity
                    |repeat split; try lia; vm_compute; discriminate]).
Qed.

(** *** No exception on the path through the formats *)

Lemma new_date_raises (y m d : Z) (e : exn) :
  new_date y m d = Raise e -> e = ValueError.
Proof.
  unfold new_date. destruct (_ && _); [discriminate|]. now intros [= <-].
Qed.

Lemma strptime_raises (s : str) (f : string) (e : exn) :
  strptime s f = Raise e -> e = ValueError.
Proof.
  unfold strptime, date_of_groups.
  destruct (pattern false f); [|now intros [= <-]].
  destruct (re_match r s) as [[[|? ?] cs]|]; try (now intros [= <-]).
  destruct (group cs "B").
  - destruct (month_of_name s0); [apply new_date_raises|now intros [= <-]].
  - apply new_date_raises.
Qed.

Lemma try_formats_total (s : str) (fs : list string) :
  exists o, try_formats s fs = Ok o.
Proof.
  induction fs as [|f fs IH]; [now exists None|].
  simpl. destruct (strptime s f) as [dt|e] eqn:E; simpl.
  - destruct (String.eqb f "%Y-%m").
    + destruct (new_date _ _ _) as [d|e] eqn:E'; [now eexists|].
      apply new_date_raises in E'. subst e. exact IH.
    + now eexists.
  - apply strptime_raises in E. subst e. exact IH.
Qed.

Lemma try_formats_none (s : str) (fs : list string) :
  (forall f, In f fs -> strptime s f = Raise ValueError) ->
  try_formats s fs = Ok None.
Proof.
  induction fs as [|f fs IH]; intro H; [reflexivity|].
  rewrite try_formats_skip by (apply H; now left).
  apply IH. intros g Hg. apply H. now right.
Qed.

Lemma parse_without_quarter (s : str) :
  re_match quarter_re (strip s) = None ->
  _parse_iso_or_quarter (PStr s)
  = match s with
    | [] => Ok None
    | _ :: _ => try_formats (strip (re_sub_del as_of_re (strip s))) fmts
    end.
Proof.
  intro H. destruct s as [|c t]; [reflexivity|].
  rewrite parse_cons. unfold _parse_str. now rewrite H.
Qed.

(* ================================================================== *)
(** ** The search finds only what the expression accepts *)

Lemma last_or_app (prev : option N) (s1 s2 : str) :
  last_or prev (s1 ++ s2) = last_or (last_or prev s1) s2.
Proof.
  unfold last_or. rewrite last1_app. now destruct (last1 s2), (last1 s1).
Qed.

Lemma last_or_cons (prev : option N) (c : N) (s : str) :
  last_or prev (c :: s) = last_or (Some c) s.
Proof.
  change (c :: s) with ([c] ++ s). now rewrite last_or_app.
Qed.

Lemma star_k_sound (A : Type) (p : N -> bool) (s : str) (prev : option N)
    (k : option N -> str -> option A) (a : A) :
  star_k p prev s k = Some a ->
  exists ws s', s = (ws ++ s')%list /\ forallb p ws = true
                /\ k (last_or prev ws) s' = Some a.
Proof.
  revert prev. induction s as [|c s IH]; intros prev; cbn [star_k].
  - intro H. now exists [], [].
  - destruct (p c) eqn:Hc.
    + destruct (star_k p (Some c) s k) as [a'|] eqn:E.
      * intros [= <-]. destruct (IH _ E) as (ws & s' & -> & Hp & H).
        exists (c :: ws), s'. rewrite last_or_cons. cbn [forallb].
        now rewrite Hc.
      * intro H. now exists [], (c :: s).
    + intro H. now exists [], (c :: s).
Qed.

Lemma rmatch_sound (r : regex) :
  forall (A : Type) (prev : option N) (s : str) (cs : caps)
         (k : option N -> str -> caps -> option A) (a : A),
    rmatch r prev s cs k = Some a ->
    exists s1 s2 cs',
      s = (s1 ++ s2)%list /\ accepts r prev s1 s2
      /\ k (last_or prev s1) s2 cs' = Some a.
Proof.
  induction r as [|p|r1 IH1 r2 IH2|r1 IH1 r2 IH2|p|p|n r1 IH1|r1 IH1| |];
    intros A prev s cs k a; cbn [rmatch accepts].
  - intro H. now exists [], s, cs.
  - destruct s as [|c s]; [discriminate|]. destruct (p c) eqn:Hc;
      [|discriminate].
    intro H. exists [c], s, cs. repeat split; [now exists c|exact H].
  - intro H. apply IH1 in H as (s1 & s2 & cs1 & -> & A1 & H).
    apply IH2 in H as (t1 & t2 & cs2 & -> & A2 & H).
    exists (s1 ++ t1)%list, t2, cs2. rewrite last_or_app, <- app_assoc.
    split; [reflexivity|]. split; [|exact H]. now exists s1, t1.
  - destruct (rmatch r1 prev s cs k) as [a'|] eqn:E.
    + intros [= <-]. apply IH1 in E as (s1 & s2 & cs1 & -> & A1 & H).
      exists s1, s2, cs1. repeat split; [now left|exact H].
    + intro H. apply IH2 in H as (s1 & s2 & cs1 & -> & A1 & H).
      exists s1, s2, cs1. repeat split; [now right|exact H].
  - intro H. apply star_k_sound in H as (ws & s' & -> & Hp & H).
    now exists ws, s', cs.
  - destruct s as [|c s]; [discriminate|]. destruct (p c) eqn:Hc;
      [|discriminate].
    intro H. apply star_k_sound in H as (ws & s' & -> & Hp & H).
    exists (c :: ws), s', cs. rewrite last_or_cons. cbn [forallb].
    rewrite Hc. repeat split; [discriminate|exact Hp|exact H].
  - intro H. apply IH1 in H as (s1 & s2 & cs1 & -> & A1 & H).
    exists s1, s2. eexists. repeat split; [exact A1|exact H].
  - destruct (rmatch r1 prev s cs (fun _ _ _ => Some tt)) as [[]|] eqn:E;
      [|discriminate].
    intro H. apply IH1 in E as (s1 & s2 & cs1 & -> & A1 & _).
    exists [], (s1 ++ s2)%list, cs. repeat split; [|exact H].
    now exists s1, s2.
  - destruct (at_boundary prev s) eqn:E; [|discriminate].
    intro H. now exists [], s, cs.
  - destruct s; [|discriminate]. intro H. now exists [], [], cs.
Qed.

Lemma accepts_alphabet (r : regex) :
  forall prev s rest, accepts r prev s rest -> forallb (alphabet r) s = true.
Proof.
  induction r as [|p|r1 IH1 r2 IH2|r1 IH1 r2 IH2|p|p|n r1 IH1|r1 IH1| |];
    intros prev s rest; cbn [accepts alphabet].
  - now intros ->.
  - intros (c & -> & Hc). cbn. now rewrite Hc.
  - intros (s1 & s2 & -> & A1 & A2). rewrite forallb_app.
    apply IH1 in A1. apply IH2 in A2. apply andb_true_iff. split.
    + rewrite forallb_forall in *. intros x Hx. now rewrite (A1 x Hx).
    + rewrite forallb_forall in *. intros x Hx. rewrite (A2 x Hx).
      apply orb_true_r.
  - intros [A1|A2].
    + apply IH1 in A1. rewrite forallb_forall in *. intros x Hx.
      now rewrite (A1 x Hx).
    + apply IH2 in A2. rewrite forallb_forall in *. intros x Hx.
      rewrite (A2 x Hx). apply orb_true_r.
  - trivial.
  - now intros [_ H].
  - apply IH1.
  - now intros [-> _].
  - now intros [-> _].
  - now intros [-> _].
Qed.

(** A match that leaves nothing is a match of the whole string. *)
Lemma re_match_accepts (r : regex) (s rest : str) (cs : caps) :
  re_match r s = Some (rest, cs) ->
  exists p, s = (p ++ rest)%list /\ accepts r None p rest.
Proof.
  unfold re_match. intro H.
  apply rmatch_sound in H as (s1 & s2 & cs' & -> & A1 & H).
  injection H as <- _. now exists s1.
Qed.

Lemma strptime_ok_matches (s : str) (f : string) (d : date) :
  strptime s f = Ok d -> matches_format f s.
Proof.
  unfold strptime, matches_format.
  destruct (pattern false f) as [r|]; [|discriminate].
  destruct (re_match r s) as [[[|? ?] cs]|] eqn:E; try discriminate.
  intros _. exists r. split; [reflexivity|].
  apply re_match_accepts in E as (p & -> & A1). now rewrite app_nil_r.
Qed.

Lemma no_format_raises (s : str) (f : string) :
  ~ matches_format f s -> strptime s f = Raise ValueError.
Proof.
  intro H. destruct (strptime s f) as [d|e] eqn:E.
  - elim H. exact (strptime_ok_matches _ _ E).
  - f_equal. exact (strptime_raises _ _ E).
Qed.

Lemma no_quarter_no_match (s : str) :
  ~ starts_with_quarter s -> re_match quarter_re s = None.
Proof.
  intro H. destruct (re_match quarter_re s) as [[rest cs]|] eqn:E;
    [|reflexivity].
  elim H. apply re_match_accepts in E as (p & -> & A1). now exists p, rest.
Qed.

Lemma accepts_parser_end (p rest : str) :
  accepts _parser None p rest -> rest = [].
Proof.
  unfold _parser. cbn [accepts].
  intros (s1 & s2 & _ & _ & (t1 & t2 & _ & _ & (_ & E))). exact E.
Qed.

Lemma from_str_ok_numeric (t : str) (d : Decimal) :
  from_str t = Ok d -> numeric_string t.
Proof.
  unfold from_str, numeric_string.
  destruct (re_match _parser _) as [[rest cs]|] eqn:E; [|discriminate].
  intros _. apply re_match_accepts in E as (p & E & A1).
  pose proof (@accepts_parser_end _ _ A1) as ->.
  rewrite app_nil_r in E. now rewrite E.
Qed.

(** *** The quarter notation as a prefix *)

Lemma parse_is_parse_str (s : str) :
  _parse_iso_or_quarter (PStr s) = _parse_str s.
Proof. destruct s; [vm_compute|]; reflexivity. Qed.

Lemma quarter_match_rest (letter : N) (q y : Z) (t : str) :
  In letter [81%N; 113%N] -> (1 <= q <= 4)%Z -> (0 <= y <= 9999)%Z ->
  re_match quarter_re (quarter letter q y ++ t)
  = Some (t, [("2", Y4 y); ("1", D1 q)]%string).
Proof.
  intros Hl Hq Hy. destruct (Y4_digit_string Hy) as (DY & Hlen & _).
  unfold re_match, quarter, quarter_re.
  change ((letter :: D1 q ++ u " " ++ Y4 y) ++ t)
    with (letter :: (D1 q ++ u " " ++ Y4 y) ++ t).
  rewrite <- !app_assoc.
  rewrite quarter_prefix by assumption.
  destruct DY as [_ DY]. now rewrite rmatch_digits4.
Qed.

Lemma strip_quarter_rest (letter : N) (q y : Z) (t : str) :
  In letter [81%N; 113%N] -> (0 <= y <= 9999)%Z ->
  strip (quarter letter q y ++ t) = quarter letter q y ++ rstrip t.
Proof.
  intros Hl Hy.
  destruct (@Y4_digit_string y Hy) as (DY & _ & _).
  destruct (digit_string_last DY) as (l & Hlast & Hdl).
  assert (isspace letter = false) as Hsp
    by (simpl in Hl; destruct Hl as [<-|[<-|[]]]; reflexivity).
  assert (rstrip (quarter letter q y) = quarter letter q y) as Hr.
  { unfold quarter. change (letter :: D1 q ++ u " " ++ Y4 y)
      with ([letter] ++ D1 q ++ u " " ++ Y4 y).
    destruct (Y4 y) as [|a x] eqn:E using rev_ind; [discriminate Hlast|].
    clear IHx. unfold last1 in Hlast. rewrite rev_app_distr in Hlast.
    injection Hlast as ->. rewrite !app_assoc.
    apply rstrip_snoc. now apply digit_not_space. }
  unfold strip. unfold quarter at 1. cbn [app lstrip]. rewrite Hsp.
  change (letter :: (D1 q ++ u " " ++ Y4 y) ++ t)
    with (quarter letter q y ++ t).
  rewrite rstrip_app. destruct (rstrip t); [now rewrite app_nil_r|reflexivity].
Qed.

Lemma parse_quarter_rest (letter : N) (q y : Z) (t : str) :
  In letter [81%N; 113%N] -> (1 <= q <= 4)%Z -> (1 <= y <= 9999)%Z ->
  _parse_iso_or_quarter (PStr (quarter letter q y ++ t))
  = Ok (Some (mkdate y (3 * q)
                (if Z.eqb q 1 || Z.eqb q 4 then 31 else 30)%Z)).
Proof.
  intros Hl Hq Hy. rewrite <- (parse_quarter Hl Hq Hy).
  rewrite !parse_is_parse_str. unfold _parse_str.
  rewrite <- (app_nil_r (quarter letter q y)) at 2.
  rewrite !strip_quarter_rest by (assumption || lia).
  rewrite !quarter_match_rest by (assumption || lia). reflexivity.
Qed.

(** *** Strings without a digit *)

Lemma needs_digit_Cls : needs_digit digit.
Proof.
  intros prev s rest (c & -> & Hc). cbn. now rewrite Hc.
Qed.

Lemma needs_digit_Seq_l (r1 r2 : regex) :
  needs_digit r1 -> needs_digit (Seq r1 r2).
Proof.
  intros H prev s rest (s1 & s2 & -> & A1 & _). rewrite existsb_app.
  now rewrite (H _ _ _ A1).
Qed.

Lemma needs_digit_Seq_r (r1 r2 : regex) :
  needs_digit r2 -> needs_digit (Seq r1 r2).
Proof.
  intros H prev s rest (s1 & s2 & -> & _ & A2). rewrite existsb_app.
  rewrite (H _ _ _ A2). apply orb_true_r.
Qed.

Lemma needs_digit_Group (n : string) (r : regex) :
  needs_digit r -> needs_digit (Group n r).
Proof. intros H prev s rest A1. exact (H _ _ _ A1). Qed.

Ltac digit_needed :=
  repeat first [ exact needs_digit_Cls
               | apply needs_digit_Group
               | apply needs_digit_Seq_l; solve [digit_needed]
               | apply needs_digit_Seq_r ].

Lemma needs_digit_re_Y : needs_digit re_Y.
Proof. unfold re_Y. digit_needed. Qed.

Lemma needs_digit_quarter : needs_digit quarter_re.
Proof. unfold quarter_re. digit_needed. Qed.

Lemma format_needs_digit (f : string) (s : str) :
  In f fmts -> matches_format f s -> existsb isdigit s = true.
Proof.
  intros Hin (r & Hp & A1). revert A1. generalize (@None N).
  destruct patterns as (P1 & P2 & P3 & P4 & P5 & P6).
  assert (needs_digit r) as H; [|intros prev A1; exact (H _ _ _ A1)].
  unfold fmts in Hin. cbn [In] in Hin.
  destruct Hin as [<-|[<-|[<-|[<-|[<-|[<-|[]]]]]]];
    rewrite ?P1, ?P2, ?P3, ?P4, ?P5, ?P6 in Hp; injection Hp as <-;
    repeat first [ exact needs_digit_re_Y
                 | apply needs_digit_Seq_l; exact needs_digit_re_Y
                 | apply needs_digit_Seq_r ].
Qed.

Lemma existsb_incl (A : Type) (p : A -> bool) (a b : list A) :
  incl a b -> existsb p b = false -> existsb p a = false.
Proof.
  intros Hi Hb. destruct (existsb p a) eqn:E; [|reflexivity].
  apply existsb_exists in E as (x & Hx & Hp).
  assert (existsb p b = true) by (apply existsb_exists; exists x; auto).
  congruence.
Qed.

Lemma lstrip_incl (s : str) : incl (lstrip s) s.
Proof.
  induction s as [|c s IH]; [apply incl_refl|]. cbn [lstrip].
  destruct (isspace c); [now apply incl_tl|apply incl_refl].
Qed.

Lemma strip_incl (s : str) : incl (strip s) s.
Proof.
  unfold strip, rstrip. intros x Hx. apply lstrip_incl.
  apply in_rev in Hx. apply lstrip_incl in Hx. now apply in_rev in Hx.
Qed.

Lemma sub_del_incl (r : regex) (s : str) :
  forall prev n, incl (sub_del r prev s n) s.
Proof.
  induction s as [|c s IH]; intros prev n; [apply incl_refl|].
  cbn [sub_del]. destruct n as [|n].
  - destruct (rmatch r prev (c :: s) [] _) as [[|m]|].
    + apply incl_cons; [now left|]. apply incl_tl, IH.
    + apply incl_tl, IH.
    + apply incl_cons; [now left|]. apply incl_tl, IH.
  - apply incl_tl, IH.
Qed.

Lemma date_text_incl (s : str) : incl (date_text s) s.
Proof.
  unfold date_text, re_sub_del. intros x Hx.
  apply strip_incl. apply (@sub_del_incl as_of_re _ None 0%nat).
  now apply strip_incl.
Qed.

Lemma parse_no_format (s : str) :
  ~ starts_with_quarter (strip s) ->
  (forall f, In f fmts -> ~ matches_format f (date_text s)) ->
  _parse_iso_or_quarter (PStr s) = Ok None.
Proof.
  intros Hq Hf. rewrite parse_is_parse_str. unfold _parse_str.
  rewrite (no_quarter_no_match Hq). apply try_formats_none.
  intros f Hin. apply no_format_raises. exact (Hf f Hin).
Qed.

Lemma parse_never_raises (s : str) :
  ~ starts_with_quarter (strip s) ->
  exists o, _parse_iso_or_quarter (PStr s) = Ok o.
Proof.
  intros Hq. rewrite parse_is_parse_str. unfold _parse_str.
  rewrite (no_quarter_no_match Hq). apply try_formats_total.
Qed.

Lemma no_digit_no_quarter (s : str) :
  existsb isdigit s = false -> ~ starts_with_quarter (strip s).
Proof.
  intros H (p & rest & E & A1). apply needs_digit_quarter in A1.
  assert (existsb isdigit (strip s) = false) as H'
    by (exact (existsb_incl _ (strip_incl s) H)).
  rewrite E, existsb_app, A1 in H'. discriminate.
Qed.

Lemma no_digit_no_format (s : str) (f : string) :
  existsb isdigit s = false -> In f fmts -> ~ matches_format f (date_text s).
Proof.
  intros H Hin M. apply (format_needs_digit Hin) in M.
  rewrite (existsb_incl _ (date_text_incl s) H) in M. discriminate.
Qed.

Lemma parse_no_digit (s : str) :
  existsb isdigit s = false -> _parse_iso_or_quarter (PStr s) = Ok None.
Proof.
  intro H. apply parse_no_format.
  - now apply no_digit_no_quarter.
  - intros f Hin. now apply no_digit_no_format.
Qed.

(** The second day of January 2023 written month/day/year is 01/02/2023;
    day/month/year is tried before month/day/year and accepts it, so the
    result is the first day of February, not the day that was written. *)
Lemma month_day_year_read_as_day_month :
  valid_date 2023 1 2
  /\ mdy 2023 1 2 = u "01/02/2023"
  /\ _parse_iso_or_quarter (PStr (mdy 2023 1 2))
     = Ok (Some (mkdate 2023 2 1))
  /\ _parse_iso_or_quarter (PStr (mdy 2023 1 2))
     <> Ok (Some (mkdate 2023 1 2)).
Proof.
  split; [repeat split; vm_compute; discriminate|].
  split; [reflexivity|].
  split; [vm_compute; reflexivity|vm_compute; discriminate].
Qed.

(** C6.  The three documented examples.  A string that begins with the
    quarter notation, whatever follows it, resolves to the last day of the
    quarter's last month, and the ISO year-month to the last day of the
    month, for every year from 0001 to 9999.  Every date of the calendar
    written as ISO date, as day/month/year, or in either long form resolves
    to that day; written as month/day/year it resolves to that day when the
    day is above 12, and whenever the same digits read as day/month/year
    are a date of the calendar, that date is the result, the formats being
    tried in order.  A string that does not begin with the quarter notation
    never raises; when, once the leading as-of phrase is removed, no format
    accepts it, the result is None, and this is so of every string without
    a decimal digit.  The quarter notation with the year 0000 is not
    covered here. *)
Theorem date_notations_resolve :
  _parse_iso_or_quarter (PStr (u "Q2 2023")) = Ok (Some (mkdate 2023 6 30))
  /\ _parse_iso_or_quarter (PStr (u "2023-07")) = Ok (Some (mkdate 2023 7 31))
  /\ _parse_iso_or_quarter (PStr (u "as of 30 June 2023"))
     = Ok (Some (mkdate 2023 6 30))
  /\ (forall letter q y t,
        In letter [81%N; 113%N] -> (1 <= q <= 4)%Z -> (1 <= y <= 9999)%Z ->
        _parse_iso_or_quarter (PStr (quarter letter q y ++ t))
        = Ok (Some (mkdate y (3 * q)
                      (if Z.eqb q 1 || Z.eqb q 4 then 31 else 30)%Z)))
  /\ (forall y m,
        (1 <= y <= 9999)%Z -> (1 <= m <= 12)%Z ->
        _parse_iso_or_quarter (PStr (iso_month y m))
        = Ok (Some (mkdate y m (monthrange y m))))
  /\ (forall y m d,
        valid_date y m d ->
        _parse_iso_or_quarter (PStr (iso y m d)) = Ok (Some (mkdate y m d))
        /\ _parse_iso_or_quarter (PStr (dmy y m d)) = Ok (Some (mkdate y m d))
        /\ ((12 < d)%Z ->
            _parse_iso_or_quarter (PStr (mdy y m d)) = Ok (Some (mkdate y m d)))
        /\ _parse_iso_or_quarter (PStr (long_mdy y m d))
           = Ok (Some (mkdate y m d))
        /\ _parse_iso_or_quarter (PStr (long_dmy y m d))
           = Ok (Some (mkdate y m d)))
  /\ (forall y m d,
        valid_date y d m ->
        _parse_iso_or_quarter (PStr (mdy y m d)) = Ok (Some (mkdate y d m)))
  /\ (forall s,
        ~ starts_with_quarter (strip s) ->
        (exists o, _parse_iso_or_quarter (PStr s) = Ok o)
        /\ ((forall f, In f fmts -> ~ matches_format f (date_text s)) ->
            _parse_iso_or_quarter (PStr s) = Ok None))
  /\ (forall s,
        existsb isdigit s = false ->
        _parse_iso_or_quarter (PStr s) = Ok None).
Proof.
  split; [vm_compute; reflexivity|].
  split; [vm_compute; reflexivity|].
  split; [vm_compute; reflexivity|].
  split; [exact parse_quarter_rest|].
  split; [exact parse_iso_month|].
  split.
  { intros y m d V. split; [exact (parse_iso V)|].
    split; [exact (parse_dmy V)|]. split; [exact (parse_mdy V)|].
    split; [exact (parse_long_mdy V)|exact (parse_long_dmy V)]. }
  split; [exact parse_mdy_as_dmy|].
  split; [|exact parse_no_digit].
  intros s Hq. split; [exact (@parse_never_raises s Hq)|].
  exact (@parse_no_format s Hq).
Qed.

(** The rules at three inputs: 29 February 2024, a date of the calendar, in
    the long form with the day first resolves to that day; the third
    quarter of 2021 followed by a remark resolves to 30 September 2021; a
    string without a digit gives None. *)
Lemma date_notations_resolve_witness :
  valid_date 2024 2 29
  /\ long_dmy 2024 2 29 = u "29 February 2024"
  /\ _parse_iso_or_quarter (PStr (long_dmy 2024 2 29))
     = Ok (Some (mkdate 2024 2 29%Z))
  /\ quarter 81 3 2021 ++ u " (unaudited)" = u "Q3 2021 (unaudited)"
  /\ _parse_iso_or_quarter (PStr (quarter 81 3 2021 ++ u " (unaudited)"))
     = Ok (Some (mkdate 2021 9 30%Z))
  /\ existsb isdigit (u "not available") = false
  /\ _parse_iso_or_quarter (PStr (u "not available")) = Ok None.
Proof.
  assert (valid_date 2024 2 29) as V
    by (repeat split; vm_compute; discriminate).
  split; [exact V|]. split; [reflexivity|].
  destruct date_notations_resolve
    as (_ & _ & _ & HQ & _ & H & _ & _ & HN).
  split; [exact (proj2 (proj2 (proj2 (proj2 (H 2024%Z 2%Z 29%Z V)))))|].
  split; [reflexivity|].
  split.
  { apply (HQ 81%N 3%Z 2021%Z (u " (unaudited)"));
      [now left|lia|lia]. }
  split; [reflexivity|].
  apply HN. reflexivity.
Defined.

(** Outside the claim: the quarter branch builds the date outside any
    handler, and the year 0000, which the expression accepts, is no year of
    the calendar. *)
Lemma quarter_year_zero_raises :
  _parse_iso_or_quarter (PStr (u "Q1 0000")) = Raise ValueError.
Proof. vm_compute. reflexivity. Qed.

(** ** Flattening *)

Section DictFacts.
Variable V : Type.
Implicit Types (d : list (string * V)) (k : string).

Lemma lookup_app k d1 d2 :
  lookup k (d1 ++ d2)
  = match lookup k d1 with Some v => Some v | None => lookup k d2 end.
Proof.
  induction d1 as [|[k' v'] d1 IH]; simpl; [reflexivity|].
  now destruct (String.eqb k' k).
Qed.

Lemma lookup_not_in k d : ~ In k (keys d) -> lookup k d = None.
Proof.
  induction d as [|[k' v'] d IH]; simpl; intro H; [reflexivity|].
  destruct (String.eqb k' k) eqn:E.
  - apply String.eqb_eq in E. tauto.
  - apply IH. tauto.
Qed.

Lemma lookup_map (f : string -> V) k ks :
  In k ks -> lookup k (map (fun x => (x, f x)) ks) = Some (f k).
Proof.
  induction ks as [|k' ks IH]; simpl; [tauto|]. intros [-> | H].
  - now rewrite String.eqb_refl.
  - destruct (String.eqb k' k) eqn:E; [|now apply IH].
    apply String.eqb_eq in E. now subst.
Qed.

Lemma lookup_set_item k k' (v : V) d :
  lookup k' (set_item k v d)
  = if String.eqb k k' then Some v else lookup k' d.
Proof.
  induction d as [|[k0 v0] d IH]; simpl; [reflexivity|].
  destruct (String.eqb k0 k) eqn:E; simpl.
  - apply String.eqb_eq in E. subst k0. now destruct (String.eqb k k').
  - destruct (String.eqb k0 k') eqn:E'; [|exact IH].
    apply String.eqb_eq in E'. subst k0. now rewrite String.eqb_sym, E.
Qed.

Lemma keys_set_item k (v : V) d : In k (keys d) -> keys (set_item k v d) = keys d.
Proof.
  induction d as [|[k0 v0] d IH]; simpl; [tauto|]. intro H.
  destruct (String.eqb k0 k) eqn:E; simpl.
  - apply String.eqb_eq in E. now subst.
  - f_equal. apply IH. destruct H as [H | H]; [|exact H].
    subst. now rewrite String.eqb_refl in E.
Qed.
End DictFacts.

Lemma snap_item_dict (d : dict) (k : string) :
  snap_item (PDict d) k = Ok (snapshot_value d k).
Proof.
  unfold snap_item, snapshot_value. now destruct (lookup k d) as [[]|].
Qed.

(** The overlay from a dictionary never fails, keeps the keys when it only
    visits keys of the row, and leaves at each visited key the snapshot's
    value when it has one. *)
Lemma overlay_dict (d : dict) (ks : list string) (flat : dict) :
  incl ks (keys flat) ->
  exists flat',
    overlay (PDict d) ks flat = Ok flat'
    /\ keys flat' = keys flat
    /\ forall k, lookup k flat'
                 = if existsb (String.eqb k) ks
                   then match snapshot_value d k with
                        | Some v => Some v
                        | None => lookup k flat
                        end
                   else lookup k flat.
Proof.
  revert flat. induction ks as [|k0 ks IH]; intros flat Hin.
  - exists flat. now repeat split.
  - cbn [overlay]. rewrite snap_item_dict. cbn [bind].
    assert (In k0 (keys flat)) as H0 by (apply Hin; now left).
    set (flat1 := match snapshot_value d k0 with
                  | Some v => set_item k0 v flat
                  | None => flat
                  end).
    assert (keys flat1 = keys flat) as Hk.
    { unfold flat1. destruct (snapshot_value d k0); [|reflexivity].
      now apply keys_set_item. }
    destruct (IH flat1) as (flat' & H1 & H2 & H3).
    { rewrite Hk. intros x Hx. apply Hin. now right. }
    exists flat'. split; [exact H1|]. split; [now rewrite H2|].
    intro k. rewrite H3. cbn [existsb].
    assert (lookup k flat1
            = if String.eqb k k0
              then match snapshot_value d k with
                   | Some v => Some v
                   | None => lookup k flat
                   end
              else lookup k flat) as ->.
    { unfold flat1. destruct (String.eqb k k0) eqn:E.
      - apply String.eqb_eq in E. subst k0.
        destruct (snapshot_value d k); [|reflexivity].
        now rewrite lookup_set_item, String.eqb_refl.
      - destruct (snapshot_value d k0); [|reflexivity].
        now rewrite lookup_set_item, String.eqb_sym, E. }
    destruct (String.eqb k k0), (existsb (String.eqb k) ks),
      (snapshot_value d k); reflexivity.
Qed.

Lemma existsb_eqb_In (k : string) (ks : list string) :
  In k ks -> existsb (String.eqb k) ks = true.
Proof.
  intro H. apply existsb_exists. exists k. split; [exact H|].
  apply String.eqb_refl.
Qed.

(** Flattening a record whose first snapshot, if any, is a dictionary. *)
Lemma flatten_record_dict (r d : dict) :
  first_snapshot r = PDict d ->
  exists flat,
    flatten_record (PDict r) = Ok flat
    /\ keys flat = COLUMNS
    /\ forall k, In k COLUMNS ->
                 lookup k flat
                 = Some match snapshot_value d k with
                        | Some v => v
                        | None => get k r
                        end.
Proof.
  intro Hd. unfold flatten_record. rewrite Hd.
  set (flat0 := map (fun k => (k, get k r)) COLUMNS).
  assert (keys flat0 = COLUMNS) as Hk.
  { unfold keys, flat0. rewrite map_map. apply map_id. }
  destruct (@overlay_dict d COLUMNS flat0) as (flat & H1 & H2 & H3).
  { rewrite Hk. apply incl_refl. }
  exists flat. split; [exact H1|]. split; [now rewrite H2|].
  intros k Hin. rewrite H3, (existsb_eqb_In _ _ Hin).
  unfold flat0. rewrite (lookup_map (fun k => get k r) _ _ Hin).
  now destruct (snapshot_value d k).
Qed.

Lemma first_snapshot_empty (r : dict) :
  lookup "asset_snapshots" r = Some (PList []) -> first_snapshot r = PDict [].
Proof. unfold first_snapshot. now intros ->. Qed.

Lemma keys_dump_fields (fs : list field) (m : model) :
  keys (dump_fields fs m) = map falias fs.
Proof. unfold keys, dump_fields. now rewrite map_map. Qed.

Lemma columns_by_scope : COLUMNS = (top_level_columns ++ snapshot_columns)%list.
Proof. vm_compute. reflexivity. Qed.

Lemma scopes_disjoint (k : string) :
  In k top_level_columns -> In k snapshot_columns -> False.
Proof.
  intros H1 H2.
  assert (NoDup (top_level_columns ++ snapshot_columns)%list) as ND
    by (rewrite <- columns_by_scope; exact COLUMNS_NoDup).
  revert k H1 H2. clear -ND.
  induction top_level_columns as [|x l IH]; simpl in *; [tauto|].
  inversion ND as [|? ? Hx ND']; subst. intros k [-> | H1] H2.
  - apply Hx, in_or_app. now right.
  - exact (IH ND' k H1 H2).
Qed.

Lemma asset_snapshots_not_column : ~ In "asset_snapshots"%string COLUMNS.
Proof.
  intro H. apply (existsb_eqb_In _ _) in H. vm_compute in H. discriminate.
Qed.

(** The dump of a record, read back. *)
Lemma first_snapshot_dump (fe : FundExposure) :
  first_snapshot (model_dump fe)
  = PDict match asset_snapshots fe with
          | [] => []
          | sn :: _ => dump_fields AssetSnapshot_fields sn
          end
  /\ (forall k, In k top_level_columns ->
        get k (model_dump fe)
        = get k (dump_fields FundExposure_fields (fe_fields fe)))
  /\ (forall k, In k snapshot_columns -> get k (model_dump fe) = PNone).
Proof.
  unfold model_dump.
  assert (lookup "asset_snapshots"
            (dump_fields FundExposure_fields (fe_fields fe)) = None) as Hs.
  { apply lookup_not_in. rewrite keys_dump_fields. intro H.
    apply asset_snapshots_not_column. rewrite columns_by_scope.
    apply in_or_app. now left. }
  split; [|split].
  - unfold first_snapshot. rewrite lookup_app, Hs. cbn [lookup].
    rewrite String.eqb_refl. now destruct (asset_snapshots fe).
  - intros k Hk. unfold get. rewrite lookup_app.
    destruct (lookup k (dump_fields _ _)) eqn:E; [reflexivity|].
    cbn [lookup]. destruct (String.eqb _ k) eqn:E'; [|reflexivity].
    apply String.eqb_eq in E'. subst k. exfalso.
    apply asset_snapshots_not_column. rewrite columns_by_scope.
    apply in_or_app. now left.
  - intros k Hk. unfold get. rewrite lookup_app, lookup_not_in.
    + cbn [lookup]. destruct (String.eqb _ k) eqn:E'; [|reflexivity].
      apply String.eqb_eq in E'. subst k. exfalso.
      apply asset_snapshots_not_column. rewrite columns_by_scope.
      apply in_or_app. now right.
    + rewrite keys_dump_fields. intro H. exact (@scopes_disjoint k H Hk).
Qed.

Lemma snapshot_value_get (d : dict) (k : string) :
  match snapshot_value d k with Some v => v | None => PNone end = get k d.
Proof.
  unfold snapshot_value, get. now destruct (lookup k d) as [[]|].
Qed.

(** C8.  Flattening a record whose first snapshot, if there is one, is a
    dictionary returns a row keyed by the full column list in its order; each
    column holds the first snapshot's value when that is present and not
    None, and the record's own value otherwise.  For a record as the model
    dumps it the top-level columns hold the record's values, the snapshot
    columns the values of the first snapshot alone, and None when the
    snapshot list is empty; flattening such a record never raises. *)
Theorem flatten_record_first_snapshot :
  (forall r d,
     first_snapshot r = PDict d ->
     exists flat,
       flatten_record (PDict r) = Ok flat
       /\ keys flat = COLUMNS
       /\ forall k, In k COLUMNS ->
                    lookup k flat
                    = Some match snapshot_value d k with
                           | Some v => v
                           | None => get k r
                           end)
  /\ (forall r,
        lookup "asset_snapshots" r = Some (PList []) ->
        exists flat,
          flatten_record (PDict r) = Ok flat
          /\ keys flat = COLUMNS
          /\ forall k, In k COLUMNS -> lookup k flat = Some (get k r))
  /\ (forall fe : FundExposure,
        exists flat,
          flatten_record (dump_FundExposure fe) = Ok flat
          /\ keys flat = COLUMNS
          /\ (forall k, In k top_level_columns ->
                lookup k flat = Some (get k (model_dump fe)))
          /\ (forall k, In k snapshot_columns ->
                lookup k flat
                = Some match asset_snapshots fe with
                       | [] => PNone
                       | sn :: _ => get k (dump_fields AssetSnapshot_fields sn)
                       end)).
Proof.
  split; [exact flatten_record_dict|]. split.
  - intros r Hr.
    destruct (flatten_record_dict r (first_snapshot_empty r Hr))
      as (flat & H1 & H2 & H3).
    exists flat. split; [exact H1|]. split; [exact H2|].
    intros k Hk. now rewrite (H3 k Hk).
  - intro fe. destruct (first_snapshot_dump fe) as (Hf & Ht & Hs).
    destruct (flatten_record_dict (model_dump fe) Hf) as (flat & H1 & H2 & H3).
    exists flat. split; [exact H1|]. split; [exact H2|]. split.
    + intros k Hk. rewrite H3
        by (rewrite columns_by_scope; apply in_or_app; now left).
      unfold snapshot_value. rewrite lookup_not_in; [reflexivity|].
      destruct (asset_snapshots fe); [simpl; tauto|].
      rewrite keys_dump_fields. intro H. exact (@scopes_disjoint k Hk H).
    + intros k Hk. rewrite H3
        by (rewrite columns_by_scope; apply in_or_app; now right).
      rewrite (Hs k Hk), snapshot_value_get.
      now destruct (asset_snapshots fe).
Qed.

(** The rule on a record with two snapshots: the enterprise value comes
    from the first, its None for the beta overwrites nothing, and the second
    snapshot is not read. *)
Lemma flatten_record_first_snapshot_witness :
  let sn1 := [("EV"%string, PStr (u "5")); ("Beta"%string, PNone)] in
  let sn2 := [("EV"%string, PStr (u "7")); ("Beta"%string, PStr (u "1.2"))] in
  let r := [("OICR"%string, PStr (u "A")); ("Beta"%string, PStr (u "0.9"));
            ("asset_snapshots"%string, PList [PDict sn1; PDict sn2])] in
  first_snapshot r = PDict sn1
  /\ exists flat,
       flatten_record (PDict r) = Ok flat
       /\ lookup "OICR" flat = Some (PStr (u "A"))
       /\ lookup "EV" flat = Some (PStr (u "5"))
       /\ lookup "Beta" flat = Some (PStr (u "0.9"))
       /\ lookup "Price" flat = Some PNone.
Proof.
  intros sn1 sn2 r. split; [reflexivity|].
  destruct (proj1 flatten_record_first_snapshot r sn1 eq_refl)
    as (flat & H1 & _ & H3).
  exists flat. split; [exact H1|].
  assert (forall k, existsb (String.eqb k) COLUMNS = true -> In k COLUMNS) as Hin.
  { intros k H. apply existsb_exists in H. destruct H as (x & Hx & E).
    apply String.eqb_eq in E. now subst. }
  repeat split; (rewrite H3; [reflexivity|apply Hin; reflexivity]).
Defined.

(** ** Validation of a record *)

Lemma PyStr_eqb_eq (a b : str) : PyStr.eqb a b = true <-> a = b.
Proof.
  revert b. induction a as [|x a IH]; intros [|y b]; simpl;
    try (split; [discriminate|discriminate]); [tauto|].
  rewrite andb_true_iff, N.eqb_eq, IH. split.
  - now intros [-> ->].
  - now intros [= -> ->].
Qed.

Lemma resolve_member (c : EnumClass) (name val : string) :
  In (name, val) (members c) -> resolve c (u val) = Some (name, val).
Proof.
  destruct c; cbn [members In]; intro H;
    repeat (destruct H as [[= <- <-] | H]; [vm_compute; reflexivity|]);
    destruct H.
Qed.

Lemma resolve_no_member (c : EnumClass) (s : str) :
  no_member c s -> resolve c s = None.
Proof.
  intro H. unfold resolve.
  destruct (find _ (members c)) as [[name val]|] eqn:E; [|reflexivity].
  apply find_some in E. destruct E as [Hin E]. cbn [snd] in E.
  apply PyStr_eqb_eq in E. now elim (H name val Hin).
Qed.

Lemma resolve_sound (c : EnumClass) (s : str) (name val : string) :
  resolve c s = Some (name, val) -> In (name, val) (members c) /\ s = u val.
Proof.
  unfold resolve. intro E. apply find_some in E. destruct E as [Hin E].
  cbn [snd] in E. apply PyStr_eqb_eq in E. now split.
Qed.

(** An invalid field is reported at its alias, whatever the other fields
    do, short of an exception. *)
Lemma validate_fields_invalid (b : bool) (fs : list field) (rec : dict)
    (loc : list loc_item) (f : field) (err : string) :
  In f fs -> validate_field b f rec = Invalid err ->
  forall r, validate_fields b fs rec loc = Ok r ->
            In (loc ++ [LKey (falias f)], err)%list (snd r).
Proof.
  induction fs as [|g fs IH]; [intros []|].
  intros [-> | Hin] Hf r; cbn [validate_fields].
  - rewrite Hf. destruct (validate_fields b fs rec loc) as [r'|e];
      cbn [bind]; [|discriminate]. intros [= <-]. now left.
  - destruct (validate_field b g rec) as [v|err'|ex];
      destruct (validate_fields b fs rec loc) as [r'|ex'] eqn:E;
      cbn [bind]; try discriminate; intros [= <-]; cbn [snd];
      try right; now apply (IH Hin Hf).
Qed.

Lemma finish_fails (A : Type) (r : result (A * errors))
    (loc : list loc_item) (err : string) :
  (forall x, r = Ok x -> In (loc, err) (snd x)) -> fails_with r loc err.
Proof.
  intro H. unfold fails_with, finish. destruct r as [x|e]; cbn [bind].
  - specialize (H x eq_refl). destruct (snd x) as [|e0 errs] eqn:E;
      [destruct H|].
    split; [eexists; reflexivity|]. intros y [= <-]. rewrite E. now split.
  - split; [now exists e|discriminate].
Qed.

(** A field of the record that is invalid makes the validation fail. *)
Lemma FundExposure_invalid_field (rec : dict) (f : field) (err : string) :
  In f FundExposure_fields -> validate_field true f rec = Invalid err ->
  fails_with (FundExposure_validate_at (PDict rec) []) [LKey (falias f)] err.
Proof.
  intros Hin Hf. apply finish_fails. intros x. cbn [FundExposure_validate_at].
  destruct (validate_fields true FundExposure_fields rec []) as [r|e] eqn:E;
    cbn [bind]; [|discriminate].
  pose proof (@validate_fields_invalid _ _ _ _ _ _ Hin Hf _ E) as H.
  cbn [app] in H.
  destruct (match lookup "asset_snapshots" rec with
            | Some (PList items) => _ | Some _ => _ | None => _ end)
    as [rs|e]; cbn [bind]; [|discriminate].
  intros [= <-]. cbn [snd]. apply in_or_app. now left.
Qed.

Lemma required_fields_FundExposure :
  required_fields FundExposure_fields
  = ["NAV_Date"; "FONDO_TARGET_ASSET"; "OICR_FONDO_TARGET"; "OICR";
     "Nome_Fondo_Target"]%string.
Proof. vm_compute. reflexivity. Qed.

Lemma required_fields_AssetSnapshot : required_fields AssetSnapshot_fields = [].
Proof. vm_compute. reflexivity. Qed.

Lemma enum_fields_optional (f : field) (c : EnumClass) :
  In f (FundExposure_fields ++ AssetSnapshot_fields)%list ->
  fkind f = KEnum c -> frequired f = false.
Proof.
  intros Hin Hk.
  assert (forallb (fun f => match fkind f with
                            | KEnum _ => negb (frequired f)
                            | _ => true
                            end)
            (FundExposure_fields ++ AssetSnapshot_fields)%list = true) as H
    by (vm_compute; reflexivity).
  rewrite forallb_forall in H. specialize (H f Hin). rewrite Hk in H.
  now destruct (frequired f).
Qed.

(** C2, as stated, fails: a classification in lower case is not resolved to
    Unset, the field is invalid and the validation of the record raises. *)
Lemma lowercase_equity_is_rejected :
  validate_field true
    (mkfield "tipologia_strumento" "Tipologia_Strumento"
       (KEnum InstrumentStrategy) false)
    record_lowercase_enum
  = Invalid "enum"
  /\ FundExposure_validate (PDict record_lowercase_enum)
     = Raise (ValidationError [([LKey "Tipologia_Strumento"], "enum"%string)])
  /\ is_ok (FundExposure_validate (PDict record_plain)) = true.
Proof. vm_compute. repeat split. Qed.

(** C2, amended.  For every classification field of either model: the
    display value of a member resolves to that member (stored as its value
    where the model uses enum values); a null or absent input is Unset; a
    string that is no member's display value is never resolved to a member,
    the field is invalid, and the validation of a record holding it in a
    field of its own fails with the error on that field. *)
Theorem enum_resolution_exact (b : bool) (f : field) (c : EnumClass) :
  In f (FundExposure_fields ++ AssetSnapshot_fields)%list ->
  fkind f = KEnum c ->
  (forall name val,
      In (name, val) (members c) ->
      validate_value b f (PStr (u val))
      = Valid (if b then VStr (u val) else VEnum c name))
  /\ validate_value b f PNone = Valid VNone
  /\ (forall rec, raw_of f rec = None -> validate_field b f rec = Valid VNone)
  /\ (forall s, no_member c s -> validate_value b f (PStr s) = Invalid "enum")
  /\ (forall rec s,
        In f FundExposure_fields ->
        raw_of f rec = Some (PStr s) -> no_member c s ->
        fails_with (FundExposure_validate_at (PDict rec) [])
          [LKey (falias f)] "enum").
Proof.
  intros Hin Hk. pose proof (@enum_fields_optional f c Hin Hk) as Ho.
  assert (forall s, no_member c s -> validate_value b f (PStr s) = Invalid "enum")
    as Hno.
  { intros s Hs. unfold validate_value. now rewrite Hk, (@resolve_no_member c s Hs). }
  split; [|split; [|split; [|split]]].
  - intros name val Hm. unfold validate_value.
    now rewrite Hk, (@resolve_member c name val Hm).
  - unfold validate_value. now rewrite Hk, Ho.
  - intros rec Hr. unfold validate_field. now rewrite Hr, Ho.
  - exact Hno.
  - intros rec s Hf Hr Hs. apply (@FundExposure_invalid_field rec f _ Hf).
    unfold validate_field. rewrite Hr.
    unfold validate_value. now rewrite Hk, (@resolve_no_member c s Hs).
Qed.

(** The rule at the instrument type of a record: [Equity] resolves,
    [equity] is invalid. *)
Lemma enum_resolution_exact_witness :
  let f := mkfield "tipologia_strumento" "Tipologia_Strumento"
             (KEnum InstrumentStrategy) false in
  In f (FundExposure_fields ++ AssetSnapshot_fields)%list
  /\ no_member InstrumentStrategy (u "equity")
  /\ validate_value true f (PStr (u "Equity")) = Valid (VStr (u "Equity"))
  /\ validate_value true f (PStr (u "equity")) = Invalid "enum".
Proof.
  intro f.
  assert (In f (FundExposure_fields ++ AssetSnapshot_fields)%list) as Hin
    by (do 8 right; left; reflexivity).
  assert (no_member InstrumentStrategy (u "equity")) as Hno.
  { intros name val H. cbn [members In] in H.
    repeat (destruct H as [[= <- <-] | H]; [vm_compute; discriminate|]).
    destruct H. }
  split; [exact Hin|]. split; [exact Hno|].
  destruct (@enum_resolution_exact true f InstrumentStrategy Hin eq_refl)
    as (H1 & _ & _ & H4 & _).
  split; [exact (H1 "EQUITY"%string "Equity"%string (or_introl eq_refl))|].
  exact (H4 _ Hno).
Defined.

(** C3, as stated, fails: with the NAV date and the three identity strings
    present, a record without [FONDO_TARGET_ASSET] is not valid. *)
Lemma fondo_target_asset_is_required :
  map fst identity_fields
  = ["NAV_Date"; "OICR_FONDO_TARGET"; "OICR"; "Nome_Fondo_Target"]%string
  /\ FundExposure_validate (PDict identity_fields)
     = Raise (ValidationError [([LKey "FONDO_TARGET_ASSET"], "missing"%string)])
  /\ is_ok (FundExposure_validate (PDict record_plain)) = true.
Proof. vm_compute. repeat split. Qed.

(** *** Numbers written without a suffix *)

Lemma to_decimal_is_str (s : str) : _to_decimal (PStr s) = _to_decimal_str s.
Proof. destruct s; [vm_compute|]; reflexivity. Qed.

Lemma from_str_raises (s : str) (e : exn) :
  from_str s = Raise e -> e = InvalidOperation.
Proof.
  unfold from_str. destruct (re_match _ _) as [[rest cs]|];
    [|now intros [= <-]].
  destruct (group cs "int"); [discriminate|].
  destruct (group cs "diag"); discriminate.
Qed.

Lemma from_str_not_numeric (t : str) :
  ~ numeric_string t -> from_str t = Raise InvalidOperation.
Proof.
  intro H. destruct (from_str t) as [d|e] eqn:E.
  - elim H. exact (@from_str_ok_numeric _ _ E).
  - now rewrite (@from_str_raises _ _ E).
Qed.

(** Without a suffix the string goes, commas and currency symbols removed,
    to [Decimal()] inside the handler. *)
Lemma to_decimal_unsuffixed (s : str) :
  suffixed (strip s) = false ->
  _to_decimal (PStr s)
  = match from_str (strip_symbols (strip s)) with
    | Ok d => Ok (Some d)
    | Raise _ => Ok None
    end.
Proof.
  rewrite to_decimal_is_str. unfold suffixed, _to_decimal_str. intro H.
  apply orb_false_iff in H as [H H4]. apply orb_false_iff in H as [H H3].
  apply orb_false_iff in H as [H1 H2]. rewrite H1, H2, H3.
  destruct (last1 (strip_symbols (strip s))) as [c|].
  - destruct (kmb_get (upper1 c) _KMB); [discriminate|].
    destruct (from_str _) as [d|e] eqn:E; [reflexivity|].
    now rewrite (@from_str_raises _ _ E).
  - destruct (from_str _) as [d|e] eqn:E; [reflexivity|].
    now rewrite (@from_str_raises _ _ E).
Qed.

(** C3, amended.  The fields without a default are the NAV date and four
    identity strings, [FONDO_TARGET_ASSET] among them, and a snapshot has
    none; the absence of any of them makes the validation fail with the
    error [missing] at that field; every other field, absent or null, is
    Unset.  An optional date given as a string that does not begin with the
    quarter notation never fails, and is Unset when, once the as-of phrase
    is removed, no format accepts it.  An optional number given as a string
    without a suffix lets no exception through: it is Unset when what is
    left of it without commas and currency symbols is not a numeric string,
    and otherwise it is a value or, for a token that is not finite,
    invalid. *)
Theorem required_and_optional_fields :
  required_fields FundExposure_fields
  = ["NAV_Date"; "FONDO_TARGET_ASSET"; "OICR_FONDO_TARGET"; "OICR";
     "Nome_Fondo_Target"]%string
  /\ required_fields AssetSnapshot_fields = []
  /\ (forall rec f,
        In f FundExposure_fields -> frequired f = true ->
        raw_of f rec = None ->
        fails_with (FundExposure_validate_at (PDict rec) [])
          [LKey (falias f)] "missing")
  /\ (forall b f rec,
        frequired f = false ->
        raw_of f rec = None \/ raw_of f rec = Some PNone ->
        validate_field b f rec = Valid VNone)
  /\ (forall b f s,
        frequired f = false -> fkind f = KDate ->
        ~ starts_with_quarter (strip s) ->
        (exists v, validate_value b f (PStr s) = Valid v)
        /\ ((forall fmt, In fmt fmts -> ~ matches_format fmt (date_text s)) ->
            validate_value b f (PStr s) = Valid VNone))
  /\ (forall b f s,
        frequired f = false -> fkind f = KDecimal ->
        suffixed (strip s) = false ->
        (~ numeric_string (strip_symbols (strip s)) ->
         validate_value b f (PStr s) = Valid VNone)
        /\ ((exists v, validate_value b f (PStr s) = Valid v)
            \/ validate_value b f (PStr s) = Invalid "finite_number")).
Proof.
  split; [exact required_fields_FundExposure|].
  split; [exact required_fields_AssetSnapshot|].
  split; [|split; [|split]].
  - intros rec f Hin Hreq Hr. apply (@FundExposure_invalid_field rec f _ Hin).
    unfold validate_field. now rewrite Hr, Hreq.
  - intros b f rec Ho [Hr | Hr]; unfold validate_field; rewrite Hr;
      [now rewrite Ho|].
    unfold validate_value. rewrite Ho. now destruct (fkind f).
  - intros b f s Ho Hk Hq. unfold validate_value. rewrite Hk. split.
    + destruct (@parse_never_raises s Hq) as [[d|] ->];
        [now eexists|rewrite Ho; now eexists].
    + intro Hf. now rewrite (@parse_no_format s Hq Hf), Ho.
  - intros b f s Ho Hk Hs. unfold validate_value.
    rewrite Hk, (@to_decimal_unsuffixed s Hs). split.
    + intro Hn. now rewrite (@from_str_not_numeric _ Hn), Ho.
    + destruct (from_str _) as [d|e].
      * destruct (is_finite d); [left; now eexists|now right].
      * rewrite Ho. left. now eexists.
Qed.

(** The rule on a record without [OICR] whose internal rate of return and
    valuation date are marked as not available: the validation raises the
    error [missing] at [OICR] and nothing else, the two other fields being
    Unset. *)
Lemma required_and_optional_fields_witness :
  let rec := [("NAV_Date"%string, PStr (u "Q2 2023"));
              ("Valuation_Date"%string, PStr (u "to be confirmed"));
              ("FONDO_TARGET_ASSET"%string, PStr (u "Target A / Asset 1"));
              ("OICR_FONDO_TARGET"%string, PStr (u "FoF I / Target A"));
              ("Nome_Fondo_Target"%string, PStr (u "Target A"));
              ("IRR"%string, PStr (u "n/a"))] in
  let f := mkfield "oicr" "OICR" KStr true in
  let irr := mkfield "irr" "IRR" KDecimal false in
  let valuation_date := mkfield "valuation_date" "Valuation_Date" KDate false in
  In f FundExposure_fields
  /\ raw_of f rec = None
  /\ FundExposure_validate (PDict rec)
     = Raise (ValidationError [([LKey "OICR"], "missing"%string)])
  /\ In irr FundExposure_fields
  /\ suffixed (strip (u "n/a")) = false
  /\ ~ numeric_string (strip_symbols (strip (u "n/a")))
  /\ validate_field true irr rec = Valid VNone
  /\ In valuation_date FundExposure_fields
  /\ ~ starts_with_quarter (strip (u "to be confirmed"))
  /\ validate_field true valuation_date rec = Valid VNone.
Proof.
  intros rec f irr valuation_date.
  assert (In f FundExposure_fields) as Hin by (do 4 right; left; reflexivity).
  assert (~ numeric_string (strip_symbols (strip (u "n/a")))) as Hn.
  { intro A1. apply accepts_alphabet in A1. vm_compute in A1. discriminate. }
  assert (~ starts_with_quarter (strip (u "to be confirmed"))) as Hq
    by (apply no_digit_no_quarter; reflexivity).
  destruct required_and_optional_fields as (_ & _ & H & _ & HD & HN).
  split; [exact Hin|]. split; [reflexivity|].
  split.
  { destruct (H rec f Hin eq_refl eq_refl) as [_ H2].
    destruct (FundExposure_validate_at (PDict rec) []) as [x|e] eqn:E;
      [|vm_compute in E; discriminate].
    destruct (H2 x eq_refl) as [H3 _]. unfold FundExposure_validate.
    rewrite E, H3. vm_compute in E. now injection E as <-. }
  split; [vm_compute; tauto|].
  split; [reflexivity|]. split; [exact Hn|].
  split.
  { exact (proj1 (HN true irr (u "n/a") eq_refl eq_refl eq_refl) Hn). }
  split; [vm_compute; tauto|].
  split; [exact Hq|].
  apply (proj2 (HD true valuation_date (u "to be confirmed")
                  eq_refl eq_refl Hq)).
  intros fmt Hfmt. now apply no_digit_no_format.
Defined.

(** ** The loop over the documents *)

Lemma is_ok_finish (A : Type) (r : result (A * errors)) :
  is_ok (finish r) = accepted r.
Proof.
  unfold finish, accepted. destruct r as [[x errs]|e]; cbn [bind fst snd];
    [|reflexivity]. now destruct errs.
Qed.

Lemma accepted_validate_fields (b : bool) (fs : list field) (rec : dict)
    (loc : list loc_item) :
  accepted (validate_fields b fs rec loc)
  = forallb (fun f => match validate_field b f rec with
                      | Valid _ => true
                      | _ => false
                      end) fs.
Proof.
  induction fs as [|f fs IH]; [reflexivity|].
  cbn [validate_fields forallb]. rewrite <- IH.
  destruct (validate_field b f rec) as [v|err|ex];
    destruct (validate_fields b fs rec loc) as [[m errs]|ex']; reflexivity.
Qed.

Lemma accepted_AssetSnapshot (x : pyval) (loc : list loc_item) :
  accepted (AssetSnapshot_validate x loc)
  = accepted (AssetSnapshot_validate x []).
Proof.
  destruct x; try reflexivity. cbn [AssetSnapshot_validate].
  now rewrite !accepted_validate_fields.
Qed.

Lemma accepted_validate_snapshots (items : list pyval) (i : nat)
    (loc : list loc_item) :
  accepted (validate_snapshots items i loc)
  = forallb (fun x => accepted (AssetSnapshot_validate x [])) items.
Proof.
  revert i. induction items as [|x items IH]; intro i; [reflexivity|].
  cbn [validate_snapshots forallb].
  rewrite <- (IH (S i)), <- (accepted_AssetSnapshot x (loc ++ [LIdx i])).
  destruct (AssetSnapshot_validate x (loc ++ [LIdx i])) as [[m errs]|ex];
    destruct (validate_snapshots items (S i) loc) as [[ms errs']|ex'];
    cbn [bind fst snd accepted]; try reflexivity;
    destruct errs; cbn [app]; try reflexivity; now destruct errs'.
Qed.

Lemma accepted_FundExposure (x : pyval) (loc : list loc_item) :
  accepted (FundExposure_validate_at x loc)
  = accepted (FundExposure_validate_at x []).
Proof.
  destruct x as [| | | |l|rec]; try reflexivity.
  cbn [FundExposure_validate_at].
  assert (forall loc',
    accepted (r <- validate_fields true FundExposure_fields rec loc' ;;
              rs <- match lookup "asset_snapshots" rec with
                    | None => Ok ([], [])
                    | Some (PList items) =>
                        validate_snapshots items 0
                          (loc' ++ [LKey "asset_snapshots"])
                    | Some _ =>
                        Ok ([], [(loc' ++ [LKey "asset_snapshots"],
                                  "list_type"%string)])
                    end ;;
              Ok (mkFundExposure (fst r) (fst rs), snd r ++ snd rs))%py
    = accepted (validate_fields true FundExposure_fields rec [])
      && match lookup "asset_snapshots" rec with
         | None => true
         | Some (PList items) =>
             forallb (fun x => accepted (AssetSnapshot_validate x [])) items
         | Some _ => false
         end) as H.
  { intro loc'.
    assert (accepted (validate_fields true FundExposure_fields rec [])
            = accepted (validate_fields true FundExposure_fields rec loc'))
      as -> by now rewrite !accepted_validate_fields.
    destruct (validate_fields true FundExposure_fields rec loc')
      as [[m errs]|ex]; cbn [bind fst snd accepted]; [|reflexivity].
    destruct (lookup "asset_snapshots" rec) as [[| | | |items|]|];
      cbn [bind fst snd accepted app];
      try (destruct errs; reflexivity).
    - rewrite <- (accepted_validate_snapshots items 0
                    (loc' ++ [LKey "asset_snapshots"])).
      destruct (validate_snapshots items 0 _) as [[ms errs']|ex'];
        cbn [bind fst snd accepted]; destruct errs; cbn [app];
        try reflexivity; now destruct errs'. }
  now rewrite (H loc), (H []).
Qed.

Lemma accepted_validate_items (items : list pyval) (i : nat)
    (loc : list loc_item) :
  accepted (validate_items items i loc)
  = forallb (fun x => is_ok (FundExposure_validate x)) items.
Proof.
  revert i. induction items as [|x items IH]; intro i; [reflexivity|].
  cbn [validate_items forallb]. unfold FundExposure_validate at 1.
  rewrite is_ok_finish.
  rewrite <- (IH (S i)), <- (accepted_FundExposure x (loc ++ [LIdx i])).
  destruct (FundExposure_validate_at x (loc ++ [LIdx i])) as [[m errs]|ex];
    destruct (validate_items items (S i) loc) as [[ms errs']|ex'];
    cbn [bind fst snd accepted]; try reflexivity;
    destruct errs; cbn [app]; try reflexivity; now destruct errs'.
Qed.

Lemma length_validate_items (items : list pyval) (i : nat)
    (loc : list loc_item) (r : list FundExposure * errors) :
  validate_items items i loc = Ok r ->
  List.length (fst r) = List.length items.
Proof.
  revert i r. induction items as [|x items IH]; intros i r;
    cbn [validate_items]; [now intros [= <-]|].
  destruct (FundExposure_validate_at x (loc ++ [LIdx i])) as [y|ex];
    cbn [bind]; [|discriminate].
  destruct (validate_items items (S i) loc) as [ys|ex] eqn:E;
    cbn [bind]; [|discriminate].
  intros [= <-]. cbn [fst List.length]. f_equal. exact (IH _ _ E).
Qed.

(** A batch is accepted exactly when every record of it is valid. *)
Lemma process_md_file_all_or_nothing (rec : dict) (items : list pyval) :
  lookup "items" rec = Some (PList items) ->
  is_ok (process_md_file (PDict rec))
  = forallb (fun x => is_ok (FundExposure_validate x)) items.
Proof.
  intro H. unfold process_md_file, FundExposureBatch_validate. rewrite H.
  rewrite <- (accepted_validate_items items 0 [LKey "items"]),
    <- is_ok_finish.
  now destruct (finish (validate_items items 0 [LKey "items"])).
Qed.

Lemma flatten_dump_ok (fe : FundExposure) :
  exists row, flatten_record (dump_FundExposure fe) = Ok row.
Proof.
  destruct (first_snapshot_dump fe) as (Hf & _).
  destruct (@flatten_record_dict (model_dump fe) _ Hf) as (flat & H & _).
  now exists flat.
Qed.

Lemma length_rows_of_dump (objs : list FundExposure) :
  List.length (rows_of_records (map dump_FundExposure objs))
  = List.length objs.
Proof.
  induction objs as [|fe objs IH]; [reflexivity|].
  cbn [map rows_of_records]. destruct (flatten_dump_ok fe) as [row ->].
  cbn [List.length]. now rewrite IH.
Qed.

(** An accepted batch gives one row for each of its records. *)
Lemma rows_of_accepted_batch (rec : dict) (items : list pyval) (data : pyval) :
  lookup "items" rec = Some (PList items) ->
  process_md_file (PDict rec) = Ok data ->
  List.length (rows_of_records (load_json_records data)) = List.length items.
Proof.
  intro H. unfold process_md_file, FundExposureBatch_validate. rewrite H.
  unfold finish.
  destruct (validate_items items 0 [LKey "items"]) as [[objs errs]|ex] eqn:E;
    cbn [bind fst snd]; [|discriminate].
  destruct errs; cbn [bind]; [|discriminate]. intros [= <-].
  cbn [load_json_records]. rewrite length_rows_of_dump.
  exact (@length_validate_items _ _ _ _ E).
Qed.

Lemma set_item_fresh (V : Type) (k : string) (v : V) (d : list (string * V)) :
  ~ In k (keys d) -> set_item k v d = (d ++ [(k, v)])%list.
Proof.
  induction d as [|[k' v'] d IH]; cbn [set_item keys map fst In app];
    intro H; [reflexivity|].
  destruct (String.eqb k' k) eqn:E.
  - apply String.eqb_eq in E. tauto.
  - f_equal. apply IH. unfold keys. tauto.
Qed.

(** *** The order of the names *)

Lemma ascii_compare_trans (a b c : ascii) (o : comparison) :
  Ascii.compare a b = o -> Ascii.compare b c = o -> Ascii.compare a c = o.
Proof.
  unfold Ascii.compare. destruct o; intros H1 H2.
  - apply N.compare_eq_iff in H1, H2. apply N.compare_eq_iff. congruence.
  - rewrite N.compare_lt_iff in *. lia.
  - rewrite N.compare_gt_iff in *. lia.
Qed.

Lemma string_lt_trans (s1 s2 s3 : string) :
  String.compare s1 s2 = Lt -> String.compare s2 s3 = Lt ->
  String.compare s1 s3 = Lt.
Proof.
  revert s2 s3. induction s1 as [|a s1 IH]; intros [|b s2] [|c s3];
    cbn [String.compare]; try discriminate; try reflexivity.
  destruct (Ascii.compare a b) eqn:Eab; try discriminate;
    destruct (Ascii.compare b c) eqn:Ebc; try discriminate.
  - rewrite (@ascii_compare_trans _ _ _ _ Eab Ebc). apply IH.
  - apply Ascii.compare_eq_iff in Eab as ->. now rewrite Ebc.
  - apply Ascii.compare_eq_iff in Ebc as <-. now rewrite Eab.
  - now rewrite (@ascii_compare_trans _ _ _ _ Eab Ebc).
Qed.

Lemma leb_trans (s1 s2 s3 : string) :
  String.leb s1 s2 = true -> String.leb s2 s3 = true ->
  String.leb s1 s3 = true.
Proof.
  unfold String.leb.
  destruct (String.compare s1 s2) eqn:E12; try discriminate;
    destruct (String.compare s2 s3) eqn:E23; try discriminate; intros _ _.
  - apply String.compare_eq_iff in E12 as ->. now rewrite E23.
  - apply String.compare_eq_iff in E12 as ->. now rewrite E23.
  - apply String.compare_eq_iff in E23 as <-. now rewrite E12.
  - now rewrite (@string_lt_trans _ _ _ E12 E23).
Qed.

Lemma leb_false_flip (s1 s2 : string) :
  String.leb s1 s2 = false -> String.leb s2 s1 = true.
Proof.
  intro H. destruct (String.leb_total s1 s2) as [H'|H']; congruence.
Qed.

Section Sorting.
Variables X Y : Type.
Implicit Types (f g : string * X) (fs : list (string * X)).

Lemma insert_by_name_In f g fs :
  In g (insert_by_name f fs) <-> g = f \/ In g fs.
Proof.
  induction fs as [|h fs IH]; cbn [insert_by_name In].
  - intuition.
  - destruct (String.leb (fst f) (fst h)); cbn [In]; [intuition|].
    rewrite IH. intuition.
Qed.

Lemma insert_by_name_sorted f fs :
  name_sorted fs -> name_sorted (insert_by_name f fs).
Proof.
  induction fs as [|h fs IH]; cbn [insert_by_name name_sorted].
  - intros _. split; [intros g []|exact I].
  - intros [Hh Hs]. destruct (String.leb (fst f) (fst h)) eqn:E;
      cbn [name_sorted].
    + split; [|now split]. intros g [<-|Hg]; [exact E|].
      exact (@leb_trans _ _ _ E (Hh g Hg)).
    + split; [|now apply IH]. intros g Hg.
      apply insert_by_name_In in Hg as [->|Hg];
        [now apply leb_false_flip|now apply Hh].
Qed.

Lemma sorted_by_name_sorted fs : name_sorted (sorted_by_name fs).
Proof.
  induction fs as [|f fs IH]; [exact I|].
  cbn [sorted_by_name fold_right]. now apply insert_by_name_sorted.
Qed.

Lemma sorted_by_name_In g fs : In g (sorted_by_name fs) <-> In g fs.
Proof.
  induction fs as [|f fs IH]; [reflexivity|].
  cbn [sorted_by_name fold_right In].
  rewrite insert_by_name_In. fold (sorted_by_name fs). rewrite IH.
  intuition.
Qed.

Variable keep : X -> option Y.

Lemma kept_In (h : string * Y) fs :
  In h (kept keep fs) -> exists g, In g fs /\ fst g = fst h.
Proof.
  unfold kept. intro H. apply in_flat_map in H as (g & Hg & H).
  exists g. split; [exact Hg|].
  destruct (keep (snd g)); [|destruct H].
  destruct H as [<-|[]]. reflexivity.
Qed.

Lemma kept_insert_dropped f fs :
  keep (snd f) = None ->
  kept keep (insert_by_name f fs) = kept keep fs.
Proof.
  intro H. induction fs as [|h fs IH]; cbn [insert_by_name].
  - unfold kept. cbn [flat_map]. now rewrite H.
  - destruct (String.leb (fst f) (fst h)).
    + unfold kept. cbn [flat_map]. now rewrite H.
    + unfold kept in *. cbn [flat_map]. now rewrite IH.
Qed.

Lemma insert_by_name_first (h : string * Y) (hs : list (string * Y)) :
  (forall k, In k hs -> String.leb (fst h) (fst k) = true) ->
  insert_by_name h hs = h :: hs.
Proof.
  destruct hs as [|k hs]; [reflexivity|]. intro H. cbn [insert_by_name].
  now rewrite (H k (or_introl eq_refl)).
Qed.

Lemma kept_insert_kept f (y : Y) fs :
  keep (snd f) = Some y -> name_sorted fs ->
  kept keep (insert_by_name f fs)
  = insert_by_name (fst f, y) (kept keep fs).
Proof.
  intro H. induction fs as [|h fs IH]; cbn [insert_by_name name_sorted].
  - intros _. unfold kept. cbn [flat_map]. now rewrite H.
  - intros [Hh Hs]. destruct (String.leb (fst f) (fst h)) eqn:E.
    + unfold kept. cbn [flat_map]. rewrite H. cbn [app].
      destruct (keep (snd h)) as [y'|]; cbn [app].
      * cbn [insert_by_name fst]. now rewrite E.
      * symmetry. apply insert_by_name_first. intros k Hk. cbn [fst].
        apply (@kept_In k fs) in Hk as (g' & Hg' & <-).
        exact (@leb_trans _ _ _ E (Hh g' Hg')).
    + unfold kept in *. cbn [flat_map]. rewrite (IH Hs).
      destruct (keep (snd h)) as [y'|]; cbn [app]; [|reflexivity].
      cbn [insert_by_name fst]. now rewrite E.
Qed.

(** Sorting the kept files is keeping from the sorted files. *)
Lemma sorted_kept fs :
  sorted_by_name (kept keep fs) = kept keep (sorted_by_name fs).
Proof.
  induction fs as [|f fs IH]; [reflexivity|].
  cbn [sorted_by_name fold_right]. fold (sorted_by_name fs).
  destruct (keep (snd f)) as [y|] eqn:E.
  - rewrite (@kept_insert_kept _ _ _ E (sorted_by_name_sorted fs)), <- IH.
    unfold kept at 1. cbn [flat_map]. rewrite E. reflexivity.
  - rewrite (@kept_insert_dropped _ _ E), <- IH.
    unfold kept at 1. cbn [flat_map]. rewrite E. reflexivity.
Qed.
End Sorting.

(** *** The loop and the export *)

Lemma field_matching_fold (docs : list (string * pyval)) (st : run) :
  NoDup (keys (saved st) ++ map (fun doc => json_name (fst doc)) docs) ->
  fold_left field_matching_step docs st
  = mkrun (saved st ++ flat_map saved_of docs)
          (reported st ++ flat_map reported_of docs).
Proof.
  revert st. induction docs as [|doc docs IH]; intros [sv rp] ND.
  - cbn. now rewrite !app_nil_r.
  - cbn [fold_left flat_map saved reported map] in *.
    pose proof (NoDup_remove_1 _ _ _ ND) as ND1.
    pose proof (NoDup_remove_2 _ _ _ ND) as ND2.
    assert (~ In (json_name (fst doc)) (keys sv)) as Hfresh
      by (intro H; apply ND2, in_or_app; now left).
    unfold field_matching_step at 2, saved_of at 1, reported_of at 1.
    cbn [saved reported].
    destruct (process_md_file (snd doc)) as [data|e].
    + rewrite IH; cbn [saved reported].
      * rewrite (@set_item_fresh _ _ data _ Hfresh), <- !app_assoc. reflexivity.
      * rewrite (@set_item_fresh _ _ data _ Hfresh). unfold keys in *.
        rewrite map_app, <- app_assoc. exact ND.
    + rewrite IH; cbn [saved reported]; [|exact ND1].
      now rewrite <- !app_assoc.
Qed.

Lemma saved_of_kept (docs : list (string * pyval)) :
  flat_map saved_of docs
  = kept processed (map (fun doc => (json_name (fst doc), snd doc)) docs).
Proof.
  unfold kept. induction docs as [|doc docs IH]; [reflexivity|].
  cbn [flat_map map]. rewrite IH. f_equal.
  unfold saved_of, processed. cbn [fst snd].
  now destruct (process_md_file (snd doc)).
Qed.

Lemma all_rows_kept (fs : list (string * pyval)) :
  all_rows (kept processed fs) = flat_map rows_of fs.
Proof.
  unfold all_rows, kept. induction fs as [|f fs IH]; [reflexivity|].
  cbn [flat_map]. rewrite flat_map_app, IH. f_equal.
  unfold processed, rows_of. destruct (process_md_file (snd f)); cbn;
    [now rewrite app_nil_r|reflexivity].
Qed.

Lemma export_excel_table (out_dir : list (string * pyval)) :
  export_excel out_dir = table_of (all_rows (sorted_by_name out_dir)).
Proof.
  unfold export_excel, table_of. now destruct (all_rows _).
Qed.

Lemma export_of_run (docs : list (string * pyval)) :
  export_excel (flat_map saved_of docs)
  = table_of (flat_map rows_of (by_json_name docs)).
Proof.
  rewrite export_excel_table, saved_of_kept, sorted_kept, all_rows_kept.
  reflexivity.
Qed.

(** C4, as stated, fails: of a batch of three records whose second lacks
    [OICR] nothing is saved, the failure printed is that of the document,
    and the export finds no row and writes no table. *)
Lemma one_invalid_record_rejects_the_batch :
  map (fun x => is_ok (FundExposure_validate x)) three_records
  = [true; false; true]
  /\ field_matching [("reports/q2.md"%string, batch_of three_records)]
     = mkrun []
         [("reports/q2.md"%string,
           ValidationError
             [([LKey "items"; LIdx 1; LKey "OICR"], "missing"%string)])]
  /\ export_excel
       (saved (field_matching
                 [("reports/q2.md"%string, batch_of three_records)]))
     = None.
Proof. vm_compute. repeat split. Qed.

(** C4, amended.  Failures are isolated at the granularity of a document:
    over documents whose JSON files have distinct names, the output folder
    holds the file of each document whose batch was accepted, the failure
    of every other document is printed with its path, and the table
    exported from that folder has the rows of the accepted documents in the
    order of the names of their JSON files, those of a failing document
    apart, and is not written when there is no row; a batch is accepted
    exactly when every record of it is valid, and an accepted batch gives
    one row for each of its records. *)
Theorem failure_isolation_per_document :
  (forall docs,
     NoDup (map (fun doc => json_name (fst doc)) docs) ->
     field_matching docs
     = mkrun (flat_map saved_of docs) (flat_map reported_of docs)
     /\ export_excel (saved (field_matching docs))
        = table_of (flat_map rows_of (by_json_name docs)))
  /\ (forall rec items,
        lookup "items" rec = Some (PList items) ->
        is_ok (process_md_file (PDict rec))
        = forallb (fun x => is_ok (FundExposure_validate x)) items
        /\ forall data,
             process_md_file (PDict rec) = Ok data ->
             List.length (rows_of_records (load_json_records data))
             = List.length items).
Proof.
  split.
  - intros docs ND.
    assert (field_matching docs
            = mkrun (flat_map saved_of docs) (flat_map reported_of docs)) as E
      by (unfold field_matching; now rewrite field_matching_fold).
    split; [exact E|]. rewrite E. apply export_of_run.
  - intros rec items H. split.
    + exact (@process_md_file_all_or_nothing rec items H).
    + intros data. exact (@rows_of_accepted_batch rec items data H).
Qed.

(** The rule on three documents found in this order: [b.md] with one valid
    record, [a.md] with the batch of three records whose second is
    invalid, [a-b.md] with one valid record in euro.  The folder gets
    [b.json] and [a-b.json], the failure of [a.md] is printed, and the
    table has two rows, that of [a-b.json] first. *)
Lemma failure_isolation_per_document_witness :
  let docs := [("reports/b.md"%string, batch_of [nth 0 three_records PNone]);
               ("reports/a.md"%string, batch_of three_records);
               ("reports/sub/a-b.md"%string,
                batch_of [nth 2 three_records PNone])] in
  NoDup (map (fun doc => json_name (fst doc)) docs)
  /\ map fst (saved (field_matching docs)) = ["b.json"; "a-b.json"]%string
  /\ map fst (reported (field_matching docs)) = ["reports/a.md"%string]
  /\ map fst (by_json_name docs) = ["a-b.json"; "a.json"; "b.json"]%string
  /\ option_map (fun t => map (get "Currency_Asset") (snd t))
       (export_excel (saved (field_matching docs)))
     = Some [PStr (u "EUR"); PNone].
Proof.
  intro docs.
  assert (NoDup (map (fun doc => json_name (fst doc)) docs)) as ND.
  { vm_compute. repeat constructor; cbn; intuition discriminate. }
  split; [exact ND|].
  destruct (proj1 failure_isolation_per_document docs ND) as [E R].
  rewrite R, E. vm_compute. repeat split.
Defined.
